(** * Validator processor of gwat: a shallow embedding and its properties

    The development follows the processor of package [validator]:
    the operation dispatcher [Call], the self-service operations
    (deposit, exit, withdrawal) and the coordinator-only sync operations
    (activate, deactivate, update balance), together with the
    cross-validation of sync operations against the coordinated data.

    Conventions of the embedding:
    - [*big.Int] is [Z]; a possibly nil [*big.Int] is [option Z];
    - [uint64] is [Z] and every [uint64] addition of the source is written
      with its wrap-around ([common.wrap64]);
    - addresses, hashes and keys are fixed-size byte arrays, represented by
      the number they encode ([N]); the zero value of the array is [0];
    - a Go map is a [gmap]; ranging over a map follows [map_to_list];
    - the mutable [vm.StateDB] behind [p.state] is threaded explicitly;
    - a nil dereference of the source is the outcome [Panic]. *)

From Stdlib Require Import ZArith Lia.
From stdpp Require Import base option list gmap strings.

Local Open Scope Z_scope.

(** ** Package [common] *)
Module common.

Abbreviation Address := N (only parsing).
Abbreviation Hash := N (only parsing).
Abbreviation BlsPubKey := N (only parsing).
Abbreviation BlsSignature := N (only parsing).

(** [common.Hash{}] *)
Definition zeroHash : Hash := 0%N.

(** Modelled from the spec: the constants [common.BigGwei] and
    [common.BigWat] are not part of the sources at hand; the spec gives
    the minimal deposit of 10 wat as "10 x 10^18 base units", and the
    amounts of the logs are in gwei, 10^9 base units. *)
Definition Big0 : Z := 0.
Definition BigGwei : Z := 1000000000.
Definition BigWat : Z := 1000000000000000000.

(** [math.MaxUint64] *)
Definition MaxUint64 : Z := 18446744073709551615.

(** Arithmetic on [uint64] wraps around. *)
Definition wrap64 (x : Z) : Z := x mod 18446744073709551616.

(** Modelled from the spec: [common.BnCanCastToUint64] is not part of the
    sources at hand; the spec calls its failure "value not representable
    in the log's amount unit", i.e. the number does not fit a [uint64]. *)
Definition BnCanCastToUint64 (x : Z) : bool :=
  (0 <=? x) && (x <=? MaxUint64).

End common.

(** ** Errors *)

(** Errors raised by collaborators outside of package [validator]
    (codec, rlp, signature check, slot arithmetic, record encoding) are
    opaque values that can never be equal to one of the package's own
    error variables. *)
Abbreviation ExtError := N (only parsing).

Inductive error : Type :=
  (* package validator *)
  | ErrTooLowDepositValue
  | ErrInsufficientFundsForOp
  | ErrInvalidFromAddresses
  | ErrUnknownValidator
  | ErrNoWithdrawalCred
  | ErrMismatchPulicKey
  | ErrNotActivatedValidator
  | ErrValidatorActivated
  | ErrValidatorIsOut
  | ErrInvalidToAddress
  | ErrNoSavedValSyncOp
  | ErrValSyncTxExists
  | ErrValOpBlocked
  | ErrNoActiveWithdrawalOp
  | ErrMismatchValSyncOp
  | ErrInvalidOpEpoch
  | ErrTxNF
  | ErrReceiptNF
  | ErrInvalidReceiptStatus
  | ErrInvalidOpCode
  | ErrInvalidCreator
  | ErrInvalidAmount
  | ErrMismatchDelegateData
  | ErrSenderRejByDelegate
  (* package operation *)
  | ErrDelegateForkRequire
  | ErrNoBalance
  | ErrBadProfitShare
  | ErrBadStakeShare
  | ErrNoExitRoles
  | ErrNoWithdrawalRoles
  (* package storage *)
  | ErrInsufficientStake
  (* fmt.Errorf("%w: address %v", err, addr) *)
  | ErrWrapAddress (e : error) (a : common.Address)
  (* errors.New(msg) and fmt.Errorf(msg, hash) *)
  | ErrNew (msg : string)
  | ErrNewHash (msg : string) (h : common.Hash)
  (* error of a collaborator *)
  | ErrExt (e : ExtError).

(** Outcome of a call: a value, a returned error, or a run-time panic. *)
Inductive result (A : Type) : Type :=
  | Ok (a : A)
  | Err (e : error)
  | Panic.
Arguments Ok {A} a.
Arguments Err {A} e.
Arguments Panic {A}.

(** ** Package [operation] *)
Module operation.

Inductive Code : Type :=
  | DepositCode
  | ActivateCode
  | ExitCode
  | DeactivateCode
  | WithdrawalCode
  | UpdateBalanceCode
  | DelegatingStakeCode.

#[global] Instance Code_eq_dec : EqDecision Code.
Proof. solve_decision. Defined.

(** Version of a sync operation. *)
Inductive VersionOp : Type := NoVer | Ver1.

#[global] Instance VersionOp_eq_dec : EqDecision VersionOp.
Proof. solve_decision. Defined.

(** [DelegatingStakeRules]: share maps give a percentage ([uint8]) per
    address, the role lists name who may request exit and withdrawal. *)
Record DelegatingStakeRules : Type := mkRules {
  ProfitShare : gmap N Z;
  StakeShare : gmap N Z;
  Exit : list common.Address;
  Withdrawal : list common.Address;
}.

(** Sum of the percentages of a share map. *)
Definition sumShare (m : gmap N Z) : Z :=
  foldr (fun kv acc => kv.2 + acc) 0 (map_to_list m).

(** Modelled from the spec: [DelegatingStakeRules.Validate] is not part
    of the sources at hand (only its test is). The spec: "enforces:
    profit-share sum == 100, stake-share sum == 100, exit list non-empty,
    withdrawal list non-empty; returns the first violated rule as a
    named error". [None] is the nil error. *)
Definition Validate (dsr : DelegatingStakeRules) : option error :=
  if negb (sumShare (ProfitShare dsr) =? 100) then Some ErrBadProfitShare
  else if negb (sumShare (StakeShare dsr) =? 100) then Some ErrBadStakeShare
  else if Nat.eqb (length (Exit dsr)) 0 then Some ErrNoExitRoles
  else if Nat.eqb (length (Withdrawal dsr)) 0 then Some ErrNoWithdrawalRoles
  else None.

Record DelegatingStakeData : Type := mkStakeData {
  Rules : DelegatingStakeRules;
  TrialPeriod : Z;
  TrialRules : DelegatingStakeRules;
}.

Record Deposit : Type := mkDeposit {
  dPubKey : common.BlsPubKey;
  dCreatorAddress : common.Address;
  dWithdrawalAddress : common.Address;
  dSignature : common.BlsSignature;
  dDelegatingStake : option DelegatingStakeData;
}.

Record ExitOp : Type := mkExit {
  ePubKey : common.BlsPubKey;
  eCreatorAddress : common.Address;
  eExitAfterEpoch : option Z;
}.

(** The amount of a decoded withdrawal is not nil. *)
Record WithdrawalOp : Type := mkWithdrawal {
  wCreatorAddress : common.Address;
  wAmount : Z;
}.

(** [types.ValidatorSyncOpType] *)
Inductive OpType : Type := Activate | Deactivate | UpdateBalance.

#[global] Instance OpType_eq_dec : EqDecision OpType.
Proof. solve_decision. Defined.

Record ValidatorSync : Type := mkValidatorSync {
  vsVersion : VersionOp;
  vsOpType : OpType;
  vsProcEpoch : Z;
  vsIndex : Z;
  vsCreator : common.Address;
  vsAmount : option Z;
  vsBalance : option Z;
  vsInitTxHash : common.Hash;
}.

(** The tagged operation returned by [DecodeBytes]. *)
Inductive Operation : Type :=
  | OpDeposit (v : Deposit)
  | OpValidatorSync (v : ValidatorSync)
  | OpExit (v : ExitOp)
  | OpWithdrawal (v : WithdrawalOp)
  | OpDelegatingStakeRules (v : DelegatingStakeRules).

(** [ValidatorSync.OpCode]: the code of a sync operation follows its type. *)
Definition vsOpCode (op : ValidatorSync) : Code :=
  match vsOpType op with
  | Activate => ActivateCode
  | Deactivate => DeactivateCode
  | UpdateBalance => UpdateBalanceCode
  end.

Definition OpCode (op : Operation) : Code :=
  match op with
  | OpDeposit _ => DepositCode
  | OpValidatorSync v => vsOpCode v
  | OpExit _ => ExitCode
  | OpWithdrawal _ => WithdrawalCode
  | OpDelegatingStakeRules _ => DelegatingStakeCode
  end.

End operation.

(** ** Package [params]: the chain configuration *)
Module params.

(** Only the fields and fork predicates the processor reads. The fork
    predicates ([IsForkSlotDelegate] and the like) are functions of the
    slot; their activation slots are configuration data. *)
Record ChainConfig : Type := mkChainConfig {
  ValidatorsStateAddress : option common.Address;
  EffectiveBalance : Z;
  ValidatorOpExpireSlots : Z;
  IsForkSlotDelegate : Z -> bool;
  IsForkSlotValOpTracking : Z -> bool;
  IsForkSlotValSyncProc : Z -> bool;
}.

End params.

(** ** Package [era] *)
Module era.

Record Era : Type := mkEra {
  Number : Z;
  From : Z;
  To : Z;
}.

End era.

(** ** Package [types]: chain data read by the processor *)
Module types.

(** Modelled from the spec: the receipt status constants are not part of
    the sources at hand; a receipt is "successful" or "failed". *)
Definition ReceiptStatusFailed : Z := 0.
Definition ReceiptStatusSuccessful : Z := 1.

Record Receipt : Type := mkReceipt {
  Status : Z;
}.

Record Header : Type := mkHeader {
  Slot : Z;
}.

(** A transaction: its payload and the sender recovered from its
    signature ([types.Sender(signer, tx)]). *)
Record Transaction : Type := mkTransaction {
  Data : list Z;
  Sender : common.Address;
}.

(** The coordinated ("saved") validator sync record. *)
Record ValidatorSync : Type := mkValidatorSync {
  OpType : operation.OpType;
  ProcEpoch : Z;
  Index : Z;
  Creator : common.Address;
  Amount : option Z;
  Balance : option Z;
  InitTxHash : common.Hash;
  TxHash : option common.Hash;
}.

End types.

(** ** Package [txlog]: payloads of the event logs *)
Module txlog.

Inductive ShareRuleType : Type := ProfitShare | StakeShare.

Record ShareRuleApplying : Type := mkShareRuleApplying {
  Address : common.Address;
  RuleType : ShareRuleType;
  IsTrial : bool;
  Amount : Z;
}.

(** The payload of a log before its binary packing. *)
Inductive LogData : Type :=
  | DepositLogData (pubkey : common.BlsPubKey) (creator withdrawal : common.Address)
      (value : Z) (signature : common.BlsSignature) (depositIndex : Z)
  | ExitRequestLogData (pubkey : common.BlsPubKey) (creator : common.Address)
      (valIndex : Z) (exitAfterEpoch : option Z)
  | WithdrawalLogData (pubkey : common.BlsPubKey) (creator : common.Address)
      (valIndex : Z) (amtGwei : Z)
  | ActivateLogData (initTxHash : common.Hash) (creator : common.Address)
      (procEpoch : Z) (valIndex : Z)
  | DeactivateLogData (initTxHash : common.Hash) (creator : common.Address)
      (procEpoch : Z) (valIndex : Z)
  | UpdateBalanceLogData (initTxHash : common.Hash) (creator : common.Address)
      (procEpoch : Z) (amount : option Z)
  | DelegatingStakeLogData (shares : list ShareRuleApplying).

Inductive EventKind : Type :=
  | EvtDeposit
  | EvtExitRequest
  | EvtWithdrawalRequest
  | EvtActivate
  | EvtDeactivate
  | EvtUpdateBalance
  | EvtDelegatingStake.

(** [types.Log] as the emitter builds it: the emitting address, the event
    signature, the further topics, the payload. *)
Record Log : Type := mkLog {
  LogAddress : common.Address;
  Signature : EventKind;
  Topics : list N;
  LogPayload : LogData;
}.

(** Modelled from the spec: [DelegatingStakeLogData.Topics] is not part
    of the sources at hand; the topics of the distribution log are taken
    to be the credited addresses. *)
Definition Topics_of_shares (l : list ShareRuleApplying) : list N :=
  map Address l.

End txlog.

(** ** Package [storage] ([valStore]): the validator record *)
Module valStore.

(** Modelled from the spec: the versions of the validator record are not
    part of the sources at hand; "if the fork-activation slot for
    operation-tracking has passed, the record's version is bumped to
    Ver1". *)
Definition NoVer : Z := 0.
Definition Ver1 : Z := 1.

(** Modelled from the spec: the [Validator] struct and its methods are not
    part of the sources at hand. Fields follow section 3 of the spec
    (data model): the stake ledger maps a depositor to the deposited
    amount, [DepositTxs] records the contributing deposits, at most one
    pending exit and one pending withdrawal tx hash, the schema version. *)
Record Validator : Type := mkValidator {
  PubKey : common.BlsPubKey;
  Address : common.Address;
  WithdrawalAddress : option common.Address;
  Index : Z;
  ActivationEra : Z;
  ExitEra : Z;
  Stake : gmap N Z;
  DelegatingStake : option operation.DelegatingStakeData;
  version : Z;
  depositTxs : list common.Hash;
  withdrawalTx : option common.Hash;
  exitTx : option common.Hash;
}.

(** Modelled from the spec: a fresh record is neither activated nor
    exited (both eras at the max-uint64 sentinel), has an empty ledger and
    no pending operation. *)
Definition NewValidator (pubKey : common.BlsPubKey) (address : common.Address)
    (withdrawal : option common.Address) : Validator :=
  {| PubKey := pubKey; Address := address; WithdrawalAddress := withdrawal;
     Index := common.MaxUint64;
     ActivationEra := common.MaxUint64; ExitEra := common.MaxUint64;
     Stake := ∅; DelegatingStake := None; version := NoVer;
     depositTxs := []; withdrawalTx := None; exitTx := None |}.

Definition SetDelegatingStake (v : Validator) (d : option operation.DelegatingStakeData) : Validator :=
  {| PubKey := PubKey v; Address := Address v; WithdrawalAddress := WithdrawalAddress v;
     Index := Index v; ActivationEra := ActivationEra v; ExitEra := ExitEra v;
     Stake := Stake v; DelegatingStake := d; version := version v;
     depositTxs := depositTxs v; withdrawalTx := withdrawalTx v; exitTx := exitTx v |}.

Definition SetIndex (v : Validator) (i : Z) : Validator :=
  {| PubKey := PubKey v; Address := Address v; WithdrawalAddress := WithdrawalAddress v;
     Index := i; ActivationEra := ActivationEra v; ExitEra := ExitEra v;
     Stake := Stake v; DelegatingStake := DelegatingStake v; version := version v;
     depositTxs := depositTxs v; withdrawalTx := withdrawalTx v; exitTx := exitTx v |}.

Definition SetActivationEra (v : Validator) (e : Z) : Validator :=
  {| PubKey := PubKey v; Address := Address v; WithdrawalAddress := WithdrawalAddress v;
     Index := Index v; ActivationEra := e; ExitEra := ExitEra v;
     Stake := Stake v; DelegatingStake := DelegatingStake v; version := version v;
     depositTxs := depositTxs v; withdrawalTx := withdrawalTx v; exitTx := exitTx v |}.

Definition SetExitEra (v : Validator) (e : Z) : Validator :=
  {| PubKey := PubKey v; Address := Address v; WithdrawalAddress := WithdrawalAddress v;
     Index := Index v; ActivationEra := ActivationEra v; ExitEra := e;
     Stake := Stake v; DelegatingStake := DelegatingStake v; version := version v;
     depositTxs := depositTxs v; withdrawalTx := withdrawalTx v; exitTx := exitTx v |}.

Definition SetStake (v : Validator) (m : gmap N Z) : Validator :=
  {| PubKey := PubKey v; Address := Address v; WithdrawalAddress := WithdrawalAddress v;
     Index := Index v; ActivationEra := ActivationEra v; ExitEra := ExitEra v;
     Stake := m; DelegatingStake := DelegatingStake v; version := version v;
     depositTxs := depositTxs v; withdrawalTx := withdrawalTx v; exitTx := exitTx v |}.

Definition SetVersion (v : Validator) (ver : Z) : Validator :=
  {| PubKey := PubKey v; Address := Address v; WithdrawalAddress := WithdrawalAddress v;
     Index := Index v; ActivationEra := ActivationEra v; ExitEra := ExitEra v;
     Stake := Stake v; DelegatingStake := DelegatingStake v; version := ver;
     depositTxs := depositTxs v; withdrawalTx := withdrawalTx v; exitTx := exitTx v |}.

Definition SetDepositTxs (v : Validator) (l : list common.Hash) : Validator :=
  {| PubKey := PubKey v; Address := Address v; WithdrawalAddress := WithdrawalAddress v;
     Index := Index v; ActivationEra := ActivationEra v; ExitEra := ExitEra v;
     Stake := Stake v; DelegatingStake := DelegatingStake v; version := version v;
     depositTxs := l; withdrawalTx := withdrawalTx v; exitTx := exitTx v |}.

Definition SetWithdrawalTx (v : Validator) (h : option common.Hash) : Validator :=
  {| PubKey := PubKey v; Address := Address v; WithdrawalAddress := WithdrawalAddress v;
     Index := Index v; ActivationEra := ActivationEra v; ExitEra := ExitEra v;
     Stake := Stake v; DelegatingStake := DelegatingStake v; version := version v;
     depositTxs := depositTxs v; withdrawalTx := h; exitTx := exitTx v |}.

Definition SetExitTx (v : Validator) (h : option common.Hash) : Validator :=
  {| PubKey := PubKey v; Address := Address v; WithdrawalAddress := WithdrawalAddress v;
     Index := Index v; ActivationEra := ActivationEra v; ExitEra := ExitEra v;
     Stake := Stake v; DelegatingStake := DelegatingStake v; version := version v;
     depositTxs := depositTxs v; withdrawalTx := withdrawalTx v; exitTx := h |}.

Definition Version (v : Validator) : Z := version v.
Definition GetPubKey (v : Validator) : common.BlsPubKey := PubKey v.
Definition GetIndex (v : Validator) : Z := Index v.
Definition GetActivationEra (v : Validator) : Z := ActivationEra v.
Definition GetExitEra (v : Validator) : Z := ExitEra v.
Definition GetWithdrawalAddress (v : Validator) : option common.Address := WithdrawalAddress v.
Definition GetWithdrawalTx (v : Validator) : option common.Hash := withdrawalTx v.
Definition GetExitTx (v : Validator) : option common.Hash := exitTx v.
Definition HasDelegatingStake (v : Validator) : bool := bool_decide (is_Some (DelegatingStake v)).

Definition AddDepositTxs (v : Validator) (h : common.Hash) : Validator :=
  SetDepositTxs v (depositTxs v ++ [h]).
Definition ResetDepositTxs (v : Validator) : Validator := SetDepositTxs v [].

(** Modelled from the spec: the stake ledger ("mapping from depositor
    address to deposited amount"). [StakeByAddress] is nil for an address
    without entry; [TotalStake] sums the ledger; [SubtractStake] fails when
    the entry does not cover the amount and otherwise returns the new
    stake of the address; eviction of a zero entry is left to the caller
    ([RmStakeByAddress]), as the processor does. *)
Definition StakeByAddress (v : Validator) (a : common.Address) : option Z := Stake v !! a.

Definition TotalStake (v : Validator) : option Z :=
  Some (foldr (fun kv acc => kv.2 + acc) 0 (map_to_list (Stake v))).

Definition AddStake (v : Validator) (a : common.Address) (sum : Z) : Validator :=
  SetStake v (<[a := default 0 (Stake v !! a) + sum]> (Stake v)).

Definition SubtractStake (v : Validator) (a : common.Address) (sum : Z)
    : Validator * option Z * option error :=
  match Stake v !! a with
  | None => (v, None, Some ErrInsufficientStake)
  | Some cur =>
      if cur <? sum then (v, None, Some ErrInsufficientStake)
      else (SetStake v (<[a := cur - sum]> (Stake v)), Some (cur - sum), None)
  end.

Definition RmStakeByAddress (v : Validator) (a : common.Address) : Validator :=
  SetStake v (delete a (Stake v)).

Definition UnsetStake (v : Validator) : Validator := SetStake v ∅.

End valStore.

(** ** Package [vm]: the state accessor and the block context *)
Module vm.

(** Modelled from the spec: [vm.StateDB] is an interface whose
    implementation is not part of the sources at hand ("balance
    get/add/sub, nonce, snapshot/revert, log emission"). The world state
    as the processor sees it: balances, nonces, the event logs of the
    transaction, and the part of the trie owned by the validator storage
    (records by creator address, the deposit counter, the list of
    validators by index). *)
Record StateDB : Type := mkStateDB {
  balances : gmap N Z;
  nonces : gmap N Z;
  logs : list txlog.Log;
  validators : gmap N valStore.Validator;
  depositCount : Z;
  validatorsList : gmap Z N;
}.

Definition GetBalance (s : StateDB) (a : common.Address) : Z :=
  default 0 (balances s !! a).

Definition setBalances (s : StateDB) (b : gmap N Z) : StateDB :=
  {| balances := b; nonces := nonces s; logs := logs s;
     validators := validators s; depositCount := depositCount s;
     validatorsList := validatorsList s |}.

Definition AddBalance (s : StateDB) (a : common.Address) (amount : Z) : StateDB :=
  setBalances s (<[a := GetBalance s a + amount]> (balances s)).

Definition SubBalance (s : StateDB) (a : common.Address) (amount : Z) : StateDB :=
  setBalances s (<[a := GetBalance s a - amount]> (balances s)).

Definition GetNonce (s : StateDB) (a : common.Address) : Z :=
  default 0 (nonces s !! a).

Definition SetNonce (s : StateDB) (a : common.Address) (n : Z) : StateDB :=
  {| balances := balances s; nonces := <[a := n]> (nonces s); logs := logs s;
     validators := validators s; depositCount := depositCount s;
     validatorsList := validatorsList s |}.

Definition AddLog (s : StateDB) (l : txlog.Log) : StateDB :=
  {| balances := balances s; nonces := nonces s; logs := logs s ++ [l];
     validators := validators s; depositCount := depositCount s;
     validatorsList := validatorsList s |}.

(** [Snapshot] and [RevertToSnapshot]: the journal of the state is
    represented by the saved value of the state itself. *)
Definition Snapshot (s : StateDB) : StateDB := s.
Definition RevertToSnapshot (s : StateDB) (snapshot : StateDB) : StateDB := snapshot.

Record BlockContext : Type := mkBlockContext {
  Slot : Z;
  Era : Z;
  BlockHash : common.Hash;
}.

End vm.

(** ** Package [validator]: collaborators of the processor *)

(** The [blockchain] interface, restricted to what the processor calls.
    [SlotToEpoch], [CurrentSlot] and [SlotOfEpochStart] belong to
    [GetSlotInfo()], [EraInfoNumber] is [GetEraInfo().Number()], and
    [ReadEra] is [rawdb.ReadEra(bc.Database(), n)]. Of the triples
    returned by [GetTransaction] and [GetTransactionReceipt] only the
    components that are read are kept. *)
Record blockchain : Type := mkBlockchain {
  Config : params.ChainConfig;
  EpochToEra : Z -> option era.Era;
  SlotToEpoch : Z -> Z;
  CurrentSlot : Z;
  SlotOfEpochStart : Z -> ExtError + Z;
  EraInfoNumber : Z;
  ReadEra : Z -> option era.Era;
  GetValidatorSyncData : common.Hash -> option types.ValidatorSync;
  GetTransaction : common.Hash -> option types.Transaction;
  GetTransactionReceipt : common.Hash -> option types.Receipt * common.Hash;
  GetHeaderByHash : common.Hash -> option types.Header;
}.

(** Functions of other packages whose code is not part of the sources at
    hand and whose results the processor only passes on: the operation
    codec, the signature check, the constructor and the binary encoding of
    the delegating stake data, and the failures of the rlp encoder (for
    log payloads and for validator records). They are parameters. *)
Record externals : Type := mkExternals {
  DecodeBytes : list Z -> ExtError + operation.Operation;
  VerifyDepositSig : common.BlsSignature -> common.BlsPubKey ->
                     common.Address -> common.Address -> option ExtError;
  NewDelegatingStakeData : operation.DelegatingStakeRules -> Z ->
                           operation.DelegatingStakeRules ->
                           ExtError + operation.DelegatingStakeData;
  MarshalDelegatingStake : option operation.DelegatingStakeData -> ExtError + list Z;
  rlpEncodeErr : txlog.LogData -> option ExtError;
  validatorEncodeErr : valStore.Validator -> option ExtError;
  noValidatorInfoErr : option ExtError;
}.

(** [Processor] without its state, which is threaded through the calls. *)
Record Processor : Type := mkProcessor {
  ctx : vm.BlockContext;
  bc : blockchain;
  lib : externals;
}.

Record message : Type := mkMessage {
  msgTxHash : common.Hash;
  msgData : list Z;
}.

(** The bytes returned by an operation: [value.FillBytes(make([]byte, 32))],
    the bytes of the creator address, or nil. *)
Inductive Ret : Type :=
  | RetNil
  | RetValue32 (v : Z)
  | RetAddressBytes (a : common.Address).

Definition postpone : Z := 2.

(** minimal value - 10 wat *)
Definition MinDepositVal : Z := 10000000000000000000.

(** ** The validator storage over the state *)
Module Storage.

Definition GetValidatorsStateAddress (p : Processor) : option common.Address :=
  params.ValidatorsStateAddress (Config (bc p)).

(** Modelled from the spec: [Storage.GetValidator] is not part of the
    sources at hand. The record of a creator is read from the state; the
    pointer is nil when there is none, and the accompanying error (which
    [validatorDeposit] ignores) is a parameter. *)
Definition GetValidator (p : Processor) (s : vm.StateDB) (a : common.Address)
    : option valStore.Validator * option error :=
  match vm.validators s !! a with
  | Some v => (Some v, None)
  | None => (None, ErrExt <$> noValidatorInfoErr (lib p))
  end.

(** Modelled from the spec: [Storage.SetValidator] is not part of the
    sources at hand. The record is encoded and written at its creator
    address; a failure of the encoder leaves the state as it is. *)
Definition SetValidator (p : Processor) (s : vm.StateDB) (v : valStore.Validator)
    : vm.StateDB * option error :=
  match validatorEncodeErr (lib p) v with
  | Some e => (s, Some (ErrExt e))
  | None =>
      ({| vm.balances := vm.balances s; vm.nonces := vm.nonces s; vm.logs := vm.logs s;
          vm.validators := <[valStore.Address v := v]> (vm.validators s);
          vm.depositCount := vm.depositCount s;
          vm.validatorsList := vm.validatorsList s |}, None)
  end.

Definition GetDepositCount (s : vm.StateDB) : Z := vm.depositCount s.

(** Modelled from the spec: [Storage.IncrementDepositCount] is not part
    of the sources at hand; the spec: "increment global deposit counter". *)
Definition IncrementDepositCount (s : vm.StateDB) : vm.StateDB :=
  {| vm.balances := vm.balances s; vm.nonces := vm.nonces s; vm.logs := vm.logs s;
     vm.validators := vm.validators s;
     vm.depositCount := vm.depositCount s + 1;
     vm.validatorsList := vm.validatorsList s |}.

(** Modelled from the spec: [Storage.AddValidatorToList] is not part of
    the sources at hand; the spec: "register validator in the global index
    list". *)
Definition AddValidatorToList (s : vm.StateDB) (index : Z) (creator : common.Address) : vm.StateDB :=
  {| vm.balances := vm.balances s; vm.nonces := vm.nonces s; vm.logs := vm.logs s;
     vm.validators := vm.validators s;
     vm.depositCount := vm.depositCount s;
     vm.validatorsList := <[index := creator]> (vm.validatorsList s) |}.

End Storage.

(** ** The event emitter *)
Module EventEmmiter.

(** Packing of a payload whose [Pack...LogData] returns an error: as in
    [PackDeactivateLogData], the payload is handed to the rlp encoder,
    which may fail. *)
Definition pack (p : Processor) (d : txlog.LogData) : ExtError + txlog.LogData :=
  match rlpEncodeErr (lib p) d with
  | Some e => inl e
  | None => inr d
  end.

(** Modelled from the spec: of the methods of the emitter only
    [AddDeactivateLog] is part of the sources at hand; the others are taken
    to add one log to the state in the same way, "address = validators-state
    account, topic list including an operation-specific signature hash,
    creator address, and relevant tx hash; data = packed binary payload". *)
Definition Deposit (s : vm.StateDB) (evtAddr : common.Address) (data : txlog.LogData) : vm.StateDB :=
  vm.AddLog s (txlog.mkLog evtAddr txlog.EvtDeposit [] data).

Definition ExitRequest (s : vm.StateDB) (evtAddr : common.Address) (data : txlog.LogData) : vm.StateDB :=
  vm.AddLog s (txlog.mkLog evtAddr txlog.EvtExitRequest [] data).

Definition WithdrawalRequest (s : vm.StateDB) (evtAddr : common.Address) (data : txlog.LogData) : vm.StateDB :=
  vm.AddLog s (txlog.mkLog evtAddr txlog.EvtWithdrawalRequest [] data).

Definition AddActivateLog (s : vm.StateDB) (stateValAdr : common.Address)
    (data : txlog.LogData) (creatorAdr : common.Address) (initTxHash : common.Hash) : vm.StateDB :=
  vm.AddLog s (txlog.mkLog stateValAdr txlog.EvtActivate [creatorAdr; initTxHash] data).

Definition AddDeactivateLog (s : vm.StateDB) (stateValAdr : common.Address)
    (data : txlog.LogData) (creatorAdr : common.Address) (initTxHash : common.Hash) : vm.StateDB :=
  vm.AddLog s (txlog.mkLog stateValAdr txlog.EvtDeactivate [creatorAdr; initTxHash] data).

Definition AddUpdateBalanceLog (s : vm.StateDB) (stateValAdr : common.Address)
    (data : txlog.LogData) (creatorAdr : common.Address) (initTxHash : common.Hash)
    (withdrawalTo : option common.Address) : vm.StateDB :=
  vm.AddLog s (txlog.mkLog stateValAdr txlog.EvtUpdateBalance
                 ([creatorAdr; initTxHash] ++ option_list withdrawalTo) data).

Definition AddDelegatingStakeLog (s : vm.StateDB) (stateValAdr : common.Address)
    (data : txlog.LogData) (topics : list N) : vm.StateDB :=
  vm.AddLog s (txlog.mkLog stateValAdr txlog.EvtDelegatingStake topics data).

End EventEmmiter.

(** ** The processor *)

Definition getDepositCount (s : vm.StateDB) : Z := Storage.GetDepositCount s.

Definition incrDepositCount (s : vm.StateDB) : vm.StateDB := Storage.IncrementDepositCount s.

Definition GetValidatorsStateAddress (p : Processor) : common.Address :=
  match Storage.GetValidatorsStateAddress p with
  | None => 0%N
  | Some valAddress => valAddress
  end.

(** IsValidatorOp returns true if tx is validator operation *)
Definition IsValidatorOp (p : Processor) (addrTo : option common.Address) : bool :=
  match addrTo with
  | None => false
  | Some a => (a =? GetValidatorsStateAddress p)%N
  end.

Definition updateValidatorVersionBySlot (p : Processor) (validator : valStore.Validator)
    : valStore.Validator :=
  let ver := valStore.NoVer in
  let bcConf := Config (bc p) in
  let slot := vm.Slot (ctx p) in
  let ver := if params.IsForkSlotValOpTracking bcConf slot then valStore.Ver1 else ver in
  valStore.SetVersion validator ver.

Definition isValidatorTrialPeriod (p : Processor) (validator : valStore.Validator) : result bool :=
  (* if validator is not activated yet - trial period *)
  if valStore.GetActivationEra validator >? vm.Era (ctx p) then Ok true else
  match ReadEra (bc p) (valStore.GetActivationEra validator) with
  | None => Panic
  | Some activationEra =>
  match SlotOfEpochStart (bc p) (era.From activationEra) with
  | inl err => Err (ErrExt err)
  | inr activationSlot =>
  match valStore.DelegatingStake validator with
  | None => Panic
  | Some ds =>
  let endTrialSlot := common.wrap64 (activationSlot + operation.TrialPeriod ds) in
  if endTrialSlot >=? vm.Slot (ctx p) then Ok true else
  (* if validator deactivated while trial period - trial period *)
  if valStore.GetExitEra validator <=? vm.Era (ctx p) then
    match ReadEra (bc p) (valStore.GetExitEra validator) with
    | None => Panic
    | Some exitEra =>
    match SlotOfEpochStart (bc p) (era.From exitEra) with
    | inl err => Err (ErrExt err)
    | inr exitSlot =>
        if exitSlot <=? endTrialSlot then Ok true else Ok false
    end
    end
  else Ok false
  end
  end
  end.

(** The rules in force for a validator with delegating stake: the trial
    rules during the trial period ([actualRules] of the source). *)
Definition actualRules (p : Processor) (validator : valStore.Validator)
    : result (operation.DelegatingStakeRules * bool) :=
  match valStore.DelegatingStake validator with
  | None => Panic
  | Some ds =>
      match isValidatorTrialPeriod p validator with
      | Err e => Err e
      | Panic => Panic
      | Ok isTrial =>
          Ok (if isTrial then operation.TrialRules ds else operation.Rules ds, isTrial)
      end
  end.

Definition validatorDeposit (p : Processor) (s : vm.StateDB) (caller : common.Address)
    (toAddr : common.Address) (value : option Z) (op : operation.Deposit)
    (txHash : common.Hash) : vm.StateDB * result Ret :=
  if negb (IsValidatorOp p (Some toAddr)) then (s, Err ErrInvalidToAddress) else
  (* validate deposit signature *)
  match VerifyDepositSig (lib p) (operation.dSignature op) (operation.dPubKey op)
          (operation.dCreatorAddress op) (operation.dWithdrawalAddress op) with
  | Some err => (s, Err (ErrExt err))
  | None =>
  match value with
  | None => (s, Err ErrTooLowDepositValue)
  | Some value =>
  if value <? MinDepositVal then (s, Err ErrTooLowDepositValue) else
  (* check amount can add to log *)
  if negb (common.BnCanCastToUint64 (value / common.BigGwei)) then (s, Err ErrInvalidAmount) else
  let from := caller in
  let balanceFrom := vm.GetBalance s from in
  if balanceFrom <? value then (s, Err (ErrWrapAddress ErrInsufficientFundsForOp from)) else
  let withdrawalAddress := operation.dWithdrawalAddress op in
  let validator := valStore.NewValidator (operation.dPubKey op)
                     (operation.dCreatorAddress op) (Some withdrawalAddress) in
  match
    match operation.dDelegatingStake op with
    | None => Ok validator
    | Some ds =>
        (* check activation fork *)
        if negb (params.IsForkSlotDelegate (Config (bc p)) (vm.Slot (ctx p)))
        then Err ErrDelegateForkRequire
        else match operation.Validate (operation.Rules ds) with
             | Some err => Err err
             | None =>
                 match NewDelegatingStakeData (lib p) (operation.Rules ds)
                         (operation.TrialPeriod ds) (operation.TrialRules ds) with
                 | inl err => Err (ErrExt err)
                 | inr d => Ok (valStore.SetDelegatingStake validator (Some d))
                 end
             end
    end
  with
  | Err err => (s, Err err)
  | Panic => (s, Panic)
  | Ok validator =>
  (* if validator already exist - check data compliance *)
  let currValidator := (Storage.GetValidator p s (operation.dCreatorAddress op)).1 in
  match
    match currValidator with
    | None => Ok validator
    | Some currValidator =>
        if valStore.ActivationEra currValidator <? common.MaxUint64
        then Err (ErrNew "validator deposit failed (validator already activated)")
        else if negb (valStore.PubKey currValidator =? operation.dPubKey op)%N
        then Err (ErrNew "validator deposit failed (mismatch public key)")
        else match valStore.WithdrawalAddress currValidator with
        | None => Panic
        | Some curWithdrawal =>
        if negb (curWithdrawal =? operation.dWithdrawalAddress op)%N
        then Err (ErrNew "validator deposit failed (mismatch withdrawal address)")
        else
        (* check delegating stake data are equal *)
        match MarshalDelegatingStake (lib p) (valStore.DelegatingStake currValidator) with
        | inl err => Err (ErrExt err)
        | inr curDlg =>
        match MarshalDelegatingStake (lib p) (operation.dDelegatingStake op) with
        | inl err => Err (ErrExt err)
        | inr opDlg =>
            if negb (bool_decide (curDlg = opDlg)) then Err ErrMismatchDelegateData
            else Ok currValidator
        end
        end
        end
    end
  with
  | Err err => (s, Err err)
  | Panic => (s, Panic)
  | Ok validator =>
  (* ver1 data validation *)
  let blocked :=
    if valStore.Version validator >=? valStore.Ver1 then
      (* withdrawal operations are limited to 1 op at time;
         if operation already has been requested, check it expiration *)
      match valStore.GetWithdrawalTx validator with
      | None => false
      | Some prevOpTx =>
          let '(rc, blHash) := GetTransactionReceipt (bc p) prevOpTx in
          (* check if prev tx in same block *)
          if negb (blHash =? common.zeroHash)%N && (blHash =? vm.BlockHash (ctx p))%N then true
          else
          (* check prev op success *)
          match rc with
          | None => false
          | Some rc =>
              if types.Status rc =? types.ReceiptStatusSuccessful then
                (* check prev operation expiration *)
                let prevHeader := GetHeaderByHash (bc p) blHash in
                let expiration := params.ValidatorOpExpireSlots (Config (bc p)) in
                let currSlot := vm.Slot (ctx p) in
                match prevHeader with
                | None => false
                | Some prevHeader =>
                    currSlot <? common.wrap64 (types.Slot prevHeader + expiration)
                end
              else false
          end
      end
    else false in
  if blocked then (s, Err ErrValOpBlocked) else
  (* update current validator's data version *)
  let validator := updateValidatorVersionBySlot p validator in
  let validator := valStore.AddDepositTxs validator txHash in
  let validator := valStore.AddStake validator from value in
  match Storage.SetValidator p s validator with
  | (s, Some err) => (s, Err err)
  | (s, None) =>
  let logData := txlog.DepositLogData (operation.dPubKey op) (operation.dCreatorAddress op)
                   (operation.dWithdrawalAddress op) value (operation.dSignature op)
                   (getDepositCount s) in
  let s := EventEmmiter.Deposit s toAddr logData in
  let s := incrDepositCount s in
  (* burn value from sender balance *)
  let s := vm.SubBalance s from value in
  (s, Ok (RetValue32 value))
  end
  end
  end
  end
  end.

Definition validatorExit (p : Processor) (s : vm.StateDB) (caller : common.Address)
    (toAddr : common.Address) (op : operation.ExitOp) (txHash : common.Hash)
    : vm.StateDB * result Ret :=
  if negb (IsValidatorOp p (Some toAddr)) then (s, Err ErrInvalidToAddress) else
  let from := caller in
  match Storage.GetValidator p s (operation.eCreatorAddress op) with
  | (_, Some err) => (s, Err err)
  | (None, None) => (s, Err ErrUnknownValidator)
  | (Some validator, None) =>
  if negb (valStore.GetPubKey validator =? operation.ePubKey op)%N
  then (s, Err ErrMismatchPulicKey) else
  let exitAfterEpoch :=
    match operation.eExitAfterEpoch op with
    | None => Some (common.wrap64 (SlotToEpoch (bc p) (CurrentSlot (bc p)) + 1))
    | Some e => Some e
    end in
  if valStore.GetActivationEra validator >? EraInfoNumber (bc p)
  then (s, Err ErrNotActivatedValidator) else
  if negb (valStore.GetExitEra validator =? common.MaxUint64)
  then (s, Err ErrValidatorIsOut) else
  match
    if valStore.HasDelegatingStake validator then
      (* check delegating roles; retrieve actual rules *)
      match actualRules p validator with
      | Err err => Err err
      | Panic => Panic
      | Ok (rules, _) =>
          let allowedAddrs := operation.Exit rules in
          let isAllowed := existsb (fun adr => (adr =? from)%N) allowedAddrs in
          if negb isAllowed then Err ErrSenderRejByDelegate else Ok tt
      end
    else
      match valStore.GetWithdrawalAddress validator with
      | None => Panic
      | Some w => if negb (from =? w)%N then Err ErrInvalidFromAddresses else Ok tt
      end
  with
  | Err err => (s, Err err)
  | Panic => (s, Panic)
  | Ok _ =>
  (* ver1 data validation *)
  let blocked :=
    if valStore.Version validator >=? valStore.Ver1 then
      (* if operation already has been requested, check it expiration *)
      match valStore.GetExitTx validator with
      | None => false
      | Some prevOpTx =>
          let '(rc, blHash) := GetTransactionReceipt (bc p) prevOpTx in
          (* check if prev tx in same block *)
          if negb (blHash =? common.zeroHash)%N && (blHash =? vm.BlockHash (ctx p))%N then true
          else
          (* check prev op success *)
          match rc with
          | None => false
          | Some rc =>
              if types.Status rc =? types.ReceiptStatusSuccessful then
                (* check prev operation expiration *)
                let prevHeader := GetHeaderByHash (bc p) blHash in
                let expiration := params.ValidatorOpExpireSlots (Config (bc p)) in
                let currSlot := vm.Slot (ctx p) in
                match prevHeader with
                | None => false
                | Some prevHeader =>
                    currSlot <? common.wrap64 (types.Slot prevHeader + expiration)
                end
              else false
          end
      end
    else false in
  if blocked then (s, Err ErrValOpBlocked) else
  (* update current validator's data version *)
  let validator := updateValidatorVersionBySlot p validator in
  let validator := valStore.SetExitTx validator (Some txHash) in
  (* update validator *)
  match Storage.SetValidator p s validator with
  | (s, Some err) => (s, Err err)
  | (s, None) =>
  let logData := txlog.ExitRequestLogData (operation.ePubKey op)
                   (operation.eCreatorAddress op) (valStore.GetIndex validator)
                   exitAfterEpoch in
  let s := EventEmmiter.ExitRequest s toAddr logData in
  (s, Ok (RetAddressBytes (operation.eCreatorAddress op)))
  end
  end
  end.

Definition validatorWithdrawal (p : Processor) (s : vm.StateDB) (caller : common.Address)
    (toAddr : common.Address) (op : operation.WithdrawalOp) (txHash : common.Hash)
    : vm.StateDB * result Ret :=
  if negb (IsValidatorOp p (Some toAddr)) then (s, Err ErrInvalidToAddress) else
  (* check amount can add to log *)
  let opAmount := operation.wAmount op in
  if negb (common.BnCanCastToUint64 (opAmount / common.BigGwei)) then (s, Err ErrInvalidAmount) else
  let from := caller in
  match Storage.GetValidator p s (operation.wCreatorAddress op) with
  | (_, Some err) => (s, Err err)
  | (None, None) => (s, Err ErrUnknownValidator)
  | (Some validator, None) =>
  (* ver1 data validation *)
  let blocked :=
    if valStore.Version validator >=? valStore.Ver1 then
      (* withdrawal operations are limited to 1 op at time;
         if operation already has been requested, check it expiration *)
      match valStore.GetWithdrawalTx validator with
      | None => false
      | Some prevOpTx =>
          let '(rc, blHash) := GetTransactionReceipt (bc p) prevOpTx in
          (* check if prev tx in same block *)
          if negb (blHash =? common.zeroHash)%N && (blHash =? vm.BlockHash (ctx p))%N then true
          else
          (* check prev op success *)
          match rc with
          | None => false
          | Some rc =>
              if types.Status rc =? types.ReceiptStatusSuccessful then
                (* check prev operation expiration *)
                let prevHeader := GetHeaderByHash (bc p) blHash in
                let expiration := params.ValidatorOpExpireSlots (Config (bc p)) in
                let currSlot := vm.Slot (ctx p) in
                match prevHeader with
                | None => false
                | Some prevHeader =>
                    currSlot <? common.wrap64 (types.Slot prevHeader + expiration)
                end
              else false
          end
      end
    else false in
  if blocked then (s, Err ErrValOpBlocked) else
  (* update current validator's data version *)
  let validator := updateValidatorVersionBySlot p validator in
  let validator := valStore.SetWithdrawalTx validator (Some txHash) in
  (* if total deposited amount is less than the effective balance
     - deposit is insufficient to activate validator. *)
  let effectiveBalanceWei := params.EffectiveBalance (Config (bc p)) * common.BigWat in
  match
    if (valStore.GetActivationEra validator =? common.MaxUint64)
       && match valStore.TotalStake validator with
          | None => false
          | Some stake => stake <? effectiveBalanceWei
          end
    then
      (* withdrawal of insufficient deposit to activate validator *)
      match valStore.StakeByAddress validator from with
      (* withdrawal address must be one of the depositors *)
      | None => Err ErrInvalidFromAddresses
      | Some stakeByAddr =>
          if stakeByAddr =? 0 then Err ErrInvalidFromAddresses else
          (* check amount *)
          if stakeByAddr <? opAmount then Err ErrInsufficientFundsForOp else
          (* if opAmount == 0 - refunds full deposit amount *)
          let opAmount := if opAmount =? common.Big0 then stakeByAddr else opAmount in
          if negb (params.IsForkSlotValOpTracking (Config (bc p)) (vm.Slot (ctx p))) then
            (* withdrawal amount from deposit balance *)
            match valStore.SubtractStake validator from opAmount with
            | (_, _, Some err) => Err err
            | (validator, newStake, None) =>
                (* rm validator stake if empty *)
                let validator :=
                  match newStake with
                  | Some n => if n =? common.Big0
                              then valStore.RmStakeByAddress validator from
                              else validator
                  | None => validator
                  end in
                Ok (validator, opAmount)
            end
          else Ok (validator, opAmount)
      end
    else if valStore.HasDelegatingStake validator then
      (* check delegating roles; retrieve actual rules *)
      match actualRules p validator with
      | Err err => Err err
      | Panic => Panic
      | Ok (rules, _) =>
          let allowedAddrs := operation.Withdrawal rules in
          let isAllowed := existsb (fun adr => (adr =? from)%N) allowedAddrs in
          if negb isAllowed then Err ErrSenderRejByDelegate else Ok (validator, opAmount)
      end
    else
      (* check withdrawal credentials *)
      match valStore.GetWithdrawalAddress validator with
      | None => Panic
      | Some w => if negb (from =? w)%N then Err ErrInvalidFromAddresses
                  else Ok (validator, opAmount)
      end
  with
  | Err err => (s, Err err)
  | Panic => (s, Panic)
  | Ok (validator, opAmount) =>
  (* update validator *)
  match Storage.SetValidator p s validator with
  | (s, Some err) => (s, Err err)
  | (s, None) =>
  (* create tx log *)
  let amtGwei := common.wrap64 (opAmount / common.BigGwei) in
  let logData := txlog.WithdrawalLogData (valStore.GetPubKey validator)
                   (operation.wCreatorAddress op) (valStore.GetIndex validator) amtGwei in
  let s := EventEmmiter.WithdrawalRequest s toAddr logData in
  (s, Ok (RetAddressBytes (operation.wCreatorAddress op)))
  end
  end
  end.

Definition validatorActivate (p : Processor) (s : vm.StateDB) (op : operation.ValidatorSync)
    : vm.StateDB * result Ret :=
  match Storage.GetValidator p s (operation.vsCreator op) with
  | (_, Some err) => (s, Err err)
  | (None, None) => (s, Err ErrUnknownValidator)
  | (Some validator, None) =>
  if params.IsForkSlotValOpTracking (Config (bc p)) (vm.Slot (ctx p))
     && negb (valStore.GetActivationEra validator =? common.MaxUint64)
  then (s, Err ErrValidatorActivated) else
  (* update current validator's data version *)
  let validator := updateValidatorVersionBySlot p validator in
  let validator := valStore.ResetDepositTxs validator in
  match EpochToEra (bc p) (operation.vsProcEpoch op) with
  | None => (s, Panic)
  | Some opEra =>
  let validator := valStore.SetActivationEra validator
                     (common.wrap64 (era.Number opEra + postpone)) in
  let validator := valStore.SetIndex validator (operation.vsIndex op) in
  let validator := valStore.UnsetStake validator in
  match Storage.SetValidator p s validator with
  | (s, Some err) => (s, Err err)
  | (s, None) =>
  let s := Storage.AddValidatorToList s (operation.vsIndex op) (operation.vsCreator op) in
  (* check delegating activation fork *)
  if params.IsForkSlotDelegate (Config (bc p)) (vm.Slot (ctx p)) then
    (* add tx log *)
    match EventEmmiter.pack p (txlog.ActivateLogData (operation.vsInitTxHash op)
            (operation.vsCreator op) (operation.vsProcEpoch op) (operation.vsIndex op)) with
    | inl err => (s, Err (ErrExt err))
    | inr logData =>
        let s := EventEmmiter.AddActivateLog s (GetValidatorsStateAddress p) logData
                   (operation.vsCreator op) (operation.vsInitTxHash op) in
        (s, Ok (RetAddressBytes (operation.vsCreator op)))
    end
  else (s, Ok (RetAddressBytes (operation.vsCreator op)))
  end
  end
  end.

Definition validatorDeactivate (p : Processor) (s : vm.StateDB) (op : operation.ValidatorSync)
    : vm.StateDB * result Ret :=
  match Storage.GetValidator p s (operation.vsCreator op) with
  | (_, Some err) => (s, Err err)
  | (None, None) => (s, Err ErrUnknownValidator)
  | (Some validator, None) =>
  if negb (valStore.GetExitEra validator =? common.MaxUint64)
  then (s, Err ErrValidatorIsOut) else
  match EpochToEra (bc p) (operation.vsProcEpoch op) with
  | None => (s, Panic)
  | Some opEra =>
  let opEraNr := era.Number opEra in
  let opEraNr := if params.IsForkSlotValSyncProc (Config (bc p)) (vm.Slot (ctx p))
                 then vm.Era (ctx p) else opEraNr in
  if valStore.GetActivationEra validator >=? opEraNr
  then (s, Err ErrNotActivatedValidator) else
  (* update current validator's data version *)
  let validator := updateValidatorVersionBySlot p validator in
  let validator := valStore.SetExitTx validator None in
  let exitEra := common.wrap64 (era.Number opEra + postpone) in
  let validator := valStore.SetExitEra validator exitEra in
  match Storage.SetValidator p s validator with
  | (s, Some err) => (s, Err err)
  | (s, None) =>
  (* check delegating activation fork *)
  if params.IsForkSlotDelegate (Config (bc p)) (vm.Slot (ctx p)) then
    (* add tx log *)
    match EventEmmiter.pack p (txlog.DeactivateLogData (operation.vsInitTxHash op)
            (operation.vsCreator op) (operation.vsProcEpoch op) (operation.vsIndex op)) with
    | inl err => (s, Err (ErrExt err))
    | inr logData =>
        let s := EventEmmiter.AddDeactivateLog s (GetValidatorsStateAddress p) logData
                   (operation.vsCreator op) (operation.vsInitTxHash op) in
        (s, Ok (RetAddressBytes (operation.vsCreator op)))
    end
  else (s, Ok (RetAddressBytes (operation.vsCreator op)))
  end
  end
  end.

(** The amounts of profit and of stake of a withdrawal under delegating
    stake rules, as [applyDelegatingStakeRules] defines them from the
    balance and the amount of the sync operation (local variables
    [profitBalance], [profitOpAmt] and [stakeOpAmt] of the source). *)
Definition profitBalance (p : Processor) (opBalance : Z) : Z :=
  let effectiveBalanceWei := params.EffectiveBalance (Config (bc p)) * common.BigWat in
  let profitBalance := opBalance - effectiveBalanceWei in
  if profitBalance <? 0 then 0 else profitBalance.

Definition profitOpAmt (p : Processor) (balance amount : Z) : Z :=
  let opBalance := balance + amount in
  let profitOpAmt := profitBalance p opBalance - amount in
  if profitOpAmt <=? 0 then profitBalance p opBalance else profitOpAmt.

Definition stakeOpAmt (p : Processor) (balance amount : Z) : Z :=
  let opBalance := balance + amount in
  let profitOpAmt := profitBalance p opBalance - amount in
  if profitOpAmt <=? 0 then amount - profitBalance p opBalance else 0.

(** Body of the loops over a share map: the address is credited with
    [percent * share] and the credit is appended to the log data. *)
Definition applyShare (ruleType : txlog.ShareRuleType) (isTrial : bool) (percent : Z)
    (acc : vm.StateDB * list txlog.ShareRuleApplying) (kv : N * Z)
    : vm.StateDB * list txlog.ShareRuleApplying :=
  let adr := kv.1 in
  let share := kv.2 in
  let amt := percent * share in
  (* transfer amount to withdrawal address *)
  (vm.AddBalance acc.1 adr amt,
   acc.2 ++ [txlog.mkShareRuleApplying adr ruleType isTrial amt]).

Definition applyDelegatingStakeRules (p : Processor) (s : vm.StateDB)
    (op : operation.ValidatorSync) (validator : valStore.Validator)
    : vm.StateDB * result Ret :=
  (* check delegating activation fork *)
  if negb (params.IsForkSlotDelegate (Config (bc p)) (vm.Slot (ctx p)))
  then (s, Err ErrDelegateForkRequire) else
  (* retrieve actual rules *)
  match actualRules p validator with
  | Err err => (s, Err err)
  | Panic => (s, Panic)
  | Ok (rules, isTrial) =>
  match operation.vsBalance op, operation.vsAmount op with
  | Some balance, Some amount =>
  (* Define withdrawals amounts of profit and stake *)
  let profitOpAmt := profitOpAmt p balance amount in
  let stakeOpAmt := stakeOpAmt p balance amount in
  (* calculate share *)
  let upBalInfo : list txlog.ShareRuleApplying := [] in
  let '(s, upBalInfo) :=
    if profitOpAmt >? 0 then
      let percent := profitOpAmt / 100 in
      foldl (applyShare txlog.ProfitShare isTrial percent) (s, upBalInfo)
            (map_to_list (operation.ProfitShare rules))
    else (s, upBalInfo) in
  let '(s, upBalInfo) :=
    if stakeOpAmt >? 0 then
      let percent := stakeOpAmt / 100 in
      foldl (applyShare txlog.StakeShare isTrial percent) (s, upBalInfo)
            (map_to_list (operation.StakeShare rules))
    else (s, upBalInfo) in
  (* add update balance tx log *)
  match EventEmmiter.pack p (txlog.UpdateBalanceLogData (operation.vsInitTxHash op)
          (operation.vsCreator op) (operation.vsProcEpoch op) (operation.vsAmount op)) with
  | inl err => (s, Err (ErrExt err))
  | inr logData =>
  let s := EventEmmiter.AddUpdateBalanceLog s (GetValidatorsStateAddress p) logData
             (operation.vsCreator op) (operation.vsInitTxHash op) None in
  (* add delegate stake tx log *)
  match EventEmmiter.pack p (txlog.DelegatingStakeLogData upBalInfo) with
  | inl err => (s, Err (ErrExt err))
  | inr logData =>
  let s := EventEmmiter.AddDelegatingStakeLog s (GetValidatorsStateAddress p) logData
             (txlog.Topics_of_shares upBalInfo) in
  (s, Ok (RetAddressBytes (operation.vsCreator op)))
  end
  end
  | _, _ => (s, Panic)
  end
  end.

(** The end of [validatorUpdateBalance], reached by the refund branch and
    by the default branch: the record is stored, the amount is credited to
    the withdrawal address and the log is emitted. *)
Definition finishUpdateBalance (p : Processor) (s : vm.StateDB) (op : operation.ValidatorSync)
    (validator : valStore.Validator) (withdrawalTo : common.Address)
    : vm.StateDB * result Ret :=
  (* update validator *)
  match Storage.SetValidator p s validator with
  | (s, Some err) => (s, Err err)
  | (s, None) =>
  (* transfer amount to withdrawal address *)
  match operation.vsAmount op with
  | None => (s, Panic)
  | Some amount =>
  let s := vm.AddBalance s withdrawalTo amount in
  (* check delegating activation fork *)
  if params.IsForkSlotDelegate (Config (bc p)) (vm.Slot (ctx p)) then
    (* add tx log *)
    match EventEmmiter.pack p (txlog.UpdateBalanceLogData (operation.vsInitTxHash op)
            (operation.vsCreator op) (operation.vsProcEpoch op) (operation.vsAmount op)) with
    | inl err => (s, Err (ErrExt err))
    | inr logData =>
        let s := EventEmmiter.AddUpdateBalanceLog s (GetValidatorsStateAddress p) logData
                   (operation.vsCreator op) (operation.vsInitTxHash op) (Some withdrawalTo) in
        (s, Ok (RetAddressBytes (operation.vsCreator op)))
    end
  else (s, Ok (RetAddressBytes (operation.vsCreator op)))
  end
  end.

Definition validatorUpdateBalance (p : Processor) (s : vm.StateDB) (op : operation.ValidatorSync)
    : vm.StateDB * result Ret :=
  let valAddress := operation.vsCreator op in
  match Storage.GetValidator p s valAddress with
  | (_, Some err) => (s, Err err)
  | (None, None) => (s, Err ErrUnknownValidator)
  | (Some validator, None) =>
  (* ver1 data validation *)
  match
    if valStore.Version validator >=? valStore.Ver1 then
      (* withdrawal operations are limited to 1 op at time *)
      match valStore.GetWithdrawalTx validator with
      | None =>
          (* check withdrawal initialized before ForkSlotValOpTracking; quick check *)
          let expiration := params.ValidatorOpExpireSlots (Config (bc p)) in
          let checkSlot := if vm.Slot (ctx p) >? expiration
                           then vm.Slot (ctx p) - expiration else 0 in
          if params.IsForkSlotValOpTracking (Config (bc p)) checkSlot
          then Err ErrNoActiveWithdrawalOp else
          (* check slot of initTx applying (for transition period only) *)
          let '(rc, blHash) := GetTransactionReceipt (bc p) (operation.vsInitTxHash op) in
          (* check initTx success *)
          match rc with
          | None => Err (ErrNewHash "initTx receipt not found" (operation.vsInitTxHash op))
          | Some rc =>
              if negb (types.Status rc =? types.ReceiptStatusSuccessful)
              then Err (ErrNewHash "initTx receipt status is failed" (operation.vsInitTxHash op))
              else
              match GetHeaderByHash (bc p) blHash with
              | None => Panic
              | Some initTxHeader =>
                  if params.IsForkSlotValOpTracking (Config (bc p)) (types.Slot initTxHeader)
                  then Err ErrNoActiveWithdrawalOp else Ok tt
              end
          end
      | Some prevOpTx =>
          if negb (prevOpTx =? operation.vsInitTxHash op)%N then
            (* if another operation already has been requested, check it expiration *)
            let '(rc, blHash) := GetTransactionReceipt (bc p) prevOpTx in
            (* check prev op success *)
            match rc with
            | None => Ok tt
            | Some rc =>
                if types.Status rc =? types.ReceiptStatusSuccessful then
                  (* check prev operation expiration *)
                  let prevHeader := GetHeaderByHash (bc p) blHash in
                  let expiration := params.ValidatorOpExpireSlots (Config (bc p)) in
                  let currSlot := vm.Slot (ctx p) in
                  match prevHeader with
                  | None => Ok tt
                  | Some prevHeader =>
                      if currSlot <? common.wrap64 (types.Slot prevHeader + expiration)
                      then Err ErrValOpBlocked else Ok tt
                  end
                else Ok tt
            end
          else Ok tt
      end
    else Ok tt
  with
  | Err err => (s, Err err)
  | Panic => (s, Panic)
  | Ok _ =>
  (* update current validator's data version *)
  let validator := updateValidatorVersionBySlot p validator in
  (* reset current withdrawal op *)
  let validator := valStore.SetWithdrawalTx validator None in
  (* if total deposited amount is less than the effective balance
     - deposit is insufficient to activate validator. *)
  let effectiveBalanceWei := params.EffectiveBalance (Config (bc p)) * common.BigWat in
  if (valStore.GetActivationEra validator =? common.MaxUint64)
     && match valStore.TotalStake validator with
        | None => false
        | Some stake => stake <? effectiveBalanceWei
        end
  then
    (* Handle of refund of deposited amount in case of insufficient amount
       to activate validator; check initial tx *)
    match GetTransaction (bc p) (operation.vsInitTxHash op) with
    | None => (s, Err ErrTxNF)
    | Some initTx =>
    (* check init tx data *)
    match DecodeBytes (lib p) (types.Data initTx) with
    | inl err => (s, Err (ErrExt err))
    | inr iop =>
    if negb (bool_decide (operation.OpCode iop = operation.WithdrawalCode))
    then (s, Err ErrInvalidOpCode) else
    (* withdrawal to sender of initial tx *)
    let iTxFrom := types.Sender initTx in
    if params.IsForkSlotValOpTracking (Config (bc p)) (vm.Slot (ctx p)) then
      (* withdrawal amount from deposit balance *)
      match operation.vsAmount op, valStore.StakeByAddress validator iTxFrom with
      | Some wDepositAmt, Some curDepositStake =>
          let wDepositAmt := if curDepositStake <? wDepositAmt
                             then curDepositStake else wDepositAmt in
          match valStore.SubtractStake validator iTxFrom wDepositAmt with
          | (_, _, Some err) => (s, Err err)
          | (validator, newStake, None) =>
              (* rm validator stake if empty *)
              let validator :=
                match newStake with
                | Some n => if n =? common.Big0
                            then valStore.RmStakeByAddress validator iTxFrom
                            else validator
                | None => validator
                end in
              finishUpdateBalance p s op validator iTxFrom
          end
      | _, _ => (s, Panic)
      end
    else finishUpdateBalance p s op validator iTxFrom
    end
    end
  else if valStore.HasDelegatingStake validator then
    (* Handle delegate rules *)
    applyDelegatingStakeRules p s op validator
  else
    (* Handle default withdrawal op; set withdrawal credentials *)
    match valStore.GetWithdrawalAddress validator with
    | None => (s, Err ErrNoWithdrawalCred)
    | Some withdrawalTo => finishUpdateBalance p s op validator withdrawalTo
    end
  end
  end.

Definition CompareValSync (saved : types.ValidatorSync) (input : operation.ValidatorSync)
    (isForkDelegate : bool) : bool :=
  if negb (types.InitTxHash saved =? operation.vsInitTxHash input)%N then false else
  if negb (bool_decide (types.OpType saved = operation.vsOpType input)) then false else
  if negb (types.Creator saved =? operation.vsCreator input)%N then false else
  if negb (types.Index saved =? operation.vsIndex input) then false else
  if negb isForkDelegate && (types.ProcEpoch saved >? operation.vsProcEpoch input) then false else
  if match types.Amount saved, operation.vsAmount input with
     | Some sa, Some ia => negb (sa =? ia)
     | _, _ => false
     end then false else
  if match types.Amount saved, operation.vsAmount input with
     | Some _, None => true
     | None, Some _ => true
     | _, _ => false
     end then false else
  true.

(** The operation is initialised by slashing when the first
    [common.AddressLength] (20) bytes of the 32 bytes of [InitTxHash] are
    the bytes of the creator address. *)
Definition initialisedBySlashing (valSyncOp : operation.ValidatorSync) : bool :=
  (N.shiftr (operation.vsInitTxHash valSyncOp) 96 =? operation.vsCreator valSyncOp)%N.

(** ValidateValidatorSyncOp validate validator sync op data with context of apply. *)
Definition ValidateValidatorSyncOp (b : blockchain) (lb : externals)
    (valSyncOp : operation.ValidatorSync) (applySlot : Z) (txHash : common.Hash)
    : option error :=
  match GetValidatorSyncData b (operation.vsInitTxHash valSyncOp) with
  | None => Some ErrNoSavedValSyncOp
  | Some savedValSync =>
  let isForkDelegate := params.IsForkSlotDelegate (Config b) applySlot in
  if negb isForkDelegate && (SlotToEpoch b applySlot >? operation.vsProcEpoch valSyncOp)
  then Some ErrInvalidOpEpoch else
  if negb (CompareValSync savedValSync valSyncOp isForkDelegate)
  then Some ErrMismatchValSyncOp else
  match
    match types.TxHash savedValSync with
    | None => None
    | Some savedTx =>
        if negb (savedTx =? txHash)%N then
          if negb isForkDelegate then Some ErrValSyncTxExists else
          (* check tx status *)
          match (GetTransactionReceipt b savedTx).1 with
          | Some rc => if types.Status rc =? types.ReceiptStatusSuccessful
                       then Some ErrValSyncTxExists else None
          | None => None
          end
        else None
    end
  with
  | Some err => Some err
  | None =>
  (* check is op initialised by slashing *)
  if initialisedBySlashing valSyncOp then None else
  (* check initial tx *)
  match GetTransaction b (operation.vsInitTxHash valSyncOp) with
  | None => Some ErrTxNF
  | Some initTx =>
  (* check init tx data *)
  match DecodeBytes lb (types.Data initTx) with
  | inl err => Some (ErrExt err)
  | inr iop =>
  match
    match iop with
    | operation.OpDeposit initTxData =>
        if bool_decide (operation.vsOpCode valSyncOp = operation.DepositCode)
        then Some ErrInvalidOpCode
        else if negb (operation.dCreatorAddress initTxData =? operation.vsCreator valSyncOp)%N
        then Some ErrInvalidCreator
        else None
    | operation.OpExit initTxData =>
        if bool_decide (operation.vsOpCode valSyncOp = operation.ExitCode)
        then Some ErrInvalidOpCode
        else if negb (operation.eCreatorAddress initTxData =? operation.vsCreator valSyncOp)%N
        then Some ErrInvalidCreator
        else match operation.eExitAfterEpoch initTxData with
             | Some e => if e >? operation.vsProcEpoch valSyncOp
                         then Some ErrInvalidOpEpoch else None
             | None => None
             end
    | operation.OpWithdrawal initTxData =>
        if bool_decide (operation.vsOpCode valSyncOp = operation.WithdrawalCode)
        then Some ErrInvalidOpCode
        else if negb (operation.wCreatorAddress initTxData =? operation.vsCreator valSyncOp)%N
        then Some ErrInvalidCreator
        else if bool_decide (operation.vsVersion valSyncOp = operation.Ver1)
                && bool_decide (operation.vsBalance valSyncOp = None)
        then Some ErrNoBalance
        else None
    | _ => Some ErrInvalidOpCode
    end
  with
  | Some err => Some err
  | None =>
  (* check initial tx status *)
  match (GetTransactionReceipt b (operation.vsInitTxHash valSyncOp)).1 with
  | None => Some ErrReceiptNF
  | Some rc =>
      if negb (types.Status rc =? types.ReceiptStatusSuccessful)
      then Some ErrInvalidReceiptStatus else None
  end
  end
  end
  end
  end
  end.

Definition syncOpProcessing (p : Processor) (s : vm.StateDB) (op : operation.ValidatorSync)
    (msg : message) : vm.StateDB * result Ret :=
  match ValidateValidatorSyncOp (bc p) (lib p) op (vm.Slot (ctx p)) (msgTxHash msg) with
  | Some err => (s, Err err)
  | None =>
      match operation.vsOpCode op with
      | operation.ActivateCode => validatorActivate p s op
      | operation.DeactivateCode => validatorDeactivate p s op
      | operation.UpdateBalanceCode => validatorUpdateBalance p s op
      | _ => (s, Ok RetNil)
      end
  end.

(** Call performs all transaction related operations that mutates state of
    the validator and validators state. *)
Definition Call (p : Processor) (s : vm.StateDB) (caller : common.Address)
    (toAddr : common.Address) (value : option Z) (msg : message)
    : vm.StateDB * result Ret :=
  match DecodeBytes (lib p) (msgData msg) with
  | inl err => (s, Err (ErrExt err))
  | inr op =>
  let nonce := vm.GetNonce s caller in
  let s := vm.SetNonce s caller (common.wrap64 (nonce + 1)) in
  let snapshot := vm.Snapshot s in
  let '(s, r) :=
    match op with
    | operation.OpDeposit v => validatorDeposit p s caller toAddr value v (msgTxHash msg)
    | operation.OpValidatorSync v => syncOpProcessing p s v msg
    | operation.OpExit v => validatorExit p s caller toAddr v (msgTxHash msg)
    | operation.OpWithdrawal v => validatorWithdrawal p s caller toAddr v (msgTxHash msg)
    | _ => (s, Ok RetNil)
    end in
  match r with
  | Err err => (vm.RevertToSnapshot s snapshot, Err err)
  | _ => (s, r)
  end
  end.

(** ** Predicates of the specification

    Definitions of this section follow the words of the specification;
    the theorems below compare them with the code. *)

(** "The pending tx is in the same block": the receipt lookup places the
    pending tx in a block, and that block is the one being processed. *)
Definition inSameBlock (p : Processor) (prevOpTx : common.Hash) : bool :=
  let blHash := (GetTransactionReceipt (bc p) prevOpTx).2 in
  negb (blHash =? common.zeroHash)%N && (blHash =? vm.BlockHash (ctx p))%N.

(** "The pending tx's receipt is successful". *)
Definition receiptSuccessful (p : Processor) (prevOpTx : common.Hash) : bool :=
  match (GetTransactionReceipt (bc p) prevOpTx).1 with
  | Some rc => types.Status rc =? types.ReceiptStatusSuccessful
  | None => false
  end.

(** "The current slot is still within the configured expiration window
    after the pending tx's block slot"; the end of the window is the
    [uint64] sum of that slot and of [ValidatorOpExpireSlots]. *)
Definition withinExpirationWindow (p : Processor) (prevOpTx : common.Hash) : bool :=
  match GetHeaderByHash (bc p) (GetTransactionReceipt (bc p) prevOpTx).2 with
  | Some prevHeader =>
      vm.Slot (ctx p) <?
        common.wrap64 (types.Slot prevHeader + params.ValidatorOpExpireSlots (Config (bc p)))
  | None => false
  end.

(** The pending operation blocks a new request of the same kind. *)
Definition blockedByPending (p : Processor) (prevOpTx : common.Hash) : bool :=
  inSameBlock p prevOpTx || (receiptSuccessful p prevOpTx && withinExpirationWindow p prevOpTx).

(** A withdrawal request passes the checks that precede the
    single-in-flight check: it targets the validators state address, its
    amount fits the log, and the validator [v] is the stored record. *)
Definition withdrawalRequestValid (p : Processor) (s : vm.StateDB)
    (toAddr : common.Address) (op : operation.WithdrawalOp) (v : valStore.Validator) : Prop :=
  IsValidatorOp p (Some toAddr) = true
  /\ common.BnCanCastToUint64 (operation.wAmount op / common.BigGwei) = true
  /\ vm.validators s !! operation.wCreatorAddress op = Some v.

(** The sender may request the exit of [v]: it holds the exit role of the
    rules in force, or it is the withdrawal address. *)
Definition exitAuthorised (p : Processor) (from : common.Address) (v : valStore.Validator) : Prop :=
  if valStore.HasDelegatingStake v
  then exists rules isTrial,
         actualRules p v = Ok (rules, isTrial) /\ from ∈ operation.Exit rules
  else valStore.GetWithdrawalAddress v = Some from.

(** An exit request passes the checks that precede the single-in-flight
    check: target address, stored record with the same public key,
    validator activated and not exited, authorised sender. *)
Definition exitRequestValid (p : Processor) (s : vm.StateDB) (from : common.Address)
    (toAddr : common.Address) (op : operation.ExitOp) (v : valStore.Validator) : Prop :=
  IsValidatorOp p (Some toAddr) = true
  /\ vm.validators s !! operation.eCreatorAddress op = Some v
  /\ valStore.PubKey v = operation.ePubKey op
  /\ valStore.ActivationEra v <= EraInfoNumber (bc p)
  /\ valStore.ExitEra v = common.MaxUint64
  /\ exitAuthorised p from v.

(** The sync operation matches the saved record "exactly on InitTxHash,
    OpType, Creator, Index, and (pre-fork) ProcEpoch ordering and Amount". *)
Definition syncOpMatches (saved : types.ValidatorSync) (input : operation.ValidatorSync)
    (isForkDelegate : bool) : Prop :=
  types.InitTxHash saved = operation.vsInitTxHash input
  /\ types.OpType saved = operation.vsOpType input
  /\ types.Creator saved = operation.vsCreator input
  /\ types.Index saved = operation.vsIndex input
  /\ (isForkDelegate = false -> types.ProcEpoch saved <= operation.vsProcEpoch input)
  /\ types.Amount saved = operation.vsAmount input.

(** Pre-fork, a sync operation whose processing epoch lies before the
    epoch of the slot of application is refused before any comparison. *)
Definition syncEpochAcceptable (b : blockchain) (input : operation.ValidatorSync)
    (applySlot : Z) : Prop :=
  params.IsForkSlotDelegate (Config b) applySlot = false ->
  SlotToEpoch b applySlot <= operation.vsProcEpoch input.

(** The refund path of a withdrawal: "validator never activated and total
    stake below the effective-balance threshold". *)
Definition insufficientDeposit (p : Processor) (v : valStore.Validator) : Prop :=
  valStore.ActivationEra v = common.MaxUint64
  /\ exists stake, valStore.TotalStake v = Some stake
       /\ stake < params.EffectiveBalance (Config (bc p)) * common.BigWat.

(** The delegating stake data of a deposit is accepted: there is none, or
    the delegate fork is active, the rules are valid and the data is built. *)
Definition delegatingDataAccepted (p : Processor) (op : operation.Deposit)
    (d : option operation.DelegatingStakeData) : Prop :=
  match operation.dDelegatingStake op with
  | None => d = None
  | Some ds =>
      params.IsForkSlotDelegate (Config (bc p)) (vm.Slot (ctx p)) = true
      /\ operation.Validate (operation.Rules ds) = None
      /\ exists d', d = Some d' /\
           NewDelegatingStakeData (lib p) (operation.Rules ds)
             (operation.TrialPeriod ds) (operation.TrialRules ds) = inr d'
  end.

(** A deposit passes the validation of the request itself, which precedes
    the lookup of the stored record. *)
Definition depositRequestValid (p : Processor) (s : vm.StateDB) (from : common.Address)
    (toAddr : common.Address) (value : Z) (op : operation.Deposit) : Prop :=
  IsValidatorOp p (Some toAddr) = true
  /\ VerifyDepositSig (lib p) (operation.dSignature op) (operation.dPubKey op)
       (operation.dCreatorAddress op) (operation.dWithdrawalAddress op) = None
  /\ MinDepositVal <= value
  /\ common.BnCanCastToUint64 (value / common.BigGwei) = true
  /\ value <= vm.GetBalance s from
  /\ exists d, delegatingDataAccepted p op d.

(** Records are stored at the address of their creator. *)
Definition storeWellFormed (s : vm.StateDB) : Prop :=
  forall a v, vm.validators s !! a = Some v -> valStore.Address v = a.

(** Sum of the amounts of a list of applied share rules. *)
Definition sumCredits (l : list txlog.ShareRuleApplying) : Z :=
  foldr (fun c acc => txlog.Amount c + acc) 0 l.

(** Sum of the credits of one kind (profit share or stake share). *)
Definition isRuleType (t : txlog.ShareRuleType) (c : txlog.ShareRuleApplying) : bool :=
  match t, txlog.RuleType c with
  | txlog.ProfitShare, txlog.ProfitShare => true
  | txlog.StakeShare, txlog.StakeShare => true
  | _, _ => false
  end.

Definition sumCreditsOf (t : txlog.ShareRuleType) (l : list txlog.ShareRuleApplying) : Z :=
  sumCredits (List.filter (isRuleType t) l).

(** The share of an address in a share map: its percentage, or nothing. *)
Definition shareOf (m : gmap N Z) (a : common.Address) : Z := default 0 (m !! a).

(** Share of an address in the list of the entries of a share map. *)
Definition listShare (a : N) (l : list (N * Z)) : Z :=
  foldr (fun kv acc => (if (kv.1 =? a)%N then kv.2 else 0) + acc) 0 l.

(** A request is blocked by the pending operation [pending] of a record
    at schema version [version]: the version is [Ver1] or later and the
    pending tx blocks. *)
Definition inFlight (p : Processor) (version : Z) (pending : option common.Hash) : bool :=
  (version >=? valStore.Ver1)
  && match pending with
     | Some prevOpTx => blockedByPending p prevOpTx
     | None => false
     end.

(** The amount refunded by a withdrawal of an insufficient deposit: "a
    zero amount refunds the full deposit". *)
Definition refundAmount (stake amount : Z) : Z :=
  if amount =? 0 then stake else amount.

(** The ledger after the subtraction of [amount] from the entry [stake]
    of [a], "with eviction of zero entries". *)
Definition ledgerAfterRefund (ledger : gmap N Z) (a : common.Address) (stake amount : Z)
    : gmap N Z :=
  if stake - amount =? 0 then delete a ledger else <[a := stake - amount]> ledger.

(** ** Further definitions

    Further functions of the source ([ValidatePartialDepositOp] of the
    validator processor, [IntrinsicGas] and [GetTxType] of the state
    transition) and the definitions that the statements about them
    need. *)

(** The total of a stake ledger: the sum that [TotalStake] returns. *)
Definition ledgerTotal (ledger : gmap N Z) : Z :=
  foldr (fun kv acc => kv.2 + acc) 0 (map_to_list ledger).

(** The record that a successful deposit of [value] by [from] stores,
    from the record [validator] it starts with (the fresh one or the
    stored one): version by slot, deposit tx recorded, stake added. *)
Definition depositedRecord (p : Processor) (validator : valStore.Validator)
    (from : common.Address) (value : Z) (txHash : common.Hash) : valStore.Validator :=
  valStore.AddStake
    (valStore.AddDepositTxs (updateValidatorVersionBySlot p validator) txHash) from value.
(** ValidatePartialDepositOp: the comparison of a deposit with the record
    of its validator; [lb] provides [MarshalBinary] of the delegating
    stake data. *)
Definition ValidatePartialDepositOp (lb : externals) (validator : valStore.Validator)
    (op : operation.Deposit) : option error :=
  (* should never happen *)
  if negb (valStore.Address validator =? operation.dCreatorAddress op)%N
  then Some (ErrNewHash "mismatch validator creator address (expect=%#x)"
               (valStore.Address validator)) else
  if negb (valStore.PubKey validator =? operation.dPubKey op)%N
  then Some (ErrNewHash "mismatch validator public key (expect=%#x)"
               (valStore.PubKey validator)) else
  match
    match valStore.WithdrawalAddress validator with
    | Some w =>
        if negb (w =? operation.dWithdrawalAddress op)%N
        then Some (ErrNewHash "mismatch validator withdrawal address (expect=%#x)" w)
        else None
    | None => None
    end
  with
  | Some err => Some err
  | None =>
  (* check DelegatingStake *)
  match MarshalDelegatingStake lb (valStore.DelegatingStake validator) with
  | inl err => Some (ErrExt err)
  | inr valBin =>
  match MarshalDelegatingStake lb (operation.dDelegatingStake op) with
  | inl err => Some (ErrExt err)
  | inr opBin =>
  if negb (bool_decide (valBin = opBin))
  then Some (ErrNew "mismatch validator delegating stake rules")
  else None
  end
  end
  end.
(** ** Package [core]: the state transition *)
Module core.

(** The gas constants of package [params], whose code is not part of the
    sources at hand. They are parameters. *)
Record GasParams : Type := mkGasParams {
  TxGas : Z;
  TxGasContractCreation : Z;
  TxDataNonZeroGasEIP2028 : Z;
  TxDataZeroGas : Z;
  TxAccessListAddressGas : Z;
  TxAccessListStorageKeyGas : Z;
}.

(** The errors of [IntrinsicGas]: its own overflow error, or the error of
    the operation codec. *)
Inductive gasError : Type :=
  | ErrGasUintOverflow
  | ErrDecode (e : ExtError).

(** The loop of [IntrinsicGas] that counts the non-zero bytes. *)
Definition nonZeroBytes (data : list Z) : Z :=
  foldl (fun nz byt => if negb (byt =? 0) then common.wrap64 (nz + 1) else nz) 0 data.

(** IntrinsicGas computes the 'intrinsic gas' for a message with the given
    data. [StorageKeys] is the method of the access list that counts its
    storage keys (package [types]); it is a parameter. *)
Definition IntrinsicGas {A : Type} (g : GasParams) (lb : externals)
    (StorageKeys : list A -> Z) (data : list Z) (accessList : option (list A))
    (isContractCreation isValidatorOp : bool) : Z + gasError :=
  (* Set the starting gas for the raw transaction *)
  match
    if isContractCreation then inr (Some (TxGasContractCreation g))
    else if isValidatorOp then
      match DecodeBytes lb data with
      | inl err => inl err
      | inr (operation.OpValidatorSync _) => inr None
      | inr _ => inr (Some (TxGas g))
      end
    else inr (Some (TxGas g))
  with
  | inl err => inr (ErrDecode err)
  | inr None => inl 0
  | inr (Some gas) =>
  (* Bump the required gas by the amount of transactional data *)
  match
    if 0 <? Z.of_nat (length data) then
      (* Zero and non-zero bytes are priced differently *)
      let nz := nonZeroBytes data in
      (* Make sure we don't exceed uint64 for all data combinations *)
      let nonZeroGas := TxDataNonZeroGasEIP2028 g in
      if common.wrap64 (common.MaxUint64 - gas) / nonZeroGas <? nz
      then None else
      let gas := common.wrap64 (gas + common.wrap64 (nz * nonZeroGas)) in
      let z := common.wrap64 (Z.of_nat (length data) - nz) in
      if common.wrap64 (common.MaxUint64 - gas) / TxDataZeroGas g <? z
      then None else
      Some (common.wrap64 (gas + common.wrap64 (z * TxDataZeroGas g)))
    else Some gas
  with
  | None => inr ErrGasUintOverflow
  | Some gas =>
  match accessList with
  | Some al =>
      let gas := common.wrap64
                   (gas + common.wrap64 (Z.of_nat (length al) * TxAccessListAddressGas g)) in
      let gas := common.wrap64
                   (gas + common.wrap64 (StorageKeys al * TxAccessListStorageKeyGas g)) in
      inl gas
  | None => inl gas
  end
  end
  end.

Inductive TxType : Type :=
  | DefaultTxType
  | TokenCreationTxType
  | TokenMethodTxType
  | ContractCreationTxType
  | ContractMethodTxType
  | ValidatorMethodTxType
  | ValidatorSyncTxType
  | UnknownTxType.

#[global] Instance TxType_eq_dec : EqDecision TxType.
Proof. solve_decision. Defined.

(** The part of a message that the classification and the gas
    computation read. *)
Record Message (A : Type) : Type := mkMessage {
  Data : list Z;
  To : option common.Address;
  AccessList : option (list A);
}.
Arguments mkMessage {A} _ _ _.
Arguments Data {A} _.
Arguments To {A} _.
Arguments AccessList {A} _.

(** The token side of the classification, whose code is not part of the
    sources at hand: the op code of token data, the code of a token
    creation, and the token processor with its [IsToken] (nil when there
    is no token processor). They are parameters. [operation.DecodeBytes]
    is the codec of [lb]. *)
Record TokenSide : Type := mkTokenSide {
  GetOpCode : list Z -> ExtError + N;
  CreateCode : N;
  tp : option (common.Address -> bool);
}.

Definition GetTxType {A : Type} (lb : externals) (msg : Message A)
    (vp : option Processor) (tk : TokenSide) : TxType :=
  if Z.of_nat (length (Data msg)) =? 0 then DefaultTxType else
  match To msg with
  | None =>
      match GetOpCode tk (Data msg) with
      | inr opCode => if (opCode =? CreateCode tk)%N then TokenCreationTxType
                      else ContractCreationTxType
      | inl _ => ContractCreationTxType
      end
  | Some to =>
  if match tp tk with Some IsToken => IsToken to | None => false end
  then TokenMethodTxType else
  match vp with
  | Some p =>
      if IsValidatorOp p (To msg) then
        match DecodeBytes lb (Data msg) with
        | inl _ => UnknownTxType
        | inr (operation.OpValidatorSync _) => ValidatorSyncTxType
        | inr _ => ValidatorMethodTxType
        end
      else ContractMethodTxType
  | None => ContractMethodTxType
  end
  end.

(** The intrinsic gas as [TransitionDb] computes it (clauses 4-5): the
    message is classified, and the class decides how [IntrinsicGas] is
    called. *)
Definition transitionIntrinsicGas {A : Type} (g : GasParams) (lb : externals)
    (StorageKeys : list A -> Z) (msg : Message A) (vp : option Processor)
    (tk : TokenSide) : Z + gasError :=
  let txType := GetTxType lb msg vp tk in
  let isValidatorOp := bool_decide (txType = ValidatorMethodTxType)
                       || bool_decide (txType = ValidatorSyncTxType) in
  let isContractCreation := bool_decide (txType = ContractCreationTxType) in
  IntrinsicGas g lb StorageKeys (Data msg) (AccessList msg) isContractCreation isValidatorOp.

End core.

(** ** A test chain

    A small chain configuration and chain data in the style of the
    processor tests, used to evaluate the operations on concrete inputs:
    the delegate fork starts at slot 50, operation tracking at slot 60 and
    the sync processing fork at slot 70; operations expire after 100
    slots; the effective balance is 3200 wat. *)
Module Fixture.

Definition stateAddress : N := 1000.
Definition creator : N := 5.
Definition withdrawalAddress : N := 6.
Definition depositor : N := 9.
Definition stranger : N := 10.
Definition pubKey : N := 77.
Definition signature : N := 88.

(** Role holders of the delegating stake rules of the operation tests. *)
Definition addrA : N := 1111.
Definition addrB : N := 2222.
Definition addrC : N := 3333.
Definition addrD : N := 4444.
Definition addrE : N := 5555.
Definition addrExit : N := 6666.
Definition addrWithdrawal : N := 7777.

Definition rules : operation.DelegatingStakeRules :=
  {| operation.ProfitShare := {[ addrA := 10; addrB := 30; addrC := 60 ]};
     operation.StakeShare := {[ addrD := 70; addrE := 30 ]};
     operation.Exit := [addrExit];
     operation.Withdrawal := [addrWithdrawal] |}.

Definition stakeData : operation.DelegatingStakeData :=
  {| operation.Rules := rules; operation.TrialPeriod := 0; operation.TrialRules := rules |}.

Definition config : params.ChainConfig :=
  {| params.ValidatorsStateAddress := Some stateAddress;
     params.EffectiveBalance := 3200;
     params.ValidatorOpExpireSlots := 100;
     params.IsForkSlotDelegate := fun slot => 50 <=? slot;
     params.IsForkSlotValOpTracking := fun slot => 60 <=? slot;
     params.IsForkSlotValSyncProc := fun slot => 70 <=? slot |}.

(** Transactions of the chain: [txWithdrawal] is a withdrawal request of
    [depositor] included with success in block [blockA] at slot 80;
    [txDeposit] is a deposit of [depositor] of the same block;
    [txFailed] is a request of block [blockA] whose receipt is failed;
    [txSync] is an earlier confirmation of the coordinator. *)
Definition txWithdrawal : N := 4000.
Definition txFailed : N := 4001.
Definition txSync : N := 4002.
Definition txDeposit : N := 4003.
Definition txNew : N := 4242.
Definition blockA : N := 300.
Definition blockNow : N := 500.

Definition depositOp : operation.Deposit :=
  operation.mkDeposit pubKey creator withdrawalAddress signature None.

Definition exitOp : operation.ExitOp := operation.mkExit pubKey creator None.

Definition withdrawalOp (amount : Z) : operation.WithdrawalOp :=
  operation.mkWithdrawal creator amount.

Definition syncOp (t : operation.OpType) (initTx : N) (procEpoch : Z)
    (amount balance : option Z) : operation.ValidatorSync :=
  operation.mkValidatorSync operation.Ver1 t procEpoch 3 creator amount balance initTx.

(** The payloads of the test transactions: a one-byte tag, then the
    amount in wei for the tags that carry one. *)
Definition decode (data : list Z) : ExtError + operation.Operation :=
  match data with
  | [1] => inr (operation.OpDeposit depositOp)
  | [2] => inr (operation.OpExit exitOp)
  | [3; amount] => inr (operation.OpWithdrawal (withdrawalOp amount))
  | [4; procEpoch] =>
      inr (operation.OpValidatorSync
             (syncOp operation.Activate txDeposit procEpoch None None))
  | [5; amount; balance] =>
      inr (operation.OpValidatorSync
             (syncOp operation.UpdateBalance txWithdrawal 8 (Some amount) (Some balance)))
  | _ => inl 1%N
  end.

Definition savedSync (t : operation.OpType) (initTx : N) (procEpoch : Z)
    (amount : option Z) (tx : option N) : types.ValidatorSync :=
  types.mkValidatorSync t procEpoch 3 creator amount None initTx tx.

(** The chain: eras of ten epochs, epochs of 32 slots. [saved] is the
    only coordinated sync record, if any. *)
Definition chain (saved : option types.ValidatorSync) : blockchain :=
  {| Config := config;
     EpochToEra := fun e => Some (era.mkEra (e / 10) (e / 10 * 10) (e / 10 * 10 + 9));
     SlotToEpoch := fun slot => slot / 32;
     CurrentSlot := 90;
     SlotOfEpochStart := fun e => inr (e * 32);
     EraInfoNumber := 5;
     ReadEra := fun n => Some (era.mkEra n (n * 10) (n * 10 + 9));
     GetValidatorSyncData := fun h =>
       match saved with
       | Some sv => if (h =? types.InitTxHash sv)%N then Some sv else None
       | None => None
       end;
     GetTransaction := fun h =>
       if (h =? txWithdrawal)%N then Some (types.mkTransaction [3; 0] depositor)
       else if (h =? txDeposit)%N then Some (types.mkTransaction [1] depositor)
       else None;
     GetTransactionReceipt := fun h =>
       if (h =? txWithdrawal)%N || (h =? txSync)%N || (h =? txDeposit)%N
       then (Some (types.mkReceipt types.ReceiptStatusSuccessful), blockA)
       else if (h =? txFailed)%N then (Some (types.mkReceipt types.ReceiptStatusFailed), blockA)
       else (None, common.zeroHash);
     GetHeaderByHash := fun b => if (b =? blockA)%N then Some (types.mkHeader 80) else None |}.

Definition libs : externals :=
  {| DecodeBytes := decode;
     VerifyDepositSig := fun sig _ _ _ => if (sig =? signature)%N then None else Some 2%N;
     NewDelegatingStakeData := fun r t tr => inr (operation.mkStakeData r t tr);
     MarshalDelegatingStake := fun d =>
       match d with
       | None => inr []
       | Some ds => inr [operation.TrialPeriod ds]
       end;
     rlpEncodeErr := fun _ => None;
     validatorEncodeErr := fun _ => None;
     noValidatorInfoErr := Some 3%N |}.

(** The processor of a block at [slot] in era 5, with [saved] as
    coordinated sync record. *)
Definition processor (slot : Z) (saved : option types.ValidatorSync) : Processor :=
  mkProcessor (vm.mkBlockContext slot 5 blockNow) (chain saved) libs.

(** A validator record of [creator] with the given ledger, version,
    activation era, pending withdrawal tx and delegating stake data. *)
Definition validator (stake : gmap N Z) (ver : Z) (activationEra : Z)
    (pendingWithdrawal pendingExit : option N)
    (dlg : option operation.DelegatingStakeData) : valStore.Validator :=
  {| valStore.PubKey := pubKey; valStore.Address := creator;
     valStore.WithdrawalAddress := Some withdrawalAddress;
     valStore.Index := 3;
     valStore.ActivationEra := activationEra; valStore.ExitEra := common.MaxUint64;
     valStore.Stake := stake; valStore.DelegatingStake := dlg; valStore.version := ver;
     valStore.depositTxs := [txWithdrawal]; valStore.withdrawalTx := pendingWithdrawal;
     valStore.exitTx := pendingExit |}.

(** A state where [depositor] owns 20 wat, without or with a record. *)
Definition emptyState : vm.StateDB :=
  vm.mkStateDB {[ depositor := 20000000000000000000 ]} ∅ [] ∅ 0 ∅.

Definition stateWith (v : valStore.Validator) : vm.StateDB :=
  vm.mkStateDB {[ depositor := 20000000000000000000 ]} ∅ [] {[ creator := v ]} 1 ∅.

End Fixture.

(** ** Further test data *)
Module Cases.

(** A state where [depositor] and [stranger] own 20 wat each and [v] is
    the record of [creator]. *)
Definition stateTwo (v : valStore.Validator) : vm.StateDB :=
  vm.mkStateDB {[ Fixture.depositor := 20000000000000000000;
                  Fixture.stranger := 20000000000000000000 ]}
    ∅ [] {[ Fixture.creator := v ]} 1 ∅.

(** The record after a first deposit of 10 wat by [depositor]. *)
Definition deposited : valStore.Validator :=
  Fixture.validator {[ Fixture.depositor := 10000000000000000000 ]}
    valStore.NoVer common.MaxUint64 None None None.

(** The gas constants of go-ethereum, and a chain without tokens. *)
Definition gas : core.GasParams :=
  core.mkGasParams 21000 53000 16 4 2400 1900.

Definition noTokens : core.TokenSide :=
  core.mkTokenSide (fun _ => inl 1%N) 0%N None.

(** The storage keys of an access list of (address, keys) tuples. *)
Definition storageKeys (al : list (N * list N)) : Z :=
  foldr (fun t acc => Z.of_nat (length t.2) + acc) 0 al.

End Cases.

(** * Properties *)

(** ** Rollback of [Call] *)

(** Setting the nonce of an account leaves the nonces of the others. *)
Lemma SetNonce_other s a b n :
  a <> b -> vm.GetNonce (vm.SetNonce s b n) a = vm.GetNonce s a.
Proof.
  intros Hab. unfold vm.GetNonce, vm.SetNonce; simpl.
  by rewrite lookup_insert_ne.
Qed.

(** C1 (amended). When [Call] returns an error, the snapshot is restored:
    balances, validator records, deposit counter, validators list and logs
    are those of the state before the call, and so are the nonces of all
    accounts but the caller. The nonce of the caller is incremented before
    the snapshot is taken, so the increment survives the rollback whenever
    the operation could be decoded; when decoding fails the state is
    untouched. *)
Theorem Call_error_restores_snapshot p s caller toAddr value msg s' e :
  Call p s caller toAddr value msg = (s', Err e) ->
  s' = match DecodeBytes (lib p) (msgData msg) with
       | inl _ => s
       | inr _ => vm.SetNonce s caller (common.wrap64 (vm.GetNonce s caller + 1))
       end
  /\ vm.balances s' = vm.balances s
  /\ vm.validators s' = vm.validators s
  /\ vm.depositCount s' = vm.depositCount s
  /\ vm.validatorsList s' = vm.validatorsList s
  /\ vm.logs s' = vm.logs s
  /\ (forall a, a <> caller -> vm.GetNonce s' a = vm.GetNonce s a).
Proof.
  unfold Call. intros H.
  destruct (DecodeBytes (lib p) (msgData msg)) as [err|op].
  - inversion H; subst. by repeat split.
  - assert (Hs : s' = vm.SetNonce s caller (common.wrap64 (vm.GetNonce s caller + 1))).
    { destruct op; simpl in H;
        try (match type of H with
             | (let '(_, _) := ?c in _) = _ => destruct c as [s1 [r | e1 |]]
             end);
        simpl in H; try discriminate; by inversion H. }
    subst s'. repeat split; try done.
    intros a Ha. by apply SetNonce_other.
Qed.

Lemma Call_error_restores_snapshot_witness :
  let p := Fixture.processor 90 None in
  let s := Fixture.emptyState in
  let r := Call p s Fixture.depositor Fixture.stranger (Some MinDepositVal)
             (mkMessage Fixture.txNew [1]) in
  r.2 = Err ErrInvalidToAddress
  /\ vm.balances r.1 = vm.balances s
  /\ vm.logs r.1 = vm.logs s
  /\ vm.GetNonce r.1 Fixture.depositor = 1.
Proof.
  intros p s r.
  assert (H : r = (r.1, Err ErrInvalidToAddress)) by (vm_compute; reflexivity).
  destruct (Call_error_restores_snapshot p s Fixture.depositor Fixture.stranger
              (Some MinDepositVal) (mkMessage Fixture.txNew [1]) r.1 ErrInvalidToAddress H)
    as (Hs & Hb & _ & _ & _ & Hl & _).
  split; [by rewrite H|].
  split; [exact Hb|]. split; [exact Hl|].
  rewrite Hs. vm_compute. reflexivity.
Defined.

(** C1 (as stated) fails: a deposit sent to an address that is not the
    validators state address returns [ErrInvalidToAddress], and the state
    after the call differs from the state before it: the nonce of the
    caller went from 0 to 1. *)
Lemma Call_error_keeps_nonce_increment :
  let p := Fixture.processor 90 None in
  let s := Fixture.emptyState in
  let r := Call p s Fixture.depositor Fixture.stranger (Some MinDepositVal)
             (mkMessage Fixture.txNew [1]) in
  r.2 = Err ErrInvalidToAddress
  /\ vm.GetNonce s Fixture.depositor = 0
  /\ vm.GetNonce r.1 Fixture.depositor = 1
  /\ r.1 <> s.
Proof.
  intros p s r. split; [vm_compute; reflexivity|].
  split; [vm_compute; reflexivity|].
  assert (Hn : vm.GetNonce r.1 Fixture.depositor = 1) by (vm_compute; reflexivity).
  split; [exact Hn|].
  intros Heq. rewrite Heq in Hn. vm_compute in Hn. discriminate.
Qed.

(** ** Deposit *)

Lemma GetBalance_SetNonce s a b n :
  vm.GetBalance (vm.SetNonce s b n) a = vm.GetBalance s a.
Proof. reflexivity. Qed.

Lemma GetValidator_found p s a v :
  vm.validators s !! a = Some v -> Storage.GetValidator p s a = (Some v, None).
Proof. intros H. unfold Storage.GetValidator. by rewrite H. Qed.

(** C10. A deposit for a creator whose stored record is activated
    ([ActivationEra] below the max-uint64 sentinel) is always rejected and
    leaves the state as it is; once the request itself is valid (target
    address, signature, value, funds, delegating data) the error is the
    "already activated" one, whatever the public key, the withdrawal
    address and the delegating stake data of the request are, hence also
    when they all match the record. *)
Theorem deposit_for_activated_validator_rejected
    p s caller toAddr value op txHash cur :
  vm.validators s !! operation.dCreatorAddress op = Some cur ->
  valStore.ActivationEra cur < common.MaxUint64 ->
  (exists e, validatorDeposit p s caller toAddr value op txHash = (s, Err e))
  /\ (forall v, value = Some v -> depositRequestValid p s caller toAddr v op ->
        validatorDeposit p s caller toAddr value op txHash
        = (s, Err (ErrNew "validator deposit failed (validator already activated)"))).
Proof.
  intros Hcur Hact.
  apply Z.ltb_lt in Hact.
  split.
  - unfold validatorDeposit.
    rewrite (GetValidator_found _ _ _ _ Hcur). simpl. rewrite Hact.
    repeat (case_match; try (eexists; reflexivity); try discriminate).
  - intros v -> (Hto & Hsig & Hmin & Hcast & Hbal & d & Hd).
    unfold validatorDeposit.
    rewrite Hto, Hsig, Hcast. simpl.
    apply Z.ltb_ge in Hmin. rewrite Hmin.
    apply Z.ltb_ge in Hbal. rewrite Hbal.
    rewrite (GetValidator_found _ _ _ _ Hcur). simpl. rewrite Hact.
    unfold delegatingDataAccepted in Hd.
    destruct (operation.dDelegatingStake op) as [ds|]; [|reflexivity].
    destruct Hd as (Hfork & Hval & d' & -> & Hnew).
    by rewrite Hfork, Hval, Hnew.
Qed.

Lemma deposit_for_activated_validator_rejected_witness :
  let p := Fixture.processor 90 None in
  let cur := Fixture.validator ∅ valStore.Ver1 5 None None None in
  let s := Fixture.stateWith cur in
  valStore.PubKey cur = operation.dPubKey Fixture.depositOp
  /\ valStore.WithdrawalAddress cur = Some (operation.dWithdrawalAddress Fixture.depositOp)
  /\ valStore.DelegatingStake cur = operation.dDelegatingStake Fixture.depositOp
  /\ validatorDeposit p s Fixture.depositor Fixture.stateAddress (Some MinDepositVal)
       Fixture.depositOp Fixture.txNew
     = (s, Err (ErrNew "validator deposit failed (validator already activated)")).
Proof.
  intros p cur s.
  split; [reflexivity|]. split; [reflexivity|]. split; [reflexivity|].
  refine (proj2 (deposit_for_activated_validator_rejected p s Fixture.depositor
                   Fixture.stateAddress (Some MinDepositVal) Fixture.depositOp
                   Fixture.txNew cur _ _) MinDepositVal eq_refl _).
  - reflexivity.
  - reflexivity.
  - unfold depositRequestValid. repeat split; try (vm_compute; congruence).
    exists None. reflexivity.
Defined.

(** C7. The minimum deposit is 10 x 10^18 base units. A deposit of
    exactly that value for a creator without record, with a valid
    signature (and accepted delegating data) and a sender whose balance
    covers it, succeeds through [Call]: the record of the creator is
    created (not activated, not exited, with the sender as its only
    depositor), the deposit counter grows by exactly 1 and the balance of
    the sender decreases by exactly the value. A deposit of one unit less
    fails with [ErrTooLowDepositValue] and the balance of the sender is
    the one before the call. *)
Theorem minimal_deposit p s caller toAddr msg op d :
  DecodeBytes (lib p) (msgData msg) = inr (operation.OpDeposit op) ->
  IsValidatorOp p (Some toAddr) = true ->
  VerifyDepositSig (lib p) (operation.dSignature op) (operation.dPubKey op)
    (operation.dCreatorAddress op) (operation.dWithdrawalAddress op) = None ->
  delegatingDataAccepted p op d ->
  vm.validators s !! operation.dCreatorAddress op = None ->
  (forall v, validatorEncodeErr (lib p) v = None) ->
  MinDepositVal = 10 * 10 ^ 18
  /\ (MinDepositVal <= vm.GetBalance s caller ->
      exists s' v',
        Call p s caller toAddr (Some MinDepositVal) msg = (s', Ok (RetValue32 MinDepositVal))
        /\ vm.validators s' !! operation.dCreatorAddress op = Some v'
        /\ valStore.PubKey v' = operation.dPubKey op
        /\ valStore.Address v' = operation.dCreatorAddress op
        /\ valStore.WithdrawalAddress v' = Some (operation.dWithdrawalAddress op)
        /\ valStore.DelegatingStake v' = d
        /\ valStore.ActivationEra v' = common.MaxUint64
        /\ valStore.ExitEra v' = common.MaxUint64
        /\ valStore.Stake v' = {[ caller := MinDepositVal ]}
        /\ valStore.depositTxs v' = [msgTxHash msg]
        /\ vm.depositCount s' = vm.depositCount s + 1
        /\ vm.GetBalance s' caller = vm.GetBalance s caller - MinDepositVal)
  /\ (exists s',
        Call p s caller toAddr (Some (MinDepositVal - 1)) msg = (s', Err ErrTooLowDepositValue)
        /\ vm.GetBalance s' caller = vm.GetBalance s caller).
Proof.
  intros Hdec Hto Hsig Hd Hnew Henc.
  split; [reflexivity|]. split.
  - intros Hbal. apply Z.ltb_ge in Hbal.
    unfold Call. rewrite Hdec. unfold validatorDeposit.
    rewrite Hto, Hsig. simpl negb. cbv iota.
    rewrite Z.ltb_irrefl.
    replace (common.BnCanCastToUint64 (MinDepositVal / common.BigGwei)) with true
      by (vm_compute; reflexivity).
    simpl negb. cbv iota. cbv zeta.
    rewrite GetBalance_SetNonce, Hbal.
    unfold Storage.GetValidator at 1. simpl vm.validators. rewrite Hnew. simpl fst.
    unfold delegatingDataAccepted in Hd.
    destruct (operation.dDelegatingStake op) as [ds|].
    + destruct Hd as (Hfork & Hval & d' & -> & Hmk).
      rewrite Hfork, Hval, Hmk. simpl.
      unfold Storage.SetValidator. rewrite Henc. simpl.
      eexists _, _. split; [reflexivity|]. simpl.
      rewrite lookup_insert_eq. split; [reflexivity|].
      repeat split; try reflexivity.
      unfold vm.GetBalance; simpl. by rewrite lookup_insert_eq.
    + subst d. simpl.
      unfold Storage.SetValidator. rewrite Henc. simpl.
      eexists _, _. split; [reflexivity|]. simpl.
      rewrite lookup_insert_eq. split; [reflexivity|].
      repeat split; try reflexivity.
      unfold vm.GetBalance; simpl. by rewrite lookup_insert_eq.
  - unfold Call. rewrite Hdec. unfold validatorDeposit.
    rewrite Hto, Hsig. simpl negb. cbv iota.
    replace (MinDepositVal - 1 <? MinDepositVal) with true by (vm_compute; reflexivity).
    eexists. split; reflexivity.
Qed.

Lemma minimal_deposit_witness :
  let p := Fixture.processor 90 None in
  let s := Fixture.emptyState in
  let msg := mkMessage Fixture.txNew [1] in
  (exists s',
     Call p s Fixture.depositor Fixture.stateAddress (Some MinDepositVal) msg
     = (s', Ok (RetValue32 MinDepositVal))
     /\ is_Some (vm.validators s' !! Fixture.creator)
     /\ vm.depositCount s' = vm.depositCount s + 1
     /\ vm.GetBalance s' Fixture.depositor = vm.GetBalance s Fixture.depositor - MinDepositVal)
  /\ (exists s',
        Call p s Fixture.depositor Fixture.stateAddress (Some (MinDepositVal - 1)) msg
        = (s', Err ErrTooLowDepositValue)
        /\ vm.GetBalance s' Fixture.depositor = vm.GetBalance s Fixture.depositor).
Proof.
  intros p s msg.
  destruct (minimal_deposit p s Fixture.depositor Fixture.stateAddress msg
              Fixture.depositOp None) as (_ & Hok & Hlow);
    try reflexivity.
  split; [|exact Hlow].
  destruct Hok as (s' & v' & Hcall & Hv & _ & _ & _ & _ & _ & _ & _ & _ & Hcount & Hbal).
  { vm_compute. discriminate. }
  exists s'. repeat split; try assumption. by exists v'.
Defined.

(** ** Validation of delegating stake rules *)

(** C8. [Validate] succeeds exactly when the profit shares sum to 100,
    the stake shares sum to 100 and both role lists are non-empty; the
    first rule that is violated, in the order profit share, stake share,
    exit roles, withdrawal roles, decides the error, so that a single
    violated rule yields its own named error. *)
Theorem Validate_spec (dsr : operation.DelegatingStakeRules) :
  (operation.Validate dsr = None <->
     operation.sumShare (operation.ProfitShare dsr) = 100
     /\ operation.sumShare (operation.StakeShare dsr) = 100
     /\ operation.Exit dsr <> []
     /\ operation.Withdrawal dsr <> [])
  /\ (operation.sumShare (operation.ProfitShare dsr) <> 100 ->
      operation.Validate dsr = Some ErrBadProfitShare)
  /\ (operation.sumShare (operation.ProfitShare dsr) = 100 ->
      operation.sumShare (operation.StakeShare dsr) <> 100 ->
      operation.Validate dsr = Some ErrBadStakeShare)
  /\ (operation.sumShare (operation.ProfitShare dsr) = 100 ->
      operation.sumShare (operation.StakeShare dsr) = 100 ->
      operation.Exit dsr = [] ->
      operation.Validate dsr = Some ErrNoExitRoles)
  /\ (operation.sumShare (operation.ProfitShare dsr) = 100 ->
      operation.sumShare (operation.StakeShare dsr) = 100 ->
      operation.Exit dsr <> [] ->
      operation.Withdrawal dsr = [] ->
      operation.Validate dsr = Some ErrNoWithdrawalRoles).
Proof.
  unfold operation.Validate.
  destruct (Z.eqb_spec (operation.sumShare (operation.ProfitShare dsr)) 100) as [Hp|Hp];
  destruct (Z.eqb_spec (operation.sumShare (operation.StakeShare dsr)) 100) as [Hs|Hs];
  simpl;
  destruct (operation.Exit dsr) as [|e es];
  destruct (operation.Withdrawal dsr) as [|w ws]; simpl;
  repeat split; intros; try done; try tauto; try (destruct_and?; done).
Qed.

Lemma Validate_spec_witness :
  operation.Validate Fixture.rules = None
  /\ operation.Validate
       (operation.mkRules {[ Fixture.addrA := 10; Fixture.addrB := 30 ]}
          (operation.StakeShare Fixture.rules) [Fixture.addrExit] [Fixture.addrWithdrawal])
     = Some ErrBadProfitShare.
Proof.
  split.
  - apply (proj1 (Validate_spec Fixture.rules)).
    repeat split; try (vm_compute; congruence).
  - apply (proj1 (proj2 (Validate_spec _))). vm_compute. congruence.
Defined.

(** The cases of [TestDelegatingStakeRules_validate]. *)
Example Validate_test_cases :
  let ok := Fixture.rules in
  operation.Validate ok = None
  /\ operation.Validate (operation.mkRules ∅ (operation.StakeShare ok)
                           (operation.Exit ok) (operation.Withdrawal ok))
     = Some ErrBadProfitShare
  /\ operation.Validate
       (operation.mkRules {[ Fixture.addrA := 10; Fixture.addrB := 30 ]}
          (operation.StakeShare ok) (operation.Exit ok) (operation.Withdrawal ok))
     = Some ErrBadProfitShare
  /\ operation.Validate
       (operation.mkRules (operation.ProfitShare ok)
          {[ Fixture.addrA := 60; Fixture.addrB := 60 ]}
          (operation.Exit ok) (operation.Withdrawal ok))
     = Some ErrBadStakeShare
  /\ operation.Validate (operation.mkRules (operation.ProfitShare ok)
                           (operation.StakeShare ok) [] (operation.Withdrawal ok))
     = Some ErrNoExitRoles
  /\ operation.Validate (operation.mkRules (operation.ProfitShare ok)
                           (operation.StakeShare ok) (operation.Exit ok) [])
     = Some ErrNoWithdrawalRoles.
Proof. repeat split; vm_compute; reflexivity. Qed.

(** ** Errors of the collaborators

    The errors that the storage and the trial period computation hand to
    the processor are never one of the errors of the processor itself. *)

Lemma SubtractStake_error v a x v' n e :
  valStore.SubtractStake v a x = (v', n, Some e) -> e = ErrInsufficientStake.
Proof.
  unfold valStore.SubtractStake. intros H.
  repeat case_match; by inversion H.
Qed.

Lemma SetValidator_error p s v s' e :
  Storage.SetValidator p s v = (s', Some e) -> s' = s /\ exists x, e = ErrExt x.
Proof.
  unfold Storage.SetValidator. intros H.
  case_match; inversion H; subst; eauto.
Qed.

Lemma SetValidator_success p s v s' :
  Storage.SetValidator p s v = (s', None) ->
  vm.validators s' = <[valStore.Address v := v]> (vm.validators s)
  /\ vm.balances s' = vm.balances s /\ vm.nonces s' = vm.nonces s
  /\ vm.logs s' = vm.logs s /\ vm.depositCount s' = vm.depositCount s
  /\ vm.validatorsList s' = vm.validatorsList s.
Proof.
  unfold Storage.SetValidator. intros H.
  case_match; inversion H; subst; simpl; done.
Qed.

Lemma isValidatorTrialPeriod_error p v e :
  isValidatorTrialPeriod p v = Err e -> exists x, e = ErrExt x.
Proof.
  unfold isValidatorTrialPeriod. intros H.
  repeat case_match; inversion H; eauto.
Qed.

Lemma actualRules_error p v e :
  actualRules p v = Err e -> exists x, e = ErrExt x.
Proof.
  unfold actualRules. intros H.
  destruct (valStore.DelegatingStake v); [|discriminate].
  destruct (isValidatorTrialPeriod p v) eqn:E; inversion H; subst.
  by apply isValidatorTrialPeriod_error in E.
Qed.

Lemma existsb_address (from : N) (l : list N) :
  existsb (fun adr => (adr =? from)%N) l = true <-> from ∈ l.
Proof.
  rewrite existsb_exists, list_elem_of_In. split.
  - intros (x & Hin & Heq). apply N.eqb_eq in Heq. by subst.
  - intros Hin. exists from. split; [done|]. apply N.eqb_refl.
Qed.

(** ** Single operation in flight *)

(** The check written three times in the source (deposit, exit,
    withdrawal) is the predicate of the specification. *)
Lemma inflight_check_eq p (h : N) :
  (let '(rc, blHash) := GetTransactionReceipt (bc p) h in
   if negb (blHash =? common.zeroHash)%N && (blHash =? vm.BlockHash (ctx p))%N then true
   else match rc with
        | None => false
        | Some rc =>
            if types.Status rc =? types.ReceiptStatusSuccessful then
              match GetHeaderByHash (bc p) blHash with
              | None => false
              | Some prevHeader =>
                  vm.Slot (ctx p) <?
                    common.wrap64 (types.Slot prevHeader
                                   + params.ValidatorOpExpireSlots (Config (bc p)))
              end
            else false
        end)
  = blockedByPending p h.
Proof.
  unfold blockedByPending, inSameBlock, receiptSuccessful, withinExpirationWindow.
  destruct (GetTransactionReceipt (bc p) h) as [rc blHash]. simpl.
  destruct (negb (blHash =? common.zeroHash)%N && (blHash =? vm.BlockHash (ctx p))%N);
    [done|]. simpl.
  destruct rc as [rc|]; [|done].
  destruct (types.Status rc =? types.ReceiptStatusSuccessful); [|done].
  by destruct (GetHeaderByHash (bc p) blHash).
Qed.

(** When the sum of the slot of the pending tx and of the expiration does
    not overflow, the window is the interval of that many slots that
    starts at the slot of the block of the pending tx. *)
Lemma withinExpirationWindow_no_overflow p h hd :
  GetHeaderByHash (bc p) (GetTransactionReceipt (bc p) h).2 = Some hd ->
  0 <= types.Slot hd + params.ValidatorOpExpireSlots (Config (bc p)) <= common.MaxUint64 ->
  withinExpirationWindow p h = true <->
  vm.Slot (ctx p) < types.Slot hd + params.ValidatorOpExpireSlots (Config (bc p)).
Proof.
  intros Hhd Hrange. unfold withinExpirationWindow. rewrite Hhd.
  unfold common.wrap64. rewrite Z.mod_small, Z.ltb_lt; [done|].
  unfold common.MaxUint64 in Hrange. lia.
Qed.

(** C2. For a record at version [Ver1] (or later) with a pending
    withdrawal tx, a withdrawal request that is otherwise valid is rejected
    with [ErrValOpBlocked], the state untouched, when the pending tx is in
    the block being processed, or when its receipt is successful and the
    current slot is within the expiration window after the slot of its
    block; otherwise (window elapsed, or prior tx failed and in another
    block) the request is not answered with [ErrValOpBlocked]. The same
    holds for an exit request and the pending exit tx. *)
Theorem pending_operation_blocks p s caller toAddr txHash v :
  valStore.Ver1 <= valStore.Version v ->
  (forall op h,
     withdrawalRequestValid p s toAddr op v ->
     valStore.GetWithdrawalTx v = Some h ->
     (blockedByPending p h = true ->
      validatorWithdrawal p s caller toAddr op txHash = (s, Err ErrValOpBlocked))
     /\ (blockedByPending p h = false ->
         (validatorWithdrawal p s caller toAddr op txHash).2 <> Err ErrValOpBlocked))
  /\ (forall op h,
        exitRequestValid p s caller toAddr op v ->
        valStore.GetExitTx v = Some h ->
        (blockedByPending p h = true ->
         validatorExit p s caller toAddr op txHash = (s, Err ErrValOpBlocked))
        /\ (blockedByPending p h = false ->
            (validatorExit p s caller toAddr op txHash).2 <> Err ErrValOpBlocked)).
Proof.
  intros Hver. apply Z.geb_le in Hver. split.
  - intros op h (Hto & Hcast & Hv) Hpend.
    unfold validatorWithdrawal.
    rewrite Hto, Hcast, (GetValidator_found _ _ _ _ Hv). simpl negb. cbv iota.
    rewrite Hver, Hpend, inflight_check_eq.
    split; intros Hb; rewrite Hb; [reflexivity|].
    cbv zeta.
    repeat case_match; simpl; try discriminate;
      repeat match goal with
             | H : valStore.SubtractStake _ _ _ = (_, _, Some _) |- _ =>
                 apply SubtractStake_error in H; subst
             | H : Storage.SetValidator _ _ _ = (_, Some _) |- _ =>
                 apply SetValidator_error in H; destruct H as (_ & ? & ->)
             | H : actualRules _ _ = Err _ |- _ =>
                 apply actualRules_error in H; destruct H as (? & ->)
             | H : Err _ = Err _ |- _ => inversion H; subst; clear H
             | H : Ok _ = Err _ |- _ => discriminate H
             | H : Panic = Err _ |- _ => discriminate H
             | H : (if ?b then _ else _) = Err _ |- _ => destruct b
             | H : match ?x with _ => _ end = Err _ |- _ => destruct x eqn:?
             end; try discriminate.
  - intros op h (Hto & Hv & Hpk & Hact & Hexit & Hauth) Hpend.
    unfold validatorExit.
    rewrite Hto, (GetValidator_found _ _ _ _ Hv). simpl negb. cbv iota.
    unfold valStore.GetPubKey, valStore.GetActivationEra, valStore.GetExitEra.
    rewrite Hpk, N.eqb_refl, Hexit. simpl negb. cbv iota.
    replace (valStore.ActivationEra v >? EraInfoNumber (bc p)) with false
      by (symmetry; rewrite Z.gtb_ltb; apply Z.ltb_ge; lia).
    cbv zeta.
    assert (Hok : (if valStore.HasDelegatingStake v
                   then match actualRules p v with
                        | Ok (rules, _) =>
                            if negb (existsb (fun adr => (adr =? caller)%N)
                                       (operation.Exit rules))
                            then Err ErrSenderRejByDelegate else Ok ()
                        | Err err => Err err
                        | Panic => Panic
                        end
                   else match valStore.GetWithdrawalAddress v with
                        | Some w => if negb (caller =? w)%N
                                    then Err ErrInvalidFromAddresses else Ok ()
                        | None => Panic
                        end) = Ok ()).
    { unfold exitAuthorised in Hauth.
      destruct (valStore.HasDelegatingStake v).
      - destruct Hauth as (rules & isTrial & -> & Hin).
        apply existsb_address in Hin. by rewrite Hin.
      - rewrite Hauth. by rewrite N.eqb_refl. }
    rewrite Hok, Hver, Hpend, inflight_check_eq.
    split; intros Hb; rewrite Hb; [reflexivity|].
    destruct (Storage.SetValidator p s _) as [s1 [e|]] eqn:Hset; simpl; [|discriminate].
    apply SetValidator_error in Hset. destruct Hset as (_ & x & ->). discriminate.
Qed.

Lemma pending_operation_blocks_witness :
  let v := Fixture.validator ∅ valStore.Ver1 5
             (Some Fixture.txWithdrawal) (Some Fixture.txWithdrawal) None in
  let s := Fixture.stateWith v in
  (* slot 90: within the 100 slots after slot 80 of the pending tx *)
  validatorWithdrawal (Fixture.processor 90 None) s Fixture.withdrawalAddress
    Fixture.stateAddress (Fixture.withdrawalOp 0) Fixture.txNew
  = (s, Err ErrValOpBlocked)
  /\ validatorExit (Fixture.processor 90 None) s Fixture.withdrawalAddress
       Fixture.stateAddress Fixture.exitOp Fixture.txNew
     = (s, Err ErrValOpBlocked)
  (* slot 180: the window has elapsed *)
  /\ (validatorWithdrawal (Fixture.processor 180 None) s Fixture.withdrawalAddress
        Fixture.stateAddress (Fixture.withdrawalOp 0) Fixture.txNew).2
     <> Err ErrValOpBlocked.
Proof.
  intros v s.
  assert (Hver : valStore.Ver1 <= valStore.Version v) by (vm_compute; discriminate).
  assert (Hw : forall slot,
             withdrawalRequestValid (Fixture.processor slot None) s Fixture.stateAddress
               (Fixture.withdrawalOp 0) v).
  { intros slot. repeat split. }
  assert (He : exitRequestValid (Fixture.processor 90 None) s Fixture.withdrawalAddress
                 Fixture.stateAddress Fixture.exitOp v).
  { repeat split. vm_compute. discriminate. }
  split; [|split].
  - apply (proj1 (pending_operation_blocks (Fixture.processor 90 None) s
                    Fixture.withdrawalAddress Fixture.stateAddress Fixture.txNew v Hver)
             (Fixture.withdrawalOp 0) Fixture.txWithdrawal (Hw 90) eq_refl).
    reflexivity.
  - apply (proj2 (pending_operation_blocks (Fixture.processor 90 None) s
                    Fixture.withdrawalAddress Fixture.stateAddress Fixture.txNew v Hver)
             Fixture.exitOp Fixture.txWithdrawal He eq_refl).
    reflexivity.
  - apply (proj1 (pending_operation_blocks (Fixture.processor 180 None) s
                    Fixture.withdrawalAddress Fixture.stateAddress Fixture.txNew v Hver)
             (Fixture.withdrawalOp 0) Fixture.txWithdrawal (Hw 180) eq_refl).
    reflexivity.
Defined.

(** ** Cross-validation of sync operations *)

(** The two checks of [CompareValSync] on the amounts: equal amounts, or
    both nil. *)
Lemma amounts_equal_check (sa ia : option Z) :
  (if match sa, ia with
      | Some a, Some b => negb (a =? b)
      | _, _ => false
      end then false
   else if match sa, ia with
           | Some _, None => true
           | None, Some _ => true
           | _, _ => false
           end then false
   else true) = true <-> sa = ia.
Proof.
  destruct sa as [a|], ia as [b|]; simpl; try (split; done).
  destruct (Z.eqb_spec a b) as [->|Hne]; simpl; split; try done.
  intros H. inversion H. done.
Qed.

(** [CompareValSync] decides the match of the specification. *)
Lemma CompareValSync_spec saved input isForkDelegate :
  CompareValSync saved input isForkDelegate = true <->
  syncOpMatches saved input isForkDelegate.
Proof.
  unfold CompareValSync, syncOpMatches.
  destruct (N.eqb_spec (types.InitTxHash saved) (operation.vsInitTxHash input)) as [H1|H1];
    simpl; [|split; [done|tauto]].
  destruct (decide (types.OpType saved = operation.vsOpType input)) as [H2|H2];
    [rewrite bool_decide_eq_true_2 by done|rewrite bool_decide_eq_false_2 by done];
    simpl; [|split; [done|tauto]].
  destruct (N.eqb_spec (types.Creator saved) (operation.vsCreator input)) as [H3|H3];
    simpl; [|split; [done|tauto]].
  destruct (Z.eqb_spec (types.Index saved) (operation.vsIndex input)) as [H4|H4];
    simpl; [|split; [done|tauto]].
  rewrite Z.gtb_ltb.
  destruct isForkDelegate; simpl.
  - rewrite amounts_equal_check. split; [by repeat split|tauto].
  - destruct (Z.ltb_spec (operation.vsProcEpoch input) (types.ProcEpoch saved)) as [H5|H5];
      simpl.
    + split; [done|]. intros (_ & _ & _ & _ & Hle & _). specialize (Hle eq_refl). lia.
    + rewrite amounts_equal_check. split; [by repeat split|tauto].
Qed.

(** C3 (amended). [ValidateValidatorSyncOp] fails with
    [ErrNoSavedValSyncOp] when there is no saved sync record for the
    [InitTxHash] of the operation.
    With a saved record (and, before the delegate fork, a processing epoch
    that is not behind the epoch of the slot of application: such an
    operation is refused first, with [ErrInvalidOpEpoch]) it fails with
    [ErrMismatchValSyncOp] unless the operation matches the record on
    [InitTxHash], [OpType], [Creator], [Index], the order of [ProcEpoch]
    (before the fork only) and [Amount]. A matching operation whose saved
    record carries another tx hash fails with [ErrValSyncTxExists], unless
    the delegate fork is active and the receipt of that tx is not
    successful: then this check lets the operation through. An operation
    that is accepted always matches its saved record. *)
Theorem ValidateValidatorSyncOp_checks p op txHash :
  let validate :=
    ValidateValidatorSyncOp (bc p) (lib p) op (vm.Slot (ctx p)) txHash in
  let isForkDelegate := params.IsForkSlotDelegate (Config (bc p)) (vm.Slot (ctx p)) in
  (GetValidatorSyncData (bc p) (operation.vsInitTxHash op) = None ->
   validate = Some ErrNoSavedValSyncOp)
  /\ (forall saved,
        GetValidatorSyncData (bc p) (operation.vsInitTxHash op) = Some saved ->
        syncEpochAcceptable (bc p) op (vm.Slot (ctx p)) ->
        (~ syncOpMatches saved op isForkDelegate -> validate = Some ErrMismatchValSyncOp)
        /\ (syncOpMatches saved op isForkDelegate ->
            forall h, types.TxHash saved = Some h -> h <> txHash ->
              (isForkDelegate = false \/ receiptSuccessful p h = true ->
               validate = Some ErrValSyncTxExists)
              /\ (isForkDelegate = true /\ receiptSuccessful p h = false ->
                  validate <> Some ErrValSyncTxExists)))
  /\ (forall saved,
        GetValidatorSyncData (bc p) (operation.vsInitTxHash op) = Some saved ->
        ~ syncEpochAcceptable (bc p) op (vm.Slot (ctx p)) ->
        validate = Some ErrInvalidOpEpoch)
  /\ (validate = None ->
      exists saved,
        GetValidatorSyncData (bc p) (operation.vsInitTxHash op) = Some saved
        /\ syncOpMatches saved op isForkDelegate).
Proof.
  intros validate isForkDelegate. subst validate.
  unfold ValidateValidatorSyncOp. fold isForkDelegate.
  split; [by intros ->|]. split.
  - intros saved -> Hepoch.
    assert (Hguard : negb isForkDelegate
                     && (SlotToEpoch (bc p) (vm.Slot (ctx p)) >? operation.vsProcEpoch op)
                     = false).
    { unfold syncEpochAcceptable in Hepoch. fold isForkDelegate in Hepoch.
      destruct isForkDelegate; [done|]. simpl.
      rewrite Z.gtb_ltb. apply Z.ltb_ge. by apply Hepoch. }
    rewrite Hguard. cbv iota. split.
    + intros Hno. rewrite <- CompareValSync_spec in Hno.
      apply not_true_is_false in Hno. by rewrite Hno.
    + intros Hyes. apply CompareValSync_spec in Hyes. rewrite Hyes.
      simpl negb. cbv iota.
      intros h -> Hne. apply N.eqb_neq in Hne. rewrite Hne.
      simpl negb. cbv iota.
      unfold receiptSuccessful.
      split.
      * intros [Hf | Hrc].
        -- by rewrite Hf.
        -- destruct isForkDelegate; [|done]. simpl negb. cbv iota.
           destruct ((GetTransactionReceipt (bc p) h).1) as [rc|]; [|done].
           by rewrite Hrc.
      * intros (Hf & Hrc). rewrite Hf. simpl negb. cbv iota.
        destruct ((GetTransactionReceipt (bc p) h).1) as [rc|];
          [rewrite Hrc|]; cbv iota;
          repeat case_match; congruence.
  - split.
    { intros saved -> Hstale. unfold syncEpochAcceptable in Hstale.
      fold isForkDelegate in Hstale.
      destruct isForkDelegate; [by destruct Hstale|]. cbn [negb andb].
      destruct (Z.gtb_spec (SlotToEpoch (bc p) (vm.Slot (ctx p)))
                  (operation.vsProcEpoch op)) as [Hgt|Hle]; [reflexivity|].
      destruct Hstale. intros _. exact Hle. }
    intros Hnone.
    destruct (GetValidatorSyncData (bc p) (operation.vsInitTxHash op)) as [saved|];
      [|discriminate].
    exists saved. split; [done|].
    apply CompareValSync_spec.
    destruct (negb isForkDelegate
              && (SlotToEpoch (bc p) (vm.Slot (ctx p)) >? operation.vsProcEpoch op));
      [discriminate|].
    by destruct (CompareValSync saved op isForkDelegate).
Qed.

Lemma ValidateValidatorSyncOp_checks_witness :
  let op := Fixture.syncOp operation.UpdateBalance Fixture.txWithdrawal 8 (Some 100) (Some 0) in
  let validate saved :=
    ValidateValidatorSyncOp (Fixture.chain saved) Fixture.libs op 90 Fixture.txNew in
  validate None = Some ErrNoSavedValSyncOp
  /\ validate (Some (Fixture.savedSync operation.Activate Fixture.txWithdrawal 8 (Some 100) None))
     = Some ErrMismatchValSyncOp
  /\ validate (Some (Fixture.savedSync operation.UpdateBalance Fixture.txWithdrawal 8 (Some 100)
                       (Some Fixture.txSync)))
     = Some ErrValSyncTxExists
  /\ validate (Some (Fixture.savedSync operation.UpdateBalance Fixture.txWithdrawal 8 (Some 100)
                       (Some Fixture.txFailed)))
     <> Some ErrValSyncTxExists.
Proof.
  intros op validate.
  pose (chk := fun saved => ValidateValidatorSyncOp_checks (Fixture.processor 90 saved)
                              op Fixture.txNew).
  assert (Hepoch : forall saved,
             syncEpochAcceptable (bc (Fixture.processor 90 saved)) op
               (vm.Slot (ctx (Fixture.processor 90 saved)))).
  { intros saved Hpre. vm_compute in Hpre. discriminate. }
  split; [|split; [|split]].
  - apply (proj1 (chk None)). reflexivity.
  - pose (sv := Fixture.savedSync operation.Activate Fixture.txWithdrawal 8 (Some 100) None).
    destruct (chk (Some sv)) as (_ & H & _).
    destruct (H sv eq_refl (Hepoch _)) as (Hmis & _).
    apply Hmis. intros (_ & Htype & _). vm_compute in Htype. discriminate.
  - pose (sv := Fixture.savedSync operation.UpdateBalance Fixture.txWithdrawal 8 (Some 100)
                  (Some Fixture.txSync)).
    destruct (chk (Some sv)) as (_ & H & _).
    destruct (H sv eq_refl (Hepoch _)) as (_ & Hmatch).
    refine (proj1 (Hmatch _ Fixture.txSync eq_refl _) _).
    + repeat split. intros Hf. vm_compute in Hf. discriminate.
    + vm_compute. discriminate.
    + right. reflexivity.
  - pose (sv := Fixture.savedSync operation.UpdateBalance Fixture.txWithdrawal 8 (Some 100)
                  (Some Fixture.txFailed)).
    destruct (chk (Some sv)) as (_ & H & _).
    destruct (H sv eq_refl (Hepoch _)) as (_ & Hmatch).
    refine (proj2 (Hmatch _ Fixture.txFailed eq_refl _) _).
    + repeat split. intros Hf. vm_compute in Hf. discriminate.
    + vm_compute. discriminate.
    + split; reflexivity.
Defined.
(** C3 (as stated) fails before the delegate fork for a stale operation.
    In a block at slot 40 (epoch 1, delegate fork not active) an Activate
    sync operation with processing epoch 0 is refused with
    [ErrInvalidOpEpoch], by [ValidateValidatorSyncOp] and through [Call]:
    when the saved record differs on [OpType], where the claim says
    [ErrMismatchValSyncOp], and when the saved record matches and already
    carries another tx hash, whose receipt is successful, where the claim
    says [ErrValSyncTxExists]. *)
Lemma stale_sync_op_is_refused_for_its_epoch :
  let op := Fixture.syncOp operation.Activate Fixture.txDeposit 0 None None in
  let other := Fixture.savedSync operation.Deactivate Fixture.txDeposit 0 None None in
  let dup := Fixture.savedSync operation.Activate Fixture.txDeposit 0 None
               (Some Fixture.txSync) in
  let validate saved :=
    ValidateValidatorSyncOp (Fixture.chain (Some saved)) Fixture.libs op 40 Fixture.txNew in
  let call saved :=
    Call (Fixture.processor 40 (Some saved)) Fixture.emptyState Fixture.stranger
      Fixture.stateAddress None (mkMessage Fixture.txNew [4; 0]) in
  params.IsForkSlotDelegate Fixture.config 40 = false
  /\ SlotToEpoch (Fixture.chain (Some dup)) 40 = 1
  (* the saved record is of another type *)
  /\ ~ syncOpMatches other op false
  /\ validate other = Some ErrInvalidOpEpoch
  /\ validate other <> Some ErrMismatchValSyncOp
  /\ (call other).2 = Err ErrInvalidOpEpoch
  (* the saved record matches and carries another, successful tx *)
  /\ syncOpMatches dup op false
  /\ types.TxHash dup = Some Fixture.txSync
  /\ Fixture.txSync <> Fixture.txNew
  /\ receiptSuccessful (Fixture.processor 40 (Some dup)) Fixture.txSync = true
  /\ validate dup = Some ErrInvalidOpEpoch
  /\ validate dup <> Some ErrValSyncTxExists
  /\ (call dup).2 = Err ErrInvalidOpEpoch.
Proof.
  intros op other dup validate call.
  assert (Hother : validate other = Some ErrInvalidOpEpoch) by (vm_compute; reflexivity).
  assert (Hdup : validate dup = Some ErrInvalidOpEpoch) by (vm_compute; reflexivity).
  split; [reflexivity|]. split; [reflexivity|].
  split; [intros (_ & Htype & _); vm_compute in Htype; discriminate|].
  split; [exact Hother|]. split; [rewrite Hother; discriminate|].
  split; [vm_compute; reflexivity|].
  split; [repeat split; intros _; vm_compute; discriminate|].
  split; [reflexivity|]. split; [discriminate|]. split; [reflexivity|].
  split; [exact Hdup|]. split; [rewrite Hdup; discriminate|].
  vm_compute. reflexivity.
Qed.

(** ** Activation *)

(** C4 (amended). A successful Activate sync operation on a known
    validator stores a record whose [ActivationEra] is the number of the
    era of the processing epoch of the operation
    ([EpochToEra(op.ProcEpoch()).Number]) plus 2, in [uint64] arithmetic,
    whose [Index] is the one of the operation, and whose stake ledger and
    deposit-tx set are empty; the other fields of the record but the
    version are kept. *)
Theorem validatorActivate_record p s op v s' ret :
  storeWellFormed s ->
  vm.validators s !! operation.vsCreator op = Some v ->
  validatorActivate p s op = (s', Ok ret) ->
  exists opEra v',
    EpochToEra (bc p) (operation.vsProcEpoch op) = Some opEra
    /\ vm.validators s' !! operation.vsCreator op = Some v'
    /\ valStore.ActivationEra v' = common.wrap64 (era.Number opEra + 2)
    /\ valStore.Index v' = operation.vsIndex op
    /\ valStore.Stake v' = ∅
    /\ valStore.depositTxs v' = []
    /\ valStore.PubKey v' = valStore.PubKey v
    /\ valStore.Address v' = valStore.Address v
    /\ valStore.WithdrawalAddress v' = valStore.WithdrawalAddress v
    /\ valStore.ExitEra v' = valStore.ExitEra v
    /\ valStore.DelegatingStake v' = valStore.DelegatingStake v
    /\ valStore.withdrawalTx v' = valStore.withdrawalTx v
    /\ valStore.exitTx v' = valStore.exitTx v.
Proof.
  intros Hwf Hv. unfold validatorActivate.
  rewrite (GetValidator_found _ _ _ _ Hv).
  destruct (params.IsForkSlotValOpTracking _ _ && _); [discriminate|].
  destruct (EpochToEra (bc p) (operation.vsProcEpoch op)) as [opEra|]; [|discriminate].
  cbv zeta.
  match goal with
  | |- context [Storage.SetValidator p s ?x] =>
      set (v' := x); destruct (Storage.SetValidator p s v') as [s1 [e|]] eqn:Hset
  end; [discriminate|].
  apply SetValidator_success in Hset. destruct Hset as (Hvals & _).
  assert (Hs1 : vm.validators s1 !! operation.vsCreator op = Some v').
  { rewrite Hvals. replace (valStore.Address v') with (operation.vsCreator op)
      by (symmetry; apply (Hwf _ _ Hv)).
    apply lookup_insert_eq. }
  intros Hres. exists opEra, v'.
  split; [done|]. split; [|by repeat split].
  destruct (params.IsForkSlotDelegate _ _).
  - destruct (EventEmmiter.pack p _); [discriminate|].
    inversion Hres; subst. exact Hs1.
  - inversion Hres; subst. exact Hs1.
Qed.

Lemma validatorActivate_record_witness :
  let p := Fixture.processor 90 None in
  let v := Fixture.validator {[ Fixture.depositor := 3200000000000000000000 ]}
             valStore.Ver1 common.MaxUint64 None None None in
  let op := Fixture.syncOp operation.Activate Fixture.txDeposit 78 None None in
  exists s' v',
    validatorActivate p (Fixture.stateWith v) op = (s', Ok (RetAddressBytes Fixture.creator))
    /\ vm.validators s' !! Fixture.creator = Some v'
    /\ valStore.ActivationEra v' = 9
    /\ valStore.Index v' = 3
    /\ valStore.Stake v' = ∅
    /\ valStore.depositTxs v' = [].
Proof.
  intros p v op.
  set (run := validatorActivate p (Fixture.stateWith v) op).
  assert (Hrun : run = (run.1, Ok (RetAddressBytes Fixture.creator)))
    by (vm_compute; reflexivity).
  destruct (validatorActivate_record p (Fixture.stateWith v) op v run.1
              (RetAddressBytes Fixture.creator)) as
    (opEra & v' & Hera & Hv' & Hact & Hidx & Hst & Htx & _); [| |exact Hrun|].
  - intros a w Hl. unfold Fixture.stateWith in Hl. simpl in Hl.
    apply lookup_singleton_Some in Hl. destruct Hl as [<- <-]. reflexivity.
  - reflexivity.
  - exists run.1, v'. split; [exact Hrun|]. split; [exact Hv'|].
    split; [|by repeat split].
    rewrite Hact. vm_compute in Hera. inversion Hera; subst. reflexivity.
Defined.

(** C4 (as stated) fails: in a block of era 5 (which is also the number
    of the current era of the chain), an Activate sync operation whose
    processing epoch 78 belongs to era 7 succeeds through [Call] and sets
    [ActivationEra] to 9, not to the current era plus 2, which is 7. *)
Lemma activation_era_is_not_current_era_plus_2 :
  let p := Fixture.processor 90
             (Some (Fixture.savedSync operation.Activate Fixture.txDeposit 78 None None)) in
  let v := Fixture.validator {[ Fixture.depositor := 3200000000000000000000 ]}
             valStore.Ver1 common.MaxUint64 None None None in
  let r := Call p (Fixture.stateWith v) Fixture.stranger Fixture.stateAddress None
             (mkMessage Fixture.txNew [4; 78]) in
  r.2 = Ok (RetAddressBytes Fixture.creator)
  /\ vm.Era (ctx p) = 5
  /\ EraInfoNumber (bc p) = 5
  /\ valStore.ActivationEra <$> (vm.validators r.1 !! Fixture.creator) = Some 9
  /\ valStore.ActivationEra <$> (vm.validators r.1 !! Fixture.creator)
     <> Some (vm.Era (ctx p) + 2).
Proof.
  intros p v r.
  assert (H9 : valStore.ActivationEra <$> (vm.validators r.1 !! Fixture.creator) = Some 9)
    by (vm_compute; reflexivity).
  repeat split; try (vm_compute; reflexivity); try exact H9.
  rewrite H9. vm_compute. discriminate.
Qed.

(** ** Distribution under delegating stake rules *)

(** The loop over a share map credits the balances and extends the log
    data independently of each other. *)
Lemma foldl_applyShare t isTrial pct l s info :
  foldl (applyShare t isTrial pct) (s, info) l
  = (foldl (fun st kv => vm.AddBalance st kv.1 (pct * kv.2)) s l,
     info ++ map (fun kv => txlog.mkShareRuleApplying kv.1 t isTrial (pct * kv.2)) l).
Proof.
  revert s info. induction l as [|kv l IH]; intros s info; simpl.
  - by rewrite app_nil_r.
  - unfold applyShare at 2. simpl. rewrite IH. by rewrite <- app_assoc.
Qed.

Lemma GetBalance_AddBalance s a b x :
  vm.GetBalance (vm.AddBalance s b x) a
  = vm.GetBalance s a + (if (b =? a)%N then x else 0).
Proof.
  unfold vm.AddBalance, vm.GetBalance at 1. simpl.
  destruct (N.eqb_spec b a) as [->|Hne].
  - by rewrite lookup_insert_eq.
  - rewrite lookup_insert_ne by done. unfold vm.GetBalance. lia.
Qed.

Lemma credits_balance pct l s a :
  vm.GetBalance (foldl (fun st kv => vm.AddBalance st kv.1 (pct * kv.2)) s l) a
  = vm.GetBalance s a + pct * listShare a l.
Proof.
  revert s. induction l as [|kv l IH]; intros s; simpl.
  - lia.
  - rewrite IH, GetBalance_AddBalance. destruct (kv.1 =? a)%N; lia.
Qed.

Lemma credits_frame pct l s :
  let s' := foldl (fun st kv => vm.AddBalance st kv.1 (pct * kv.2)) s l in
  vm.validators s' = vm.validators s /\ vm.logs s' = vm.logs s
  /\ vm.nonces s' = vm.nonces s /\ vm.depositCount s' = vm.depositCount s
  /\ vm.validatorsList s' = vm.validatorsList s.
Proof.
  revert s. induction l as [|kv l IH]; intros s; simpl; [done|].
  specialize (IH (vm.AddBalance s kv.1 (pct * kv.2))). simpl in IH. exact IH.
Qed.

Lemma listShare_not_in a (l : list (N * Z)) :
  a ∉ l.*1 -> listShare a l = 0.
Proof.
  induction l as [|[k x] l IH]; simpl; [done|].
  intros Hnin. apply not_elem_of_cons in Hnin. destruct Hnin as [Hne Hnin].
  simpl in Hne. destruct (N.eqb_spec k a); [congruence|]. rewrite IH by done. lia.
Qed.

Lemma listShare_in a x (l : list (N * Z)) :
  NoDup l.*1 -> (a, x) ∈ l -> listShare a l = x.
Proof.
  induction l as [|[k y] l IH]; simpl; intros Hnd Hin.
  - by apply elem_of_nil in Hin.
  - apply NoDup_cons in Hnd. destruct Hnd as [Hk Hnd].
    apply elem_of_cons in Hin. destruct Hin as [Heq|Hin].
    + inversion Heq; subst. rewrite N.eqb_refl, listShare_not_in by done. lia.
    + destruct (N.eqb_spec k a) as [->|Hne].
      * exfalso. apply Hk. apply list_elem_of_fmap. by exists (a, x).
      * rewrite IH by done. lia.
Qed.

Lemma listShare_map (m : gmap N Z) a :
  listShare a (map_to_list m) = shareOf m a.
Proof.
  unfold shareOf. destruct (m !! a) as [x|] eqn:Hm; simpl.
  - apply listShare_in; [apply NoDup_fst_map_to_list|].
    by apply elem_of_map_to_list.
  - apply listShare_not_in. intros Hin.
    apply list_elem_of_fmap in Hin. destruct Hin as ([k x] & Hk & Hin).
    simpl in Hk. subst k. apply elem_of_map_to_list in Hin. congruence.
Qed.

Lemma sumCredits_app l1 l2 : sumCredits (l1 ++ l2) = sumCredits l1 + sumCredits l2.
Proof. unfold sumCredits. induction l1; simpl; lia. Qed.

Lemma filter_credits_same t isTrial pct (l : list (N * Z)) :
  List.filter (isRuleType t)
    (map (fun kv => txlog.mkShareRuleApplying kv.1 t isTrial (pct * kv.2)) l)
  = map (fun kv => txlog.mkShareRuleApplying kv.1 t isTrial (pct * kv.2)) l.
Proof. induction l; simpl; [done|]. destruct t; simpl; by rewrite IHl. Qed.

Lemma filter_credits_other t t' isTrial pct (l : list (N * Z)) :
  t <> t' ->
  List.filter (isRuleType t)
    (map (fun kv => txlog.mkShareRuleApplying kv.1 t' isTrial (pct * kv.2)) l) = [].
Proof. intros Hne. induction l; simpl; [done|]. destruct t, t'; simpl; done. Qed.

Lemma sumCredits_map t isTrial pct (l : list (N * Z)) :
  sumCredits (map (fun kv => txlog.mkShareRuleApplying kv.1 t isTrial (pct * kv.2)) l)
  = pct * foldr (fun kv acc => kv.2 + acc) 0 l.
Proof. unfold sumCredits. induction l; simpl; lia. Qed.

(** The amounts of profit and of stake are never negative. *)
Lemma profitOpAmt_nonneg p balance amount : 0 <= profitOpAmt p balance amount.
Proof.
  unfold profitOpAmt, profitBalance. cbv zeta.
  repeat case_match; lia.
Qed.

Lemma stakeOpAmt_nonneg p balance amount : 0 <= stakeOpAmt p balance amount.
Proof.
  unfold stakeOpAmt, profitBalance. cbv zeta.
  repeat case_match; lia.
Qed.

(** The distribution of one portion: the loop runs when the portion is
    positive, and crediting nothing is the same as not running. *)
Lemma portion_loop t isTrial portion (m : gmap N Z) s info :
  0 <= portion ->
  let r := if portion >? 0
           then foldl (applyShare t isTrial (portion / 100)) (s, info) (map_to_list m)
           else (s, info) in
  (forall a, vm.GetBalance r.1 a = vm.GetBalance s a + portion / 100 * shareOf m a)
  /\ vm.validators r.1 = vm.validators s /\ vm.logs r.1 = vm.logs s
  /\ vm.nonces r.1 = vm.nonces s /\ vm.depositCount r.1 = vm.depositCount s
  /\ vm.validatorsList r.1 = vm.validatorsList s
  /\ exists new, r.2 = info ++ new
       /\ sumCreditsOf t new = portion / 100 * operation.sumShare m
       /\ forall t', t' <> t -> sumCreditsOf t' new = 0.
Proof.
  intros Hpos. destruct (Z.gtb_spec portion 0) as [Hgt|Hle]; simpl.
  - rewrite foldl_applyShare. simpl.
    split; [intros a; by rewrite credits_balance, listShare_map|].
    destruct (credits_frame (portion / 100) (map_to_list m) s) as (? & ? & ? & ? & ?).
    repeat (split; [done|]).
    eexists. split; [reflexivity|]. unfold sumCreditsOf. split.
    + rewrite filter_credits_same. apply sumCredits_map.
    + intros t' Hne. by rewrite filter_credits_other.
  - assert (portion = 0) as -> by lia.
    change (0 / 100) with 0.
    split; [intros a; simpl; lia|]. repeat (split; [done|]).
    exists []. rewrite app_nil_r. split; [done|]. split; [|done].
    unfold sumCreditsOf. simpl. done.
Qed.

Lemma sumCreditsOf_app t l1 l2 :
  sumCreditsOf t (l1 ++ l2) = sumCreditsOf t l1 + sumCreditsOf t l2.
Proof. unfold sumCreditsOf. by rewrite List.filter_app, sumCredits_app. Qed.

(** The state and the log data after the two loops of
    [applyDelegatingStakeRules]. *)
Lemma distribution_loops isTrial P S (rules : operation.DelegatingStakeRules) s :
  0 <= P -> 0 <= S ->
  let r1 := if P >? 0
            then foldl (applyShare txlog.ProfitShare isTrial (P / 100)) (s, [])
                   (map_to_list (operation.ProfitShare rules))
            else (s, []) in
  let r2 := if S >? 0
            then foldl (applyShare txlog.StakeShare isTrial (S / 100)) (r1.1, r1.2)
                   (map_to_list (operation.StakeShare rules))
            else (r1.1, r1.2) in
  (forall a, vm.GetBalance r2.1 a
             = vm.GetBalance s a
               + P / 100 * shareOf (operation.ProfitShare rules) a
               + S / 100 * shareOf (operation.StakeShare rules) a)
  /\ vm.validators r2.1 = vm.validators s
  /\ vm.logs r2.1 = vm.logs s
  /\ sumCreditsOf txlog.ProfitShare r2.2
     = P / 100 * operation.sumShare (operation.ProfitShare rules)
  /\ sumCreditsOf txlog.StakeShare r2.2
     = S / 100 * operation.sumShare (operation.StakeShare rules).
Proof.
  intros HP HS r1 r2.
  destruct (portion_loop txlog.ProfitShare isTrial P (operation.ProfitShare rules) s [] HP)
    as (Hb1 & Hv1 & Hl1 & _ & _ & _ & new1 & Hi1 & Hs1 & Ho1).
  fold r1 in Hb1, Hv1, Hl1, Hi1.
  destruct (portion_loop txlog.StakeShare isTrial S (operation.StakeShare rules)
              r1.1 r1.2 HS)
    as (Hb2 & Hv2 & Hl2 & _ & _ & _ & new2 & Hi2 & Hs2 & Ho2).
  fold r2 in Hb2, Hv2, Hl2, Hi2.
  split; [intros a; rewrite Hb2, Hb1; lia|].
  split; [congruence|]. split; [congruence|].
  rewrite Hi2, Hi1. simpl. rewrite !sumCreditsOf_app.
  rewrite Hs1, Hs2, (Ho1 txlog.StakeShare), (Ho2 txlog.ProfitShare) by done.
  split; lia.
Qed.

(** C9. In the distribution of an UpdateBalance sync operation under
    delegating stake rules, a role holder with share [sh] of a portion [P]
    (the profit amount or the stake amount of the operation) is credited
    exactly [(P / 100) * sh], the division being the integer division: the
    balance of every address grows by its profit credit plus its stake
    credit. The credits recorded in the delegating stake log sum, for each
    portion, to [(P / 100)] times the sum of the shares; with shares that
    sum to 100 this is [(P / 100) * 100 = P - P mod 100]: the remainder of
    the division is dropped and not redistributed. *)
Theorem delegating_distribution p s op v s' ret rules isTrial balance amount :
  applyDelegatingStakeRules p s op v = (s', Ok ret) ->
  actualRules p v = Ok (rules, isTrial) ->
  operation.vsBalance op = Some balance ->
  operation.vsAmount op = Some amount ->
  let P := profitOpAmt p balance amount in
  let S := stakeOpAmt p balance amount in
  (forall a, vm.GetBalance s' a
             = vm.GetBalance s a
               + P / 100 * shareOf (operation.ProfitShare rules) a
               + S / 100 * shareOf (operation.StakeShare rules) a)
  /\ (exists info,
        txlog.LogPayload <$> last (vm.logs s') = Some (txlog.DelegatingStakeLogData info)
        /\ sumCreditsOf txlog.ProfitShare info
           = P / 100 * operation.sumShare (operation.ProfitShare rules)
        /\ sumCreditsOf txlog.StakeShare info
           = S / 100 * operation.sumShare (operation.StakeShare rules)
        /\ (operation.sumShare (operation.ProfitShare rules) = 100 ->
            sumCreditsOf txlog.ProfitShare info = P / 100 * 100
            /\ sumCreditsOf txlog.ProfitShare info = P - P mod 100)
        /\ (operation.sumShare (operation.StakeShare rules) = 100 ->
            sumCreditsOf txlog.StakeShare info = S / 100 * 100
            /\ sumCreditsOf txlog.StakeShare info = S - S mod 100)).
Proof.
  intros Hrun Hrules Hbal Hamt P S.
  unfold applyDelegatingStakeRules in Hrun.
  destruct (negb (params.IsForkSlotDelegate _ _)); [discriminate|].
  rewrite Hrules, Hbal, Hamt in Hrun. cbv zeta in Hrun.
  fold P S in Hrun.
  destruct (distribution_loops isTrial P S rules s
              (profitOpAmt_nonneg _ _ _) (stakeOpAmt_nonneg _ _ _))
    as (Hb & _ & Hl & Hsp & Hss).
  cbv zeta in Hb, Hl, Hsp, Hss.
  destruct (if P >? 0 then _ else _) as [s1 info1] eqn:E1.
  simpl in Hb, Hl, Hsp, Hss.
  destruct (if S >? 0 then _ else _) as [s2 info2] eqn:E2.
  simpl in Hb, Hl, Hsp, Hss.
  destruct (EventEmmiter.pack p (txlog.UpdateBalanceLogData _ _ _ _)) as [e|d1] eqn:Hp1;
    [discriminate|].
  destruct (EventEmmiter.pack p (txlog.DelegatingStakeLogData info2)) as [e|d2] eqn:Hp2;
    [discriminate|].
  assert (d2 = txlog.DelegatingStakeLogData info2) as ->.
  { unfold EventEmmiter.pack in Hp2. case_match; by inversion Hp2. }
  inversion Hrun; subst s' ret. clear Hrun.
  split; [exact Hb|].
  exists info2. split.
  { unfold EventEmmiter.AddDelegatingStakeLog, vm.AddLog. simpl. by rewrite last_snoc. }
  split; [exact Hsp|]. split; [exact Hss|].
  split; intros H100.
  - rewrite Hsp, H100. split; [done|]. pose proof (Z.div_mod P 100). lia.
  - rewrite Hss, H100. split; [done|]. pose proof (Z.div_mod S 100). lia.
Qed.

(** The distribution never writes a validator record. *)
Lemma applyDelegatingStakeRules_keeps_records p s op v s' r :
  applyDelegatingStakeRules p s op v = (s', r) -> vm.validators s' = vm.validators s.
Proof.
  unfold applyDelegatingStakeRules. intros Hrun.
  destruct (negb (params.IsForkSlotDelegate _ _)); [by inversion Hrun|].
  destruct (actualRules p v) as [[rules isTrial]|e|]; try (by inversion Hrun).
  destruct (operation.vsBalance op) as [balance|]; [|by inversion Hrun].
  destruct (operation.vsAmount op) as [amount|]; [|by inversion Hrun].
  cbv zeta in Hrun.
  destruct (distribution_loops isTrial (profitOpAmt p balance amount)
              (stakeOpAmt p balance amount) rules s
              (profitOpAmt_nonneg _ _ _) (stakeOpAmt_nonneg _ _ _))
    as (_ & Hv & _).
  cbv zeta in Hv.
  destruct (if profitOpAmt p balance amount >? 0 then _ else _) as [s1 info1].
  simpl in Hv.
  destruct (if stakeOpAmt p balance amount >? 0 then _ else _) as [s2 info2].
  simpl in Hv.
  repeat case_match; inversion Hrun; subst; simpl; exact Hv.
Qed.

Lemma delegating_distribution_witness :
  let p := Fixture.processor 90 None in
  let v := Fixture.validator ∅ valStore.Ver1 5 (Some Fixture.txWithdrawal) None
             (Some Fixture.stakeData) in
  let s := Fixture.stateWith v in
  (* the balance is the effective balance: the amount of 101 is all profit *)
  let op := Fixture.syncOp operation.UpdateBalance Fixture.txWithdrawal 8
              (Some 101) (Some 3200000000000000000000) in
  let run := applyDelegatingStakeRules p s op v in
  run.2 = Ok (RetAddressBytes Fixture.creator)
  /\ profitOpAmt p 3200000000000000000000 101 = 101
  /\ stakeOpAmt p 3200000000000000000000 101 = 0
  /\ vm.GetBalance run.1 Fixture.addrA = 10
  /\ vm.GetBalance run.1 Fixture.addrB = 30
  /\ vm.GetBalance run.1 Fixture.addrC = 60
  /\ exists info,
       txlog.LogPayload <$> last (vm.logs run.1) = Some (txlog.DelegatingStakeLogData info)
       /\ sumCreditsOf txlog.ProfitShare info = 100.
Proof.
  intros p v s op run.
  assert (Hrun : run = (run.1, Ok (RetAddressBytes Fixture.creator)))
    by (vm_compute; reflexivity).
  destruct (delegating_distribution p s op v run.1 (RetAddressBytes Fixture.creator)
              Fixture.rules true 3200000000000000000000 101 Hrun)
    as (Hb & info & Hlog & _ & _ & Hp & _); try reflexivity.
  split; [by rewrite Hrun|].
  split; [reflexivity|]. split; [reflexivity|].
  split; [rewrite Hb; reflexivity|].
  split; [rewrite Hb; reflexivity|].
  split; [rewrite Hb; reflexivity|].
  exists info. split; [exact Hlog|].
  destruct Hp as [Hp _]; [reflexivity|]. rewrite Hp. reflexivity.
Defined.

(** The scenario of the specification: with the profit shares
    [{A: 10, B: 30, C: 60}], an UpdateBalance sync operation whose profit
    amount is exactly 100 base units credits 10, 30 and 60, which sum to
    100; with a profit amount of 101 the credits are the same and the
    remaining unit is credited to nobody. *)
Example delegating_distribution_scenario :
  let v := Fixture.validator ∅ valStore.Ver1 5 (Some Fixture.txWithdrawal) None
             (Some Fixture.stakeData) in
  let credits amount :=
    let p := Fixture.processor 90
               (Some (Fixture.savedSync operation.UpdateBalance Fixture.txWithdrawal 8
                        (Some amount) None)) in
    let r := Call p (Fixture.stateWith v) Fixture.stranger Fixture.stateAddress None
               (mkMessage Fixture.txNew [5; amount; 3200000000000000000000]) in
    (r.2, vm.GetBalance r.1 Fixture.addrA, vm.GetBalance r.1 Fixture.addrB,
     vm.GetBalance r.1 Fixture.addrC,
     vm.GetBalance r.1 Fixture.addrD, vm.GetBalance r.1 Fixture.addrE) in
  credits 100 = (Ok (RetAddressBytes Fixture.creator), 10, 30, 60, 0, 0)
  /\ credits 101 = (Ok (RetAddressBytes Fixture.creator), 10, 30, 60, 0, 0)
  /\ 10 + 30 + 60 = 101 / 100 * 100.
Proof. repeat split; vm_compute; reflexivity. Qed.

(** ** Update of the balance and the pending withdrawal tx *)

(** C5 fails on the delegating stake branch. The record of the validator
    has delegating stake data and the pending withdrawal tx
    [Fixture.txWithdrawal]; the UpdateBalance sync operation that confirms
    this withdrawal succeeds through [Call] and credits the role holders,
    and the stored record still carries the pending withdrawal tx: the
    branch returns the result of [applyDelegatingStakeRules] without
    storing the record whose pending tx was reset. *)
Theorem updateBalance_delegating_keeps_pending_tx :
  let v := Fixture.validator ∅ valStore.Ver1 5 (Some Fixture.txWithdrawal) None
             (Some Fixture.stakeData) in
  let p := Fixture.processor 90
             (Some (Fixture.savedSync operation.UpdateBalance Fixture.txWithdrawal 8
                      (Some 100) None)) in
  let r := Call p (Fixture.stateWith v) Fixture.stranger Fixture.stateAddress None
             (mkMessage Fixture.txNew [5; 100; 3200000000000000000000]) in
  r.2 = Ok (RetAddressBytes Fixture.creator)
  /\ vm.GetBalance r.1 Fixture.addrC = 60
  /\ vm.validators r.1 !! Fixture.creator = Some v
  /\ valStore.withdrawalTx <$> (vm.validators r.1 !! Fixture.creator)
     = Some (Some Fixture.txWithdrawal).
Proof. repeat split; vm_compute; reflexivity. Qed.

(** ** Refund of an insufficient deposit *)

Lemma inflight_inline p version (pending : option N) :
  (if version >=? valStore.Ver1 then
     match pending with
     | None => false
     | Some prevOpTx =>
         let '(rc, blHash) := GetTransactionReceipt (bc p) prevOpTx in
         if negb (blHash =? common.zeroHash)%N && (blHash =? vm.BlockHash (ctx p))%N
         then true
         else match rc with
              | None => false
              | Some rc =>
                  if types.Status rc =? types.ReceiptStatusSuccessful then
                    match GetHeaderByHash (bc p) blHash with
                    | None => false
                    | Some prevHeader =>
                        vm.Slot (ctx p) <?
                          common.wrap64 (types.Slot prevHeader
                                         + params.ValidatorOpExpireSlots (Config (bc p)))
                    end
                  else false
              end
     end
   else false) = inFlight p version pending.
Proof.
  unfold inFlight. destruct (version >=? valStore.Ver1); [|done].
  destruct pending as [h|]; [|done]. apply inflight_check_eq.
Qed.

Lemma insufficientDeposit_check p v :
  insufficientDeposit p v ->
  (valStore.ActivationEra v =? common.MaxUint64)
  && match valStore.TotalStake v with
     | None => false
     | Some stake => stake <? params.EffectiveBalance (Config (bc p)) * common.BigWat
     end = true.
Proof.
  intros (Hact & stake & -> & Hlt). rewrite Hact, Z.eqb_refl. simpl.
  by apply Z.ltb_lt.
Qed.

(** The record stored by a successful withdrawal request on the refund
    path, and its log. *)
Lemma withdrawal_refund_path p s caller toAddr op txHash v :
  withdrawalRequestValid p s toAddr op v ->
  inFlight p (valStore.Version v) (valStore.GetWithdrawalTx v) = false ->
  insufficientDeposit p v ->
  let v0 := valStore.SetWithdrawalTx (updateValidatorVersionBySlot p v) (Some txHash) in
  validatorWithdrawal p s caller toAddr op txHash =
  match valStore.Stake v !! caller with
  | None => (s, Err ErrInvalidFromAddresses)
  | Some stake =>
      if stake =? 0 then (s, Err ErrInvalidFromAddresses)
      else if stake <? operation.wAmount op then (s, Err ErrInsufficientFundsForOp)
      else
        let refund := refundAmount stake (operation.wAmount op) in
        let v' := if params.IsForkSlotValOpTracking (Config (bc p)) (vm.Slot (ctx p))
                  then v0
                  else valStore.SetStake v0 (ledgerAfterRefund (valStore.Stake v) caller
                                               stake refund) in
        match Storage.SetValidator p s v' with
        | (s1, Some err) => (s1, Err err)
        | (s1, None) =>
            (EventEmmiter.WithdrawalRequest s1 toAddr
               (txlog.WithdrawalLogData (valStore.PubKey v) (operation.wCreatorAddress op)
                  (valStore.Index v) (common.wrap64 (refund / common.BigGwei))),
             Ok (RetAddressBytes (operation.wCreatorAddress op)))
        end
  end.
Proof.
  intros (Hto & Hcast & Hv) Hfree Hins v0.
  unfold validatorWithdrawal.
  rewrite Hto, Hcast, (GetValidator_found _ _ _ _ Hv). simpl negb. cbv iota.
  rewrite inflight_inline, Hfree. cbv zeta.
  fold v0.
  replace (valStore.GetActivationEra v0) with (valStore.ActivationEra v) by reflexivity.
  replace (valStore.TotalStake v0) with (valStore.TotalStake v) by reflexivity.
  rewrite (insufficientDeposit_check _ _ Hins).
  replace (valStore.StakeByAddress v0 caller) with (valStore.Stake v !! caller)
    by reflexivity.
  destruct (valStore.Stake v !! caller) as [stake|] eqn:Hst; [|done].
  destruct (stake =? 0) eqn:H0; [done|].
  destruct (stake <? operation.wAmount op) eqn:Hlt; [done|].
  change (if operation.wAmount op =? common.Big0 then stake else operation.wAmount op)
    with (refundAmount stake (operation.wAmount op)).
  set (refund := refundAmount stake (operation.wAmount op)).
  assert (Hle : refund <= stake).
  { unfold refund, refundAmount. apply Z.ltb_ge in Hlt. case_match; lia. }
  destruct (params.IsForkSlotValOpTracking _ _); simpl negb; cbv iota.
  - reflexivity.
  - unfold valStore.SubtractStake.
    replace (valStore.Stake v0 !! caller) with (Some stake) by (symmetry; exact Hst).
    apply Z.ltb_ge in Hle. rewrite Hle.
    unfold ledgerAfterRefund, common.Big0.
    destruct (stake - refund =? 0).
    + unfold valStore.RmStakeByAddress. simpl. rewrite delete_insert_eq. reflexivity.
    + reflexivity.
Qed.

(** The records after the tail of [validatorUpdateBalance] that stores
    the record, credits the withdrawal address and emits the log. *)
Lemma updateBalance_tail_records p s op v' withdrawalTo s' ret :
  finishUpdateBalance p s op v' withdrawalTo = (s', Ok ret) ->
  vm.validators s' = <[valStore.Address v' := v']> (vm.validators s).
Proof.
  unfold finishUpdateBalance.
  destruct (Storage.SetValidator p s v') as [s1 [e|]] eqn:Hset; [discriminate|].
  apply SetValidator_success in Hset. destruct Hset as (Hvals & _).
  destruct (operation.vsAmount op); [|discriminate]. cbv zeta.
  destruct (params.IsForkSlotDelegate _ _).
  - destruct (EventEmmiter.pack p _); [discriminate|].
    intros H; inversion H; subst. exact Hvals.
  - intros H; inversion H; subst. exact Hvals.
Qed.

(** The record stored by a successful UpdateBalance sync operation, branch
    by branch: the refund of an insufficient deposit, the distribution
    under delegating stake rules, the default credit of the withdrawal
    address. *)
Lemma validatorUpdateBalance_records p s op v s' ret :
  storeWellFormed s ->
  vm.validators s !! operation.vsCreator op = Some v ->
  validatorUpdateBalance p s op = (s', Ok ret) ->
  let v0 := valStore.SetWithdrawalTx (updateValidatorVersionBySlot p v) None in
  if (valStore.ActivationEra v =? common.MaxUint64)
     && match valStore.TotalStake v with
        | None => false
        | Some stake => stake <? params.EffectiveBalance (Config (bc p)) * common.BigWat
        end
  then
    exists initTx,
      GetTransaction (bc p) (operation.vsInitTxHash op) = Some initTx
      /\ if params.IsForkSlotValOpTracking (Config (bc p)) (vm.Slot (ctx p))
         then exists amount stake,
                operation.vsAmount op = Some amount
                /\ valStore.Stake v !! types.Sender initTx = Some stake
                /\ vm.validators s' !! operation.vsCreator op
                   = Some (valStore.SetStake v0
                             (ledgerAfterRefund (valStore.Stake v) (types.Sender initTx)
                                stake (Z.min stake amount)))
         else vm.validators s' !! operation.vsCreator op = Some v0
  else if valStore.HasDelegatingStake v then vm.validators s' = vm.validators s
  else vm.validators s' !! operation.vsCreator op = Some v0.
Proof.
  intros Hwf Hv. unfold validatorUpdateBalance. cbv zeta.
  rewrite (GetValidator_found _ _ _ _ Hv).
  destruct (if valStore.Version v >=? valStore.Ver1 then _ else _) as [u|e|];
    try discriminate.
  set (v0 := valStore.SetWithdrawalTx (updateValidatorVersionBySlot p v) None).
  replace (valStore.GetActivationEra v0) with (valStore.ActivationEra v) by reflexivity.
  replace (valStore.TotalStake v0) with (valStore.TotalStake v) by reflexivity.
  replace (valStore.HasDelegatingStake v0) with (valStore.HasDelegatingStake v)
    by reflexivity.
  assert (Haddr : forall m, valStore.Address (valStore.SetStake v0 m) = operation.vsCreator op).
  { intros m. simpl. apply (Hwf _ _ Hv). }
  assert (Haddr0 : valStore.Address v0 = operation.vsCreator op).
  { simpl. apply (Hwf _ _ Hv). }
  destruct (_ && _).
  - destruct (GetTransaction (bc p) (operation.vsInitTxHash op)) as [initTx|];
      [|discriminate].
    destruct (DecodeBytes (lib p) (types.Data initTx)) as [e|iop]; [discriminate|].
    destruct (negb (bool_decide (operation.OpCode iop = operation.WithdrawalCode)));
      [discriminate|].
    intros Hrun. exists initTx. split; [done|].
    destruct (params.IsForkSlotValOpTracking _ _).
    + destruct (operation.vsAmount op) as [amount|] eqn:Hamt; [|discriminate].
      replace (valStore.StakeByAddress v0 (types.Sender initTx))
        with (valStore.Stake v !! types.Sender initTx) in Hrun by reflexivity.
      destruct (valStore.Stake v !! types.Sender initTx) as [stake|] eqn:Hst;
        [|discriminate].
      exists amount, stake. split; [done|]. split; [done|].
      unfold valStore.SubtractStake in Hrun.
      replace (valStore.Stake v0 !! types.Sender initTx) with (Some stake) in Hrun
        by (symmetry; exact Hst).
      assert (Hmin : (if stake <? amount then stake else amount) = Z.min stake amount).
      { destruct (Z.ltb_spec stake amount); lia. }
      rewrite Hmin in Hrun.
      replace (stake <? Z.min stake amount) with false in Hrun
        by (symmetry; apply Z.ltb_ge; lia).
      unfold ledgerAfterRefund. unfold common.Big0 in Hrun.
      destruct (stake - Z.min stake amount =? 0).
      * apply updateBalance_tail_records in Hrun.
        rewrite Hrun. unfold valStore.RmStakeByAddress. simpl.
        rewrite delete_insert_eq.
        replace (valStore.Address v) with (operation.vsCreator op)
          by (symmetry; apply (Hwf _ _ Hv)).
        by rewrite lookup_insert_eq.
      * apply updateBalance_tail_records in Hrun.
        rewrite Hrun, Haddr. by rewrite lookup_insert_eq.
    + apply updateBalance_tail_records in Hrun.
      rewrite Hrun, Haddr0. by rewrite lookup_insert_eq.
  - destruct (valStore.HasDelegatingStake v).
    + intros Hrun. by apply applyDelegatingStakeRules_keeps_records in Hrun.
    + replace (valStore.GetWithdrawalAddress v0) with (valStore.WithdrawalAddress v)
        by reflexivity.
      destruct (valStore.WithdrawalAddress v); [|discriminate].
      intros Hrun. apply updateBalance_tail_records in Hrun.
      rewrite Hrun, Haddr0. by rewrite lookup_insert_eq.
Qed.

(** Outside of the delegating stake branch, a successful UpdateBalance
    sync operation stores a record without pending withdrawal tx. *)
Lemma updateBalance_clears_pending_tx p s op v s' ret :
  storeWellFormed s ->
  vm.validators s !! operation.vsCreator op = Some v ->
  validatorUpdateBalance p s op = (s', Ok ret) ->
  insufficientDeposit p v \/ valStore.HasDelegatingStake v = false ->
  exists v', vm.validators s' !! operation.vsCreator op = Some v'
             /\ valStore.withdrawalTx v' = None.
Proof.
  intros Hwf Hv Hrun Hbranch.
  pose proof (validatorUpdateBalance_records p s op v s' ret Hwf Hv Hrun) as H.
  cbv zeta in H.
  destruct (_ && _) eqn:Hcond.
  - destruct H as (initTx & _ & H).
    destruct (params.IsForkSlotValOpTracking _ _).
    + destruct H as (amount & stake & _ & _ & H). eexists. split; [exact H|done].
    + eexists. split; [exact H|done].
  - destruct Hbranch as [Hins | Hnd].
    + apply (insufficientDeposit_check p) in Hins. congruence.
    + rewrite Hnd in H. eexists. split; [exact H|done].
Qed.

(** C6 (amended). On the refund path of a withdrawal request (validator
    never activated, total stake below the effective balance), for a
    request that is otherwise valid and not blocked: the sender must be a
    depositor with a non-zero stake ([ErrInvalidFromAddresses] otherwise),
    the amount must not exceed that stake ([ErrInsufficientFundsForOp]
    otherwise), and a zero amount stands for the whole stake. The
    subtraction from the stake ledger, with eviction of a zero entry, is
    done by the withdrawal request only while the operation-tracking fork
    is NOT yet active; once the fork is active the request leaves the
    ledger as it is, and the subtraction (capped at the stake of the
    sender of the initiating tx) is done by the UpdateBalance sync
    operation, which before the fork leaves the ledger as it is. *)
Theorem refund_of_insufficient_deposit p :
  (forall s caller toAddr op txHash v,
     withdrawalRequestValid p s toAddr op v ->
     inFlight p (valStore.Version v) (valStore.GetWithdrawalTx v) = false ->
     insufficientDeposit p v ->
     storeWellFormed s ->
     let run := validatorWithdrawal p s caller toAddr op txHash in
     (valStore.Stake v !! caller = None \/ valStore.Stake v !! caller = Some 0 ->
      run = (s, Err ErrInvalidFromAddresses))
     /\ (forall stake,
           valStore.Stake v !! caller = Some stake -> stake <> 0 ->
           (stake < operation.wAmount op -> run = (s, Err ErrInsufficientFundsForOp))
           /\ (operation.wAmount op <= stake ->
               (forall w, validatorEncodeErr (lib p) w = None) ->
               let refund := refundAmount stake (operation.wAmount op) in
               exists s' v',
                 run = (s', Ok (RetAddressBytes (operation.wCreatorAddress op)))
                 /\ vm.validators s' !! operation.wCreatorAddress op = Some v'
                 /\ valStore.withdrawalTx v' = Some txHash
                 /\ valStore.Stake v'
                    = (if params.IsForkSlotValOpTracking (Config (bc p)) (vm.Slot (ctx p))
                       then valStore.Stake v
                       else ledgerAfterRefund (valStore.Stake v) caller stake refund)
                 /\ txlog.LogPayload <$> last (vm.logs s')
                    = Some (txlog.WithdrawalLogData (valStore.PubKey v)
                              (operation.wCreatorAddress op) (valStore.Index v)
                              (common.wrap64 (refund / common.BigGwei))))))
  /\ (forall s op v s' ret,
        storeWellFormed s ->
        vm.validators s !! operation.vsCreator op = Some v ->
        insufficientDeposit p v ->
        validatorUpdateBalance p s op = (s', Ok ret) ->
        exists initTx v',
          GetTransaction (bc p) (operation.vsInitTxHash op) = Some initTx
          /\ vm.validators s' !! operation.vsCreator op = Some v'
          /\ valStore.withdrawalTx v' = None
          /\ if params.IsForkSlotValOpTracking (Config (bc p)) (vm.Slot (ctx p))
             then exists amount stake,
                    operation.vsAmount op = Some amount
                    /\ valStore.Stake v !! types.Sender initTx = Some stake
                    /\ valStore.Stake v'
                       = ledgerAfterRefund (valStore.Stake v) (types.Sender initTx)
                           stake (Z.min stake amount)
             else valStore.Stake v' = valStore.Stake v).
Proof.
  split.
  - intros s caller toAddr op txHash v Hvalid Hfree Hins Hwf run.
    subst run. rewrite (withdrawal_refund_path _ _ _ _ _ _ _ Hvalid Hfree Hins).
    cbv zeta. split.
    + intros [-> | ->]; done.
    + intros stake -> Hne. apply Z.eqb_neq in Hne. rewrite Hne. split.
      * intros Hlt. apply Z.ltb_lt in Hlt. by rewrite Hlt.
      * intros Hle Henc. apply Z.ltb_ge in Hle. rewrite Hle.
        unfold Storage.SetValidator. rewrite Henc.
        destruct Hvalid as (_ & _ & Hv).
        assert (Haddr : valStore.Address v = operation.wCreatorAddress op)
          by apply (Hwf _ _ Hv).
        destruct (params.IsForkSlotValOpTracking _ _);
          (eexists _, _; split; [reflexivity|]; simpl;
           split; [rewrite Haddr; apply lookup_insert_eq|];
           split; [reflexivity|]; split; [reflexivity|];
           by rewrite last_snoc).
  - intros s op v s' ret Hwf Hv Hins Hrun.
    pose proof (validatorUpdateBalance_records p s op v s' ret Hwf Hv Hrun) as H.
    cbv zeta in H. rewrite (insufficientDeposit_check _ _ Hins) in H.
    destruct H as (initTx & Htx & H). exists initTx.
    destruct (params.IsForkSlotValOpTracking _ _).
    + destruct H as (amount & stake & Hamt & Hst & H).
      eexists. split; [done|]. split; [exact H|]. split; [done|].
      exists amount, stake. by repeat split.
    + eexists. split; [done|]. split; [exact H|]. by split.
Qed.

Lemma refund_of_insufficient_deposit_witness :
  let v := Fixture.validator {[ Fixture.depositor := 10000000000000000000 ]}
             valStore.NoVer common.MaxUint64 None None None in
  let s := Fixture.stateWith v in
  let withdraw slot :=
    validatorWithdrawal (Fixture.processor slot None) s Fixture.depositor
      Fixture.stateAddress (Fixture.withdrawalOp 4000000000000000000) Fixture.txNew in
  (* slot 55, before the operation-tracking fork: the ledger is reduced *)
  (exists s' v',
     withdraw 55 = (s', Ok (RetAddressBytes Fixture.creator))
     /\ vm.validators s' !! Fixture.creator = Some v'
     /\ valStore.Stake v' = {[ Fixture.depositor := 6000000000000000000 ]})
  (* slot 90, after the fork: the ledger is as before *)
  /\ (exists s' v',
        withdraw 90 = (s', Ok (RetAddressBytes Fixture.creator))
        /\ vm.validators s' !! Fixture.creator = Some v'
        /\ valStore.Stake v' = {[ Fixture.depositor := 10000000000000000000 ]})
  (* a sender that is not a depositor *)
  /\ validatorWithdrawal (Fixture.processor 90 None) s Fixture.stranger
       Fixture.stateAddress (Fixture.withdrawalOp 4000000000000000000) Fixture.txNew
     = (s, Err ErrInvalidFromAddresses).
Proof.
  intros v s withdraw.
  assert (Hwf : storeWellFormed s).
  { intros a w Hl. unfold s, Fixture.stateWith in Hl. simpl in Hl.
    apply lookup_singleton_Some in Hl. destruct Hl as [<- <-]. reflexivity. }
  assert (Hins : forall slot, insufficientDeposit (Fixture.processor slot None) v).
  { intros slot. split; [reflexivity|]. eexists. split; [reflexivity|].
    vm_compute. reflexivity. }
  assert (Hvalid : forall slot,
             withdrawalRequestValid (Fixture.processor slot None) s Fixture.stateAddress
               (Fixture.withdrawalOp 4000000000000000000) v).
  { intros slot. repeat split. }
  pose (W := fun slot caller =>
               proj1 (refund_of_insufficient_deposit (Fixture.processor slot None))
                 s caller Fixture.stateAddress (Fixture.withdrawalOp 4000000000000000000)
                 Fixture.txNew v (Hvalid slot) eq_refl (Hins slot) Hwf).
  split; [|split].
  - destruct (proj2 (proj2 (W 55 Fixture.depositor) 10000000000000000000 eq_refl
                       ltac:(discriminate)))
      as (s' & v' & Hrun & Hv' & _ & Hst & _);
      [vm_compute; discriminate|reflexivity|].
    exists s', v'. split; [exact Hrun|]. split; [exact Hv'|].
    rewrite Hst. vm_compute. reflexivity.
  - destruct (proj2 (proj2 (W 90 Fixture.depositor) 10000000000000000000 eq_refl
                       ltac:(discriminate)))
      as (s' & v' & Hrun & Hv' & _ & Hst & _);
      [vm_compute; discriminate|reflexivity|].
    exists s', v'. split; [exact Hrun|]. split; [exact Hv'|].
    rewrite Hst. vm_compute. reflexivity.
  - apply (proj1 (W 90 Fixture.stranger)). left. reflexivity.
Defined.

(** C6 (as stated) fails in both directions. The depositor of 10 wat
    requests the refund of 4 wat of a deposit that is insufficient to
    activate the validator. In a block at slot 90, where the
    operation-tracking fork (slot 60) is active, the request succeeds and
    the stored ledger still holds the 10 wat; in a block at slot 55, before
    the fork, the request succeeds and the stored ledger holds 6 wat. *)
Lemma refund_subtraction_is_before_the_fork :
  let v := Fixture.validator {[ Fixture.depositor := 10000000000000000000 ]}
             valStore.NoVer common.MaxUint64 None None None in
  let s := Fixture.stateWith v in
  let run slot :=
    Call (Fixture.processor slot None) s Fixture.depositor Fixture.stateAddress None
      (mkMessage Fixture.txNew [3; 4000000000000000000]) in
  let ledger slot := valStore.Stake <$> (vm.validators (run slot).1 !! Fixture.creator) in
  params.IsForkSlotValOpTracking Fixture.config 90 = true
  /\ (run 90).2 = Ok (RetAddressBytes Fixture.creator)
  /\ ledger 90 = Some {[ Fixture.depositor := 10000000000000000000 ]}
  /\ params.IsForkSlotValOpTracking Fixture.config 55 = false
  /\ (run 55).2 = Ok (RetAddressBytes Fixture.creator)
  /\ ledger 55 = Some {[ Fixture.depositor := 6000000000000000000 ]}.
Proof. repeat split; vm_compute; reflexivity. Qed.

(** ** The records are stored at the address of their creator

    The hypothesis [storeWellFormed] of the theorems on stored records is
    an invariant of the processor: it holds of a state without records and
    every operation preserves it, whatever its outcome. *)

Lemma storeWellFormed_empty s : vm.validators s = ∅ -> storeWellFormed s.
Proof. intros He a v. rewrite He, lookup_empty. discriminate. Qed.

Lemma storeWellFormed_same s s' :
  vm.validators s' = vm.validators s -> storeWellFormed s -> storeWellFormed s'.
Proof. intros He Hwf a v. rewrite He. apply Hwf. Qed.

Lemma storeWellFormed_SetValidator p s v s' e :
  Storage.SetValidator p s v = (s', e) -> storeWellFormed s -> storeWellFormed s'.
Proof.
  unfold Storage.SetValidator. intros H Hwf.
  destruct (validatorEncodeErr (lib p) v); inversion H; subst; [done|].
  intros a w. simpl. destruct (decide (a = valStore.Address v)) as [->|Hne].
  - rewrite lookup_insert_eq. by intros [= <-].
  - rewrite lookup_insert_ne by done. apply Hwf.
Qed.

Local Ltac wf_step :=
  match goal with
  | H : Storage.SetValidator _ _ _ = (_, _) |- _ =>
      apply storeWellFormed_SetValidator in H; [|assumption]
  | H : (_, _) = (_, _) |- _ => inversion H; subst; clear H
  | H : applyDelegatingStakeRules _ _ _ _ = (_, _) |- _ =>
      apply applyDelegatingStakeRules_keeps_records in H
  | |- storeWellFormed _ => assumption
  | |- storeWellFormed _ => eapply storeWellFormed_same; [|eassumption]; simpl; congruence
  end.

Lemma storeWellFormed_validatorDeposit p s caller toAddr value op txHash s' r :
  validatorDeposit p s caller toAddr value op txHash = (s', r) ->
  storeWellFormed s -> storeWellFormed s'.
Proof.
  unfold validatorDeposit. cbv zeta. intros H Hwf.
  repeat case_match; repeat wf_step.
Qed.

Lemma storeWellFormed_validatorExit p s caller toAddr op txHash s' r :
  validatorExit p s caller toAddr op txHash = (s', r) ->
  storeWellFormed s -> storeWellFormed s'.
Proof.
  unfold validatorExit. cbv zeta. intros H Hwf.
  repeat case_match; repeat wf_step.
Qed.

Lemma storeWellFormed_validatorWithdrawal p s caller toAddr op txHash s' r :
  validatorWithdrawal p s caller toAddr op txHash = (s', r) ->
  storeWellFormed s -> storeWellFormed s'.
Proof.
  unfold validatorWithdrawal. cbv zeta. intros H Hwf.
  repeat case_match; repeat wf_step.
Qed.

Lemma storeWellFormed_validatorActivate p s op s' r :
  validatorActivate p s op = (s', r) -> storeWellFormed s -> storeWellFormed s'.
Proof.
  unfold validatorActivate. cbv zeta. intros H Hwf.
  repeat case_match; repeat wf_step.
Qed.

Lemma storeWellFormed_validatorDeactivate p s op s' r :
  validatorDeactivate p s op = (s', r) -> storeWellFormed s -> storeWellFormed s'.
Proof.
  unfold validatorDeactivate. cbv zeta. intros H Hwf.
  repeat case_match; repeat wf_step.
Qed.

Lemma storeWellFormed_finishUpdateBalance p s op v withdrawalTo s' r :
  finishUpdateBalance p s op v withdrawalTo = (s', r) ->
  storeWellFormed s -> storeWellFormed s'.
Proof.
  unfold finishUpdateBalance. cbv zeta. intros H Hwf.
  repeat case_match; repeat wf_step.
Qed.

Lemma storeWellFormed_validatorUpdateBalance p s op s' r :
  validatorUpdateBalance p s op = (s', r) -> storeWellFormed s -> storeWellFormed s'.
Proof.
  unfold validatorUpdateBalance. cbv zeta. intros H Hwf.
  repeat case_match; repeat wf_step;
    try (eapply storeWellFormed_finishUpdateBalance; eassumption).
Qed.

(** Every call of the processor preserves the invariant. *)
Theorem storeWellFormed_Call p s caller toAddr value msg s' r :
  Call p s caller toAddr value msg = (s', r) ->
  storeWellFormed s -> storeWellFormed s'.
Proof.
  unfold Call. intros H Hwf.
  destruct (DecodeBytes (lib p) (msgData msg)) as [e|op]; [by inversion H; subst|].
  set (s0 := vm.SetNonce s caller _) in H.
  assert (Hwf0 : storeWellFormed s0) by (by apply (storeWellFormed_same s)).
  cbv zeta in H. unfold vm.Snapshot, vm.RevertToSnapshot in H.
  destruct op as [d|sy|ex|w|rl].
  - destruct (validatorDeposit _ _ _ _ _ _ _) as [s1 r1] eqn:E.
    apply storeWellFormed_validatorDeposit in E; [|done].
    destruct r1; inversion H; subst; done.
  - unfold syncOpProcessing in H.
    destruct (ValidateValidatorSyncOp _ _ _ _ _); [by inversion H; subst|].
    destruct (operation.vsOpCode sy);
      try (by inversion H; subst).
    + destruct (validatorActivate _ _ _) as [s1 r1] eqn:E.
      apply storeWellFormed_validatorActivate in E; [|done].
      destruct r1; inversion H; subst; done.
    + destruct (validatorDeactivate _ _ _) as [s1 r1] eqn:E.
      apply storeWellFormed_validatorDeactivate in E; [|done].
      destruct r1; inversion H; subst; done.
    + destruct (validatorUpdateBalance _ _ _) as [s1 r1] eqn:E.
      apply storeWellFormed_validatorUpdateBalance in E; [|done].
      destruct r1; inversion H; subst; done.
  - destruct (validatorExit _ _ _ _ _ _) as [s1 r1] eqn:E.
    apply storeWellFormed_validatorExit in E; [|done].
    destruct r1; inversion H; subst; done.
  - destruct (validatorWithdrawal _ _ _ _ _ _) as [s1 r1] eqn:E.
    apply storeWellFormed_validatorWithdrawal in E; [|done].
    destruct r1; inversion H; subst; done.
  - inversion H; subst; done.
Qed.

(** * Further properties of the processor *)

(** ** What an operation leaves alone *)

(** Storing a record touches the records only. *)
Lemma SetValidator_frame p s v s' e :
  Storage.SetValidator p s v = (s', e) ->
  vm.balances s' = vm.balances s /\ vm.nonces s' = vm.nonces s
  /\ vm.logs s' = vm.logs s /\ vm.depositCount s' = vm.depositCount s
  /\ vm.validatorsList s' = vm.validatorsList s.
Proof.
  unfold Storage.SetValidator. intros H.
  destruct (validatorEncodeErr (lib p) v); inversion H; subst; done.
Qed.

Local Ltac frame_step :=
  match goal with
  | H : Storage.SetValidator _ _ _ = (_, _) |- _ =>
      apply SetValidator_frame in H; destruct H as (? & ? & ? & ? & ?)
  | H : (_, _) = (_, _) |- _ => inversion H; subst; clear H
  end.

Local Ltac frame_close :=
  simpl; repeat split; congruence.

Lemma validatorExit_frame p s caller toAddr op txHash s' r :
  validatorExit p s caller toAddr op txHash = (s', r) ->
  vm.balances s' = vm.balances s /\ vm.nonces s' = vm.nonces s
  /\ vm.depositCount s' = vm.depositCount s
  /\ vm.validatorsList s' = vm.validatorsList s.
Proof.
  unfold validatorExit. cbv zeta. intros H.
  repeat case_match; repeat frame_step; frame_close.
Qed.

Lemma validatorWithdrawal_frame p s caller toAddr op txHash s' r :
  validatorWithdrawal p s caller toAddr op txHash = (s', r) ->
  vm.balances s' = vm.balances s /\ vm.nonces s' = vm.nonces s
  /\ vm.depositCount s' = vm.depositCount s
  /\ vm.validatorsList s' = vm.validatorsList s.
Proof.
  unfold validatorWithdrawal. cbv zeta. intros H.
  repeat case_match; repeat frame_step; frame_close.
Qed.

Lemma validatorActivate_frame p s op s' r :
  validatorActivate p s op = (s', r) ->
  vm.balances s' = vm.balances s /\ vm.nonces s' = vm.nonces s
  /\ vm.depositCount s' = vm.depositCount s.
Proof.
  unfold validatorActivate. cbv zeta. intros H.
  repeat case_match; repeat frame_step; frame_close.
Qed.

Lemma validatorDeactivate_frame p s op s' r :
  validatorDeactivate p s op = (s', r) ->
  vm.balances s' = vm.balances s /\ vm.nonces s' = vm.nonces s
  /\ vm.depositCount s' = vm.depositCount s
  /\ vm.validatorsList s' = vm.validatorsList s.
Proof.
  unfold validatorDeactivate. cbv zeta. intros H.
  repeat case_match; repeat frame_step; frame_close.
Qed.

Lemma validatorDeposit_frame p s caller toAddr value op txHash s' r :
  validatorDeposit p s caller toAddr value op txHash = (s', r) ->
  vm.nonces s' = vm.nonces s /\ vm.validatorsList s' = vm.validatorsList s
  /\ (forall a, a <> caller -> vm.GetBalance s' a = vm.GetBalance s a).
Proof.
  unfold validatorDeposit. cbv zeta. intros H.
  repeat case_match; repeat frame_step; simpl; repeat split; try congruence;
    intros ? ?; unfold vm.GetBalance; simpl;
    rewrite ?lookup_insert_ne by done; congruence.
Qed.

Lemma applyDelegatingStakeRules_frame p s op v s' r :
  applyDelegatingStakeRules p s op v = (s', r) ->
  vm.nonces s' = vm.nonces s /\ vm.depositCount s' = vm.depositCount s
  /\ vm.validatorsList s' = vm.validatorsList s.
Proof.
  unfold applyDelegatingStakeRules. intros Hrun.
  destruct (negb (params.IsForkSlotDelegate _ _)); [by inversion Hrun|].
  destruct (actualRules p v) as [[rules isTrial]|e|]; try (by inversion Hrun).
  destruct (operation.vsBalance op) as [balance|]; [|by inversion Hrun].
  destruct (operation.vsAmount op) as [amount|]; [|by inversion Hrun].
  cbv zeta in Hrun.
  destruct (portion_loop txlog.ProfitShare isTrial (profitOpAmt p balance amount)
              (operation.ProfitShare rules) s [] (profitOpAmt_nonneg _ _ _))
    as (_ & _ & _ & Hn1 & Hd1 & Hl1 & _).
  cbv zeta in Hn1, Hd1, Hl1.
  destruct (if profitOpAmt p balance amount >? 0 then _ else _) as [s1 info1].
  simpl in Hn1, Hd1, Hl1.
  destruct (portion_loop txlog.StakeShare isTrial (stakeOpAmt p balance amount)
              (operation.StakeShare rules) s1 info1 (stakeOpAmt_nonneg _ _ _))
    as (_ & _ & _ & Hn2 & Hd2 & Hl2 & _).
  cbv zeta in Hn2, Hd2, Hl2.
  destruct (if stakeOpAmt p balance amount >? 0 then _ else _) as [s2 info2].
  simpl in Hn2, Hd2, Hl2.
  repeat case_match; inversion Hrun; subst; simpl; repeat split; congruence.
Qed.

Lemma finishUpdateBalance_frame p s op v withdrawalTo s' r :
  finishUpdateBalance p s op v withdrawalTo = (s', r) ->
  vm.nonces s' = vm.nonces s /\ vm.depositCount s' = vm.depositCount s
  /\ vm.validatorsList s' = vm.validatorsList s.
Proof.
  unfold finishUpdateBalance. cbv zeta. intros H.
  repeat case_match; repeat frame_step; frame_close.
Qed.

Lemma validatorUpdateBalance_frame p s op s' r :
  validatorUpdateBalance p s op = (s', r) ->
  vm.nonces s' = vm.nonces s /\ vm.depositCount s' = vm.depositCount s
  /\ vm.validatorsList s' = vm.validatorsList s.
Proof.
  unfold validatorUpdateBalance. cbv zeta. intros H.
  repeat case_match; repeat frame_step;
    try (match goal with
         | H : finishUpdateBalance _ _ _ _ _ = _ |- _ =>
             apply finishUpdateBalance_frame in H
         | H : applyDelegatingStakeRules _ _ _ _ = _ |- _ =>
             apply applyDelegatingStakeRules_frame in H
         end); try done; frame_close.
Qed.

(** ** Failures of the requests *)

(** X1. The three requests of a validator (deposit, exit, withdrawal)
    run all their checks before they write: when one of them returns an
    error, the state it returns is the state it was given. (The sync
    operations differ: they can fail while packing their log, after the
    record is written, and rely on the snapshot of [Call].) *)
Theorem request_failure_keeps_state p s caller toAddr txHash s' e :
  (forall value op,
     validatorDeposit p s caller toAddr value op txHash = (s', Err e) -> s' = s)
  /\ (forall op, validatorExit p s caller toAddr op txHash = (s', Err e) -> s' = s)
  /\ (forall op, validatorWithdrawal p s caller toAddr op txHash = (s', Err e) -> s' = s).
Proof.
  split; [|split].
  - intros value op. unfold validatorDeposit. cbv zeta. intros H.
    repeat case_match;
      repeat match goal with
             | H : Storage.SetValidator _ _ _ = (_, Some _) |- _ =>
                 apply SetValidator_error in H; destruct H as (-> & _)
             | H : (_, _) = (_, _) |- _ => inversion H; subst; clear H
             end; try done.
  - intros op. unfold validatorExit. cbv zeta. intros H.
    repeat case_match;
      repeat match goal with
             | H : Storage.SetValidator _ _ _ = (_, Some _) |- _ =>
                 apply SetValidator_error in H; destruct H as (-> & _)
             | H : (_, _) = (_, _) |- _ => inversion H; subst; clear H
             end; try done.
  - intros op. unfold validatorWithdrawal. cbv zeta. intros H.
    repeat case_match;
      repeat match goal with
             | H : Storage.SetValidator _ _ _ = (_, Some _) |- _ =>
                 apply SetValidator_error in H; destruct H as (-> & _)
             | H : (_, _) = (_, _) |- _ => inversion H; subst; clear H
             end; try done.
Qed.

Lemma request_failure_keeps_state_witness :
  let p := Fixture.processor 90 None in
  let v := Fixture.validator {[ Fixture.depositor := 10000000000000000000 ]}
             valStore.NoVer common.MaxUint64 None None None in
  let s := Fixture.stateWith v in
  let run := validatorWithdrawal p s Fixture.stranger Fixture.stateAddress
               (Fixture.withdrawalOp 1000000000) Fixture.txNew in
  run.2 = Err ErrInvalidFromAddresses /\ run.1 = s.
Proof.
  intros p v s run.
  assert (Hrun : run = (run.1, Err ErrInvalidFromAddresses)) by (vm_compute; reflexivity).
  split; [by rewrite Hrun|].
  exact (proj2 (proj2 (request_failure_keeps_state p s Fixture.stranger
                         Fixture.stateAddress Fixture.txNew run.1
                         ErrInvalidFromAddresses)) _ Hrun).
Defined.

(** ** The nonce of the caller *)

(** X2. Whenever the data of the message decodes, [Call] sets the nonce
    of the caller to its successor (modulo 2^64) and leaves every other
    nonce alone, whether the operation then succeeds, fails or panics;
    when the data does not decode, the error of the codec is returned and
    the state is untouched. *)
Theorem Call_nonce p s caller toAddr value msg s' r :
  Call p s caller toAddr value msg = (s', r) ->
  match DecodeBytes (lib p) (msgData msg) with
  | inl err => s' = s /\ r = Err (ErrExt err)
  | inr _ =>
      vm.nonces s' = <[caller := common.wrap64 (vm.GetNonce s caller + 1)]> (vm.nonces s)
  end.
Proof.
  unfold Call. intros H.
  destruct (DecodeBytes (lib p) (msgData msg)) as [err|op]; [by inversion H|].
  cbv zeta in H. unfold vm.Snapshot, vm.RevertToSnapshot in H.
  set (s0 := vm.SetNonce s caller _) in H.
  change (<[caller:=common.wrap64 (vm.GetNonce s caller + 1)]> (vm.nonces s))
    with (vm.nonces s0).
  destruct op as [d|sy|ex|w|rl].
  - destruct (validatorDeposit _ _ _ _ _ _ _) as [s1 r1] eqn:E.
    apply validatorDeposit_frame in E. destruct E as (E & _).
    destruct r1; inversion H; subst; done.
  - unfold syncOpProcessing in H.
    destruct (ValidateValidatorSyncOp _ _ _ _ _); [by inversion H; subst|].
    destruct (operation.vsOpCode sy); try (by inversion H; subst).
    + destruct (validatorActivate _ _ _) as [s1 r1] eqn:E.
      apply validatorActivate_frame in E. destruct E as (_ & E & _).
      destruct r1; inversion H; subst; done.
    + destruct (validatorDeactivate _ _ _) as [s1 r1] eqn:E.
      apply validatorDeactivate_frame in E. destruct E as (_ & E & _).
      destruct r1; inversion H; subst; done.
    + destruct (validatorUpdateBalance _ _ _) as [s1 r1] eqn:E.
      apply validatorUpdateBalance_frame in E. destruct E as (E & _).
      destruct r1; inversion H; subst; done.
  - destruct (validatorExit _ _ _ _ _ _) as [s1 r1] eqn:E.
    apply validatorExit_frame in E. destruct E as (_ & E & _).
    destruct r1; inversion H; subst; done.
  - destruct (validatorWithdrawal _ _ _ _ _ _) as [s1 r1] eqn:E.
    apply validatorWithdrawal_frame in E. destruct E as (_ & E & _).
    destruct r1; inversion H; subst; done.
  - inversion H; subst; done.
Qed.

Lemma Call_nonce_witness :
  let p := Fixture.processor 90 None in
  let r := Call p Fixture.emptyState Fixture.depositor Fixture.stateAddress
             (Some MinDepositVal) (mkMessage Fixture.txNew [1]) in
  r.2 = Ok (RetValue32 MinDepositVal)
  /\ vm.nonces r.1 = {[ Fixture.depositor := 1 ]}.
Proof.
  intros p r. split; [vm_compute; reflexivity|].
  pose proof (Call_nonce p Fixture.emptyState Fixture.depositor Fixture.stateAddress
                (Some MinDepositVal) (mkMessage Fixture.txNew [1]) r.1 r.2
                (surjective_pairing r)) as H.
  change (DecodeBytes (lib p) (msgData (mkMessage Fixture.txNew [1])))
    with (@inr N _ (operation.OpDeposit Fixture.depositOp)) in H.
  rewrite H. vm_compute. reflexivity.
Defined.

(** ** Deposits *)

Lemma ledgerTotal_perm (l1 l2 : list (N * Z)) :
  l1 ≡ₚ l2 ->
  foldr (fun kv acc => kv.2 + acc) 0 l1 = foldr (fun kv acc => kv.2 + acc) 0 l2.
Proof. induction 1; simpl; lia. Qed.

Lemma ledgerTotal_insert_new (m : gmap N Z) a x :
  m !! a = None -> ledgerTotal (<[a := x]> m) = ledgerTotal m + x.
Proof.
  intros Hm. unfold ledgerTotal.
  rewrite (ledgerTotal_perm _ _ (map_to_list_insert m a x Hm)). simpl. lia.
Qed.

Lemma ledgerTotal_delete (m : gmap N Z) a y :
  m !! a = Some y -> ledgerTotal (delete a m) = ledgerTotal m - y.
Proof.
  intros Hm. unfold ledgerTotal.
  rewrite <- (ledgerTotal_perm _ _ (map_to_list_delete m a y Hm)). simpl. lia.
Qed.

(** Adding [x] to the entry of [a] adds [x] to the total. *)
Lemma ledgerTotal_add (m : gmap N Z) a x :
  ledgerTotal (<[a := default 0 (m !! a) + x]> m) = ledgerTotal m + x.
Proof.
  destruct (m !! a) as [y|] eqn:Hm; simpl.
  - rewrite <- insert_delete_eq.
    rewrite ledgerTotal_insert_new by apply lookup_delete_eq.
    rewrite (ledgerTotal_delete _ _ _ Hm). lia.
  - rewrite ledgerTotal_insert_new by done. lia.
Qed.

(** A deposit whose request is valid, for a creator whose stored record
    [cur] is not activated: the comparisons with the record, the
    single-in-flight check on the pending withdrawal, then the writes. *)
Lemma deposit_existing_record p s caller toAddr value op txHash cur :
  depositRequestValid p s caller toAddr value op ->
  vm.validators s !! operation.dCreatorAddress op = Some cur ->
  common.MaxUint64 <= valStore.ActivationEra cur ->
  validatorDeposit p s caller toAddr (Some value) op txHash =
  if negb (valStore.PubKey cur =? operation.dPubKey op)%N
  then (s, Err (ErrNew "validator deposit failed (mismatch public key)"))
  else match valStore.WithdrawalAddress cur with
  | None => (s, Panic)
  | Some curWithdrawal =>
  if negb (curWithdrawal =? operation.dWithdrawalAddress op)%N
  then (s, Err (ErrNew "validator deposit failed (mismatch withdrawal address)"))
  else match MarshalDelegatingStake (lib p) (valStore.DelegatingStake cur) with
  | inl err => (s, Err (ErrExt err))
  | inr curDlg =>
  match MarshalDelegatingStake (lib p) (operation.dDelegatingStake op) with
  | inl err => (s, Err (ErrExt err))
  | inr opDlg =>
  if negb (bool_decide (curDlg = opDlg)) then (s, Err ErrMismatchDelegateData)
  else if inFlight p (valStore.Version cur) (valStore.GetWithdrawalTx cur)
  then (s, Err ErrValOpBlocked)
  else match Storage.SetValidator p s (depositedRecord p cur caller value txHash) with
  | (s1, Some err) => (s1, Err err)
  | (s1, None) =>
      (vm.SubBalance
         (incrDepositCount
            (EventEmmiter.Deposit s1 toAddr
               (txlog.DepositLogData (operation.dPubKey op) (operation.dCreatorAddress op)
                  (operation.dWithdrawalAddress op) value (operation.dSignature op)
                  (getDepositCount s1))))
         caller value,
       Ok (RetValue32 value))
  end
  end
  end
  end.
Proof.
  intros (Hto & Hsig & Hmin & Hcast & Hbal & d & Hd) Hcur Hact.
  unfold validatorDeposit.
  rewrite Hto, Hsig, Hcast. simpl negb. cbv iota.
  apply Z.ltb_ge in Hmin. rewrite Hmin.
  apply Z.ltb_ge in Hbal. cbv zeta. rewrite Hbal.
  rewrite (GetValidator_found _ _ _ _ Hcur). simpl fst.
  apply Z.ltb_ge in Hact.
  assert (Hdlg : exists val0,
             match operation.dDelegatingStake op with
             | Some ds =>
                 if negb (params.IsForkSlotDelegate (Config (bc p)) (vm.Slot (ctx p)))
                 then Err ErrDelegateForkRequire
                 else match operation.Validate (operation.Rules ds) with
                      | Some err => Err err
                      | None =>
                          match NewDelegatingStakeData (lib p) (operation.Rules ds)
                                  (operation.TrialPeriod ds) (operation.TrialRules ds) with
                          | inl err => Err (ErrExt err)
                          | inr d0 =>
                              Ok (valStore.SetDelegatingStake
                                    (valStore.NewValidator (operation.dPubKey op)
                                       (operation.dCreatorAddress op)
                                       (Some (operation.dWithdrawalAddress op)))
                                    (Some d0))
                          end
                      end
             | None => Ok (valStore.NewValidator (operation.dPubKey op)
                             (operation.dCreatorAddress op)
                             (Some (operation.dWithdrawalAddress op)))
             end = Ok val0).
  { unfold delegatingDataAccepted in Hd.
    destruct (operation.dDelegatingStake op) as [ds|]; [|eauto].
    destruct Hd as (Hfork & Hval & d' & -> & Hnew).
    rewrite Hfork, Hval, Hnew. simpl. eauto. }
  destruct Hdlg as (val0 & ->).
  rewrite Hact.
  destruct (negb (valStore.PubKey cur =? operation.dPubKey op)%N); [reflexivity|].
  destruct (valStore.WithdrawalAddress cur) as [w|]; [|reflexivity].
  destruct (negb (w =? operation.dWithdrawalAddress op)%N); [reflexivity|].
  destruct (MarshalDelegatingStake (lib p) (valStore.DelegatingStake cur)); [reflexivity|].
  destruct (MarshalDelegatingStake (lib p) (operation.dDelegatingStake op)); [reflexivity|].
  destruct (negb (bool_decide (_ = _))); [reflexivity|].
  rewrite inflight_inline.
  destruct (inFlight p _ _); reflexivity.
Qed.

(** X3. A further deposit for a creator whose stored record is not
    activated, with the public key and the withdrawal address of the
    record and the same encoded delegating data, and not blocked by a
    pending withdrawal, succeeds: the stake of the sender in the ledger
    grows by the value (a new entry for a new depositor), the other
    entries are kept, the total stake grows by exactly the value, the tx
    is appended to the deposit txs, and the delegating data of the record
    stays the stored one. The counter grows by one and the sender pays
    the value. *)
Theorem deposit_accumulates p s caller toAddr value op txHash cur w dlg :
  depositRequestValid p s caller toAddr value op ->
  storeWellFormed s ->
  vm.validators s !! operation.dCreatorAddress op = Some cur ->
  common.MaxUint64 <= valStore.ActivationEra cur ->
  valStore.PubKey cur = operation.dPubKey op ->
  valStore.WithdrawalAddress cur = Some w -> w = operation.dWithdrawalAddress op ->
  MarshalDelegatingStake (lib p) (valStore.DelegatingStake cur) = inr dlg ->
  MarshalDelegatingStake (lib p) (operation.dDelegatingStake op) = inr dlg ->
  inFlight p (valStore.Version cur) (valStore.GetWithdrawalTx cur) = false ->
  (forall v, validatorEncodeErr (lib p) v = None) ->
  exists s' v',
    validatorDeposit p s caller toAddr (Some value) op txHash = (s', Ok (RetValue32 value))
    /\ vm.validators s' !! operation.dCreatorAddress op = Some v'
    /\ valStore.Stake v' !! caller = Some (default 0 (valStore.Stake cur !! caller) + value)
    /\ (forall a, a <> caller -> valStore.Stake v' !! a = valStore.Stake cur !! a)
    /\ valStore.TotalStake v' = Some (ledgerTotal (valStore.Stake cur) + value)
    /\ valStore.depositTxs v' = valStore.depositTxs cur ++ [txHash]
    /\ valStore.DelegatingStake v' = valStore.DelegatingStake cur
    /\ valStore.ActivationEra v' = valStore.ActivationEra cur
    /\ vm.depositCount s' = vm.depositCount s + 1
    /\ vm.GetBalance s' caller = vm.GetBalance s caller - value.
Proof.
  intros Hvalid Hwf Hcur Hact Hpk Hw -> Hm1 Hm2 Hfree Henc.
  rewrite (deposit_existing_record _ _ _ _ _ _ _ _ Hvalid Hcur Hact).
  rewrite Hpk, N.eqb_refl, Hw, N.eqb_refl, Hm1, Hm2. simpl negb. cbv iota.
  rewrite bool_decide_eq_true_2 by done. simpl negb. cbv iota.
  rewrite Hfree.
  unfold Storage.SetValidator. rewrite Henc.
  eexists _, _. split; [reflexivity|].
  assert (Haddr : valStore.Address cur = operation.dCreatorAddress op)
    by apply (Hwf _ _ Hcur).
  simpl. rewrite Haddr, lookup_insert_eq.
  split; [reflexivity|].
  split; [apply lookup_insert_eq|].
  split; [intros a Ha; by apply lookup_insert_ne|].
  split; [unfold valStore.TotalStake; simpl; f_equal; apply ledgerTotal_add|].
  repeat split.
  unfold vm.GetBalance. simpl. by rewrite lookup_insert_eq.
Qed.

Lemma deposit_accumulates_witness :
  let p := Fixture.processor 55 None in
  let s := Cases.stateTwo Cases.deposited in
  exists s' v',
    validatorDeposit p s Fixture.stranger Fixture.stateAddress (Some 12000000000000000000)
      Fixture.depositOp Fixture.txNew = (s', Ok (RetValue32 12000000000000000000))
    /\ vm.validators s' !! Fixture.creator = Some v'
    /\ valStore.Stake v' !! Fixture.depositor = Some 10000000000000000000
    /\ valStore.Stake v' !! Fixture.stranger = Some 12000000000000000000
    /\ valStore.TotalStake v' = Some 22000000000000000000.
Proof.
  intros p s.
  destruct (deposit_accumulates p s Fixture.stranger Fixture.stateAddress
              12000000000000000000 Fixture.depositOp Fixture.txNew Cases.deposited
              Fixture.withdrawalAddress [])
    as (s' & v' & Hrun & Hv' & Hst & Hoth & Htot & _); try reflexivity.
  - repeat split; try (vm_compute; congruence). exists None. reflexivity.
  - intros a w Hl. unfold s, Cases.stateTwo in Hl. simpl in Hl.
    apply lookup_singleton_Some in Hl. destruct Hl as [<- <-]. reflexivity.
  - exists s', v'. split; [exact Hrun|]. split; [exact Hv'|].
    split; [rewrite Hoth; [reflexivity|discriminate]|].
    split; [rewrite Hst; reflexivity|].
    rewrite Htot. reflexivity.
Defined.

(** X4. A deposit for a creator whose stored record is not activated is
    compared with the record before anything is written: another public
    key, another withdrawal address, or delegating data with another
    encoding are refused, each with its own error and in this order, and
    the state is untouched. *)
Theorem deposit_mismatch_rejected p s caller toAddr value op txHash cur :
  depositRequestValid p s caller toAddr value op ->
  vm.validators s !! operation.dCreatorAddress op = Some cur ->
  common.MaxUint64 <= valStore.ActivationEra cur ->
  let run := validatorDeposit p s caller toAddr (Some value) op txHash in
  (valStore.PubKey cur <> operation.dPubKey op ->
   run = (s, Err (ErrNew "validator deposit failed (mismatch public key)")))
  /\ (valStore.PubKey cur = operation.dPubKey op ->
      forall w, valStore.WithdrawalAddress cur = Some w ->
      (w <> operation.dWithdrawalAddress op ->
       run = (s, Err (ErrNew "validator deposit failed (mismatch withdrawal address)")))
      /\ (w = operation.dWithdrawalAddress op ->
          forall curDlg opDlg,
            MarshalDelegatingStake (lib p) (valStore.DelegatingStake cur) = inr curDlg ->
            MarshalDelegatingStake (lib p) (operation.dDelegatingStake op) = inr opDlg ->
            curDlg <> opDlg ->
            run = (s, Err ErrMismatchDelegateData))).
Proof.
  intros Hvalid Hcur Hact run. subst run.
  rewrite (deposit_existing_record _ _ _ _ _ _ _ _ Hvalid Hcur Hact).
  split.
  - intros Hne. apply N.eqb_neq in Hne. by rewrite Hne.
  - intros -> w ->. rewrite N.eqb_refl. simpl negb. cbv iota. split.
    + intros Hne. apply N.eqb_neq in Hne. by rewrite Hne.
    + intros -> curDlg opDlg -> -> Hne. rewrite N.eqb_refl. simpl negb. cbv iota.
      by rewrite bool_decide_eq_false_2.
Qed.

Lemma deposit_mismatch_rejected_witness :
  let p := Fixture.processor 55 None in
  let s := Cases.stateTwo Cases.deposited in
  let op := operation.mkDeposit Fixture.pubKey Fixture.creator Fixture.stranger
              Fixture.signature None in
  validatorDeposit p s Fixture.stranger Fixture.stateAddress (Some 12000000000000000000)
    op Fixture.txNew
  = (s, Err (ErrNew "validator deposit failed (mismatch withdrawal address)")).
Proof.
  intros p s op.
  assert (Hvalid : depositRequestValid p s Fixture.stranger Fixture.stateAddress
                     12000000000000000000 op).
  { repeat split; try (vm_compute; congruence). exists None. reflexivity. }
  assert (Hact : common.MaxUint64 <= valStore.ActivationEra Cases.deposited)
    by reflexivity.
  refine (proj1 (proj2 (deposit_mismatch_rejected p s Fixture.stranger Fixture.stateAddress
                          12000000000000000000 op Fixture.txNew Cases.deposited
                          Hvalid eq_refl Hact)
                   eq_refl Fixture.withdrawalAddress eq_refl) _).
  discriminate.
Defined.

(** X5. The single-in-flight check of a deposit: a deposit that passes
    the comparisons with a stored record at version [Ver1] (or later)
    whose pending withdrawal tx is in the block being processed, or is
    successful and within the expiration window, is refused with
    [ErrValOpBlocked] and the state is untouched; while the record is at
    an older version, or has no pending withdrawal tx, or the pending tx no
    longer blocks, the deposit is not refused with that error. *)
Theorem deposit_blocked_by_pending_withdrawal p s caller toAddr value op txHash cur dlg :
  depositRequestValid p s caller toAddr value op ->
  vm.validators s !! operation.dCreatorAddress op = Some cur ->
  common.MaxUint64 <= valStore.ActivationEra cur ->
  valStore.PubKey cur = operation.dPubKey op ->
  valStore.WithdrawalAddress cur = Some (operation.dWithdrawalAddress op) ->
  MarshalDelegatingStake (lib p) (valStore.DelegatingStake cur) = inr dlg ->
  MarshalDelegatingStake (lib p) (operation.dDelegatingStake op) = inr dlg ->
  let run := validatorDeposit p s caller toAddr (Some value) op txHash in
  (inFlight p (valStore.Version cur) (valStore.GetWithdrawalTx cur) = true ->
   run = (s, Err ErrValOpBlocked))
  /\ (inFlight p (valStore.Version cur) (valStore.GetWithdrawalTx cur) = false ->
      run.2 <> Err ErrValOpBlocked).
Proof.
  intros Hvalid Hcur Hact Hpk Hw Hm1 Hm2 run. subst run.
  rewrite (deposit_existing_record _ _ _ _ _ _ _ _ Hvalid Hcur Hact).
  rewrite Hpk, N.eqb_refl, Hw, N.eqb_refl, Hm1, Hm2. simpl negb. cbv iota.
  rewrite bool_decide_eq_true_2 by done. simpl negb. cbv iota.
  split; intros ->; [reflexivity|].
  destruct (Storage.SetValidator p s _) as [s1 [e|]] eqn:Hset; simpl; [|discriminate].
  apply SetValidator_error in Hset. destruct Hset as (_ & x & ->). discriminate.
Qed.

Lemma deposit_blocked_by_pending_withdrawal_witness :
  let p := Fixture.processor 90 None in
  let cur := Fixture.validator {[ Fixture.depositor := 10000000000000000000 ]}
               valStore.Ver1 common.MaxUint64 (Some Fixture.txWithdrawal) None None in
  let s := Cases.stateTwo cur in
  validatorDeposit p s Fixture.stranger Fixture.stateAddress (Some 12000000000000000000)
    Fixture.depositOp Fixture.txNew = (s, Err ErrValOpBlocked).
Proof.
  intros p cur s.
  assert (Hvalid : depositRequestValid p s Fixture.stranger Fixture.stateAddress
                     12000000000000000000 Fixture.depositOp).
  { repeat split; try (vm_compute; congruence). exists None. reflexivity. }
  assert (Hact : common.MaxUint64 <= valStore.ActivationEra cur) by reflexivity.
  exact (proj1 (deposit_blocked_by_pending_withdrawal p s Fixture.stranger
                  Fixture.stateAddress 12000000000000000000 Fixture.depositOp
                  Fixture.txNew cur [] Hvalid eq_refl Hact eq_refl eq_refl eq_refl eq_refl)
           eq_refl).
Defined.

(** X6. What a successful deposit implies. The deposit targeted the
    validators state address and its signature was accepted; the value is
    not nil, at least [MinDepositVal], fits the log when counted in gwei,
    and was covered by the balance of the sender. The sender pays exactly
    the value (so its balance stays non-negative), no other balance moves,
    the deposit counter grows by one, exactly one log is emitted, whose
    payload carries the value and the counter before the deposit, and the
    32 bytes returned encode the value. *)
Theorem deposit_success_sound p s caller toAddr value op txHash s' ret :
  validatorDeposit p s caller toAddr value op txHash = (s', Ok ret) ->
  exists v,
    value = Some v /\ ret = RetValue32 v
    /\ IsValidatorOp p (Some toAddr) = true
    /\ VerifyDepositSig (lib p) (operation.dSignature op) (operation.dPubKey op)
         (operation.dCreatorAddress op) (operation.dWithdrawalAddress op) = None
    /\ MinDepositVal <= v <= vm.GetBalance s caller
    /\ 0 <= v / common.BigGwei <= common.MaxUint64
    /\ vm.GetBalance s' caller = vm.GetBalance s caller - v
    /\ 0 <= vm.GetBalance s' caller
    /\ (forall a, a <> caller -> vm.GetBalance s' a = vm.GetBalance s a)
    /\ vm.depositCount s' = vm.depositCount s + 1
    /\ (exists l, vm.logs s' = vm.logs s ++ [l]
                  /\ txlog.Signature l = txlog.EvtDeposit
                  /\ txlog.LogAddress l = toAddr
                  /\ txlog.LogPayload l
                     = txlog.DepositLogData (operation.dPubKey op)
                         (operation.dCreatorAddress op) (operation.dWithdrawalAddress op)
                         v (operation.dSignature op) (vm.depositCount s)).
Proof.
  intros H.
  pose proof (validatorDeposit_frame _ _ _ _ _ _ _ _ _ H) as (_ & _ & Hframe).
  unfold validatorDeposit in H.
  destruct (IsValidatorOp p (Some toAddr)) eqn:Hto; simpl negb in H; cbv iota in H;
    [|discriminate].
  destruct (VerifyDepositSig _ _ _ _ _) eqn:Hsig; [discriminate|].
  destruct value as [v|]; [|discriminate].
  destruct (Z.ltb_spec v MinDepositVal) as [|Hmin]; [discriminate|].
  destruct (common.BnCanCastToUint64 (v / common.BigGwei)) eqn:Hcast;
    simpl negb in H; cbv iota in H; [|discriminate].
  cbv zeta in H.
  destruct (Z.ltb_spec (vm.GetBalance s caller) v) as [|Hbal]; [discriminate|].
  destruct (match operation.dDelegatingStake op with
            | Some _ => _ | None => _ end) as [val0|e|]; try discriminate.
  destruct (match (Storage.GetValidator p s (operation.dCreatorAddress op)).1 with
            | Some _ => _ | None => _ end) as [val1|e|]; try discriminate.
  destruct (if valStore.Version val1 >=? valStore.Ver1 then _ else _); [discriminate|].
  destruct (Storage.SetValidator p s _) as [s1 [e|]] eqn:Hset; [discriminate|].
  apply SetValidator_frame in Hset. destruct Hset as (Hb & _ & Hl & Hc & _).
  inversion H; subst s' ret. clear H.
  exists v. split; [done|]. split; [done|]. split; [done|]. split; [done|].
  split; [lia|].
  split.
  { unfold common.BnCanCastToUint64 in Hcast. apply andb_true_iff in Hcast.
    destruct Hcast as [H1 H2]. apply Z.leb_le in H1, H2. lia. }
  assert (Hnew : vm.GetBalance
                   (vm.SubBalance
                      (incrDepositCount
                         (EventEmmiter.Deposit s1 toAddr
                            (txlog.DepositLogData (operation.dPubKey op)
                               (operation.dCreatorAddress op)
                               (operation.dWithdrawalAddress op) v
                               (operation.dSignature op) (getDepositCount s1))))
                      caller v) caller = vm.GetBalance s caller - v).
  { unfold vm.GetBalance at 1. simpl. rewrite lookup_insert_eq. simpl.
    unfold vm.GetBalance. simpl. by rewrite Hb. }
  split; [exact Hnew|]. split; [rewrite Hnew; lia|].
  split; [exact Hframe|].
  split; [simpl; lia|].
  eexists. simpl. rewrite Hl. split; [reflexivity|]. simpl.
  unfold getDepositCount, Storage.GetDepositCount. by rewrite Hc.
Qed.

Lemma deposit_success_sound_witness :
  let p := Fixture.processor 90 None in
  let run := validatorDeposit p Fixture.emptyState Fixture.depositor Fixture.stateAddress
               (Some 12000000000000000000) Fixture.depositOp Fixture.txNew in
  run.2 = Ok (RetValue32 12000000000000000000)
  /\ vm.GetBalance run.1 Fixture.depositor = 8000000000000000000
  /\ vm.depositCount run.1 = 1.
Proof.
  intros p run.
  assert (Hrun : run = (run.1, Ok (RetValue32 12000000000000000000)))
    by (vm_compute; reflexivity).
  destruct (deposit_success_sound p Fixture.emptyState Fixture.depositor
              Fixture.stateAddress (Some 12000000000000000000) Fixture.depositOp
              Fixture.txNew run.1 _ Hrun)
    as (v & Hv & _ & _ & _ & _ & _ & Hbal & _ & _ & Hcount & _).
  inversion Hv; subst v.
  split; [by rewrite Hrun|]. split; [rewrite Hbal; reflexivity|].
  rewrite Hcount. reflexivity.
Defined.

(** ** Exit requests *)

(** X7. The refusals of an exit request, in the order of the code: a
    target that is not the validators state address; for a stored record,
    another public key; an activation era that the current era of the
    chain has not reached yet (the record is not activated, or its
    activation is still postponed); an exit era already set; a sender that
    is not the withdrawal address or, under delegating stake rules, that
    does not hold the exit role of the rules in force. The state is
    untouched each time. *)
Theorem exit_request_refusals p s caller toAddr op txHash :
  let run := validatorExit p s caller toAddr op txHash in
  (IsValidatorOp p (Some toAddr) = false -> run = (s, Err ErrInvalidToAddress))
  /\ (IsValidatorOp p (Some toAddr) = true ->
      forall v, vm.validators s !! operation.eCreatorAddress op = Some v ->
      (valStore.PubKey v <> operation.ePubKey op -> run = (s, Err ErrMismatchPulicKey))
      /\ (valStore.PubKey v = operation.ePubKey op ->
          (EraInfoNumber (bc p) < valStore.ActivationEra v ->
           run = (s, Err ErrNotActivatedValidator))
          /\ (valStore.ActivationEra v <= EraInfoNumber (bc p) ->
              (valStore.ExitEra v <> common.MaxUint64 -> run = (s, Err ErrValidatorIsOut))
              /\ (valStore.ExitEra v = common.MaxUint64 ->
                  (valStore.HasDelegatingStake v = false ->
                   forall w, valStore.WithdrawalAddress v = Some w -> caller <> w ->
                   run = (s, Err ErrInvalidFromAddresses))
                  /\ (valStore.HasDelegatingStake v = true ->
                      forall rules isTrial,
                        actualRules p v = Ok (rules, isTrial) ->
                        caller ∉ operation.Exit rules ->
                        run = (s, Err ErrSenderRejByDelegate)))))).
Proof.
  intros run. subst run. unfold validatorExit. split.
  - by intros ->.
  - intros -> v Hv. rewrite (GetValidator_found _ _ _ _ Hv). simpl negb. cbv iota.
    unfold valStore.GetPubKey, valStore.GetActivationEra, valStore.GetExitEra.
    split.
    + intros Hne. apply N.eqb_neq in Hne. by rewrite Hne.
    + intros ->. rewrite N.eqb_refl. simpl negb. cbv iota. cbv zeta. split.
      * intros Hlt. apply Z.gtb_lt in Hlt. by rewrite Hlt.
      * intros Hle.
        replace (valStore.ActivationEra v >? EraInfoNumber (bc p)) with false
          by (symmetry; rewrite Z.gtb_ltb; apply Z.ltb_ge; lia).
        split.
        -- intros Hne. apply Z.eqb_neq in Hne. by rewrite Hne.
        -- intros ->. rewrite Z.eqb_refl. simpl negb. cbv iota. split.
           ++ intros -> w Hw Hne. unfold valStore.GetWithdrawalAddress. rewrite Hw.
              apply N.eqb_neq in Hne. by rewrite Hne.
           ++ intros -> rules isTrial -> Hnin.
              rewrite <- existsb_address in Hnin.
              apply not_true_is_false in Hnin. by rewrite Hnin.
Qed.

Lemma exit_request_refusals_witness :
  let p := Fixture.processor 90 None in
  (* activation postponed to era 7 while the chain is in era 5 *)
  let v := Fixture.validator ∅ valStore.Ver1 7 None None None in
  validatorExit p (Fixture.stateWith v) Fixture.withdrawalAddress Fixture.stateAddress
    Fixture.exitOp Fixture.txNew
  = (Fixture.stateWith v, Err ErrNotActivatedValidator).
Proof.
  intros p v.
  refine (proj1 (proj2 (proj2 (exit_request_refusals p (Fixture.stateWith v)
                                 Fixture.withdrawalAddress Fixture.stateAddress
                                 Fixture.exitOp Fixture.txNew) eq_refl v eq_refl)
                   eq_refl) _).
  vm_compute. reflexivity.
Defined.

(** X8. An exit request that is valid and not blocked by a pending exit
    tx records itself: the stored record is the former one with the
    version of the slot and the tx as pending exit tx (eras, ledger, index
    and pending withdrawal as before); one exit request log is emitted,
    whose epoch is the one of the request or, when the request has none,
    the epoch of the current slot plus one; no balance and no counter
    changes. *)
Theorem exit_request_recorded p s caller toAddr op txHash v :
  exitRequestValid p s caller toAddr op v ->
  inFlight p (valStore.Version v) (valStore.GetExitTx v) = false ->
  storeWellFormed s ->
  (forall w, validatorEncodeErr (lib p) w = None) ->
  exists s',
    validatorExit p s caller toAddr op txHash
    = (s', Ok (RetAddressBytes (operation.eCreatorAddress op)))
    /\ vm.validators s' !! operation.eCreatorAddress op
       = Some (valStore.SetExitTx (updateValidatorVersionBySlot p v) (Some txHash))
    /\ (exists l, vm.logs s' = vm.logs s ++ [l]
                  /\ txlog.Signature l = txlog.EvtExitRequest
                  /\ txlog.LogPayload l
                     = txlog.ExitRequestLogData (operation.ePubKey op)
                         (operation.eCreatorAddress op) (valStore.Index v)
                         (Some (default
                                  (common.wrap64
                                     (SlotToEpoch (bc p) (CurrentSlot (bc p)) + 1))
                                  (operation.eExitAfterEpoch op))))
    /\ vm.balances s' = vm.balances s
    /\ vm.depositCount s' = vm.depositCount s.
Proof.
  intros (Hto & Hv & Hpk & Hact & Hexit & Hauth) Hfree Hwf Henc.
  unfold validatorExit.
  rewrite Hto, (GetValidator_found _ _ _ _ Hv). simpl negb. cbv iota.
  unfold valStore.GetPubKey, valStore.GetActivationEra, valStore.GetExitEra.
  rewrite Hpk, N.eqb_refl, Hexit. simpl negb. cbv iota.
  replace (valStore.ActivationEra v >? EraInfoNumber (bc p)) with false
    by (symmetry; rewrite Z.gtb_ltb; apply Z.ltb_ge; lia).
  cbv zeta.
  assert (Hok : (if valStore.HasDelegatingStake v
                 then match actualRules p v with
                      | Ok (rules, _) =>
                          if negb (existsb (fun adr => (adr =? caller)%N)
                                     (operation.Exit rules))
                          then Err ErrSenderRejByDelegate else Ok ()
                      | Err err => Err err
                      | Panic => Panic
                      end
                 else match valStore.GetWithdrawalAddress v with
                      | Some w => if negb (caller =? w)%N
                                  then Err ErrInvalidFromAddresses else Ok ()
                      | None => Panic
                      end) = Ok ()).
  { unfold exitAuthorised in Hauth.
    destruct (valStore.HasDelegatingStake v).
    - destruct Hauth as (rules & isTrial & -> & Hin).
      apply existsb_address in Hin. by rewrite Hin.
    - rewrite Hauth. by rewrite N.eqb_refl. }
  rewrite Hok, inflight_inline, Hfree.
  unfold Storage.SetValidator. rewrite Henc.
  eexists. split; [reflexivity|]. simpl.
  split.
  { replace (valStore.Address v) with (operation.eCreatorAddress op)
      by (symmetry; apply (Hwf _ _ Hv)).
    apply lookup_insert_eq. }
  split; [|done].
  eexists. split; [reflexivity|]. simpl. split; [done|].
  by destruct (operation.eExitAfterEpoch op).
Qed.

Lemma exit_request_recorded_witness :
  let p := Fixture.processor 90 None in
  let v := Fixture.validator ∅ valStore.NoVer 5 None None None in
  let s := Fixture.stateWith v in
  exists s',
    validatorExit p s Fixture.withdrawalAddress Fixture.stateAddress Fixture.exitOp
      Fixture.txNew = (s', Ok (RetAddressBytes Fixture.creator))
    /\ (valStore.exitTx <$> vm.validators s' !! Fixture.creator) = Some (Some Fixture.txNew)
    /\ (valStore.version <$> vm.validators s' !! Fixture.creator) = Some valStore.Ver1.
Proof.
  intros p v s.
  destruct (exit_request_recorded p s Fixture.withdrawalAddress Fixture.stateAddress
              Fixture.exitOp Fixture.txNew v) as (s' & Hrun & Hv' & _); try reflexivity.
  - repeat split. vm_compute. discriminate.
  - intros a w Hl. unfold s, Fixture.stateWith in Hl. simpl in Hl.
    apply lookup_singleton_Some in Hl. destruct Hl as [<- <-]. reflexivity.
  - exists s'. split; [exact Hrun|]. change Fixture.creator with
      (operation.eCreatorAddress Fixture.exitOp). rewrite Hv'. split; reflexivity.
Defined.

(** ** Withdrawal requests outside of the refund path *)

Lemma castable_wrap64 x :
  common.BnCanCastToUint64 x = true -> common.wrap64 x = x.
Proof.
  unfold common.BnCanCastToUint64, common.wrap64, common.MaxUint64.
  intros H. apply andb_true_iff in H. destruct H as [H1 H2].
  apply Z.leb_le in H1, H2. apply Z.mod_small. lia.
Qed.

Lemma not_insufficientDeposit_check p v :
  valStore.ActivationEra v <> common.MaxUint64
  \/ params.EffectiveBalance (Config (bc p)) * common.BigWat <= ledgerTotal (valStore.Stake v) ->
  (valStore.ActivationEra v =? common.MaxUint64)
  && match valStore.TotalStake v with
     | None => false
     | Some stake => stake <? params.EffectiveBalance (Config (bc p)) * common.BigWat
     end = false.
Proof.
  intros [Hne | Hge].
  - apply Z.eqb_neq in Hne. by rewrite Hne.
  - apply andb_false_iff. right. unfold valStore.TotalStake.
    apply Z.ltb_ge. exact Hge.
Qed.

(** X9. A withdrawal request for a validator that is activated, or whose
    stake reaches the effective balance, is a matter of authorisation
    only. Without delegating stake the sender must be the withdrawal
    address of the record ([ErrInvalidFromAddresses] otherwise); with
    delegating stake it must hold the withdrawal role of the rules in
    force ([ErrSenderRejByDelegate] otherwise). An authorised request that
    is not blocked is recorded whatever its amount: the record gets the tx
    as pending withdrawal tx and keeps its ledger, no balance changes, and
    the log carries the amount counted in gwei. *)
Theorem withdrawal_request_authorisation p s caller toAddr op txHash v :
  withdrawalRequestValid p s toAddr op v ->
  inFlight p (valStore.Version v) (valStore.GetWithdrawalTx v) = false ->
  valStore.ActivationEra v <> common.MaxUint64
  \/ params.EffectiveBalance (Config (bc p)) * common.BigWat
     <= ledgerTotal (valStore.Stake v) ->
  let run := validatorWithdrawal p s caller toAddr op txHash in
  let recorded :=
    storeWellFormed s -> (forall w, validatorEncodeErr (lib p) w = None) ->
    exists s',
      run = (s', Ok (RetAddressBytes (operation.wCreatorAddress op)))
      /\ vm.validators s' !! operation.wCreatorAddress op
         = Some (valStore.SetWithdrawalTx (updateValidatorVersionBySlot p v) (Some txHash))
      /\ vm.balances s' = vm.balances s
      /\ exists l, vm.logs s' = vm.logs s ++ [l]
           /\ txlog.LogPayload l
              = txlog.WithdrawalLogData (valStore.PubKey v) (operation.wCreatorAddress op)
                  (valStore.Index v) (operation.wAmount op / common.BigGwei) in
  (valStore.HasDelegatingStake v = false ->
   forall w, valStore.WithdrawalAddress v = Some w ->
     (caller <> w -> run = (s, Err ErrInvalidFromAddresses))
     /\ (caller = w -> recorded))
  /\ (valStore.HasDelegatingStake v = true ->
      forall rules isTrial, actualRules p v = Ok (rules, isTrial) ->
        (caller ∉ operation.Withdrawal rules -> run = (s, Err ErrSenderRejByDelegate))
        /\ (caller ∈ operation.Withdrawal rules -> recorded)).
Proof.
  intros (Hto & Hcast & Hv) Hfree Hbranch run recorded. subst run recorded.
  unfold validatorWithdrawal.
  rewrite Hto, Hcast, (GetValidator_found _ _ _ _ Hv). simpl negb. cbv iota.
  rewrite inflight_inline, Hfree. cbv zeta.
  set (v0 := valStore.SetWithdrawalTx (updateValidatorVersionBySlot p v) (Some txHash)).
  replace (valStore.GetActivationEra v0) with (valStore.ActivationEra v) by reflexivity.
  replace (valStore.TotalStake v0) with (valStore.TotalStake v) by reflexivity.
  rewrite (not_insufficientDeposit_check _ _ Hbranch).
  replace (valStore.HasDelegatingStake v0) with (valStore.HasDelegatingStake v)
    by reflexivity.
  replace (valStore.GetWithdrawalAddress v0) with (valStore.WithdrawalAddress v)
    by reflexivity.
  assert (Hact : actualRules p v0 = actualRules p v) by reflexivity.
  rewrite Hact.
  assert (Hrec : storeWellFormed s -> (forall w, validatorEncodeErr (lib p) w = None) ->
            exists s',
              match Storage.SetValidator p s v0 with
              | (s1, Some err) => (s1, Err err)
              | (s1, None) =>
                  (EventEmmiter.WithdrawalRequest s1 toAddr
                     (txlog.WithdrawalLogData (valStore.GetPubKey v0)
                        (operation.wCreatorAddress op) (valStore.GetIndex v0)
                        (common.wrap64 (operation.wAmount op / common.BigGwei))),
                   Ok (RetAddressBytes (operation.wCreatorAddress op)))
              end = (s', Ok (RetAddressBytes (operation.wCreatorAddress op)))
              /\ vm.validators s' !! operation.wCreatorAddress op = Some v0
              /\ vm.balances s' = vm.balances s
              /\ exists l, vm.logs s' = vm.logs s ++ [l]
                   /\ txlog.LogPayload l
                      = txlog.WithdrawalLogData (valStore.PubKey v)
                          (operation.wCreatorAddress op) (valStore.Index v)
                          (operation.wAmount op / common.BigGwei)).
  { intros Hwf Henc. unfold Storage.SetValidator. rewrite Henc.
    eexists. split; [reflexivity|]. simpl. split.
    { replace (valStore.Address v) with (operation.wCreatorAddress op)
        by (symmetry; apply (Hwf _ _ Hv)).
      apply lookup_insert_eq. }
    split; [done|]. eexists. split; [reflexivity|]. simpl.
    by rewrite (castable_wrap64 _ Hcast). }
  split.
  - intros -> w ->. split.
    + intros Hne. apply N.eqb_neq in Hne. by rewrite Hne.
    + intros ->. rewrite N.eqb_refl. exact Hrec.
  - intros -> rules isTrial ->. split.
    + intros Hnin. rewrite <- existsb_address in Hnin.
      apply not_true_is_false in Hnin. by rewrite Hnin.
    + intros Hin. apply existsb_address in Hin. rewrite Hin. exact Hrec.
Qed.

Lemma withdrawal_request_authorisation_witness :
  let p := Fixture.processor 90 None in
  let v := Fixture.validator ∅ valStore.Ver1 5 None None None in
  let s := Fixture.stateWith v in
  validatorWithdrawal p s Fixture.stranger Fixture.stateAddress
    (Fixture.withdrawalOp 7000000000) Fixture.txNew = (s, Err ErrInvalidFromAddresses)
  /\ exists s',
       validatorWithdrawal p s Fixture.withdrawalAddress Fixture.stateAddress
         (Fixture.withdrawalOp 7000000000) Fixture.txNew
       = (s', Ok (RetAddressBytes Fixture.creator))
       /\ (valStore.withdrawalTx <$> vm.validators s' !! Fixture.creator)
          = Some (Some Fixture.txNew).
Proof.
  intros p v s.
  assert (Hvalid : withdrawalRequestValid p s Fixture.stateAddress
                     (Fixture.withdrawalOp 7000000000) v) by (by repeat split).
  assert (Hbranch : valStore.ActivationEra v <> common.MaxUint64
                    \/ params.EffectiveBalance (Config (bc p)) * common.BigWat
                       <= ledgerTotal (valStore.Stake v)) by (left; discriminate).
  assert (Hwf : storeWellFormed s).
  { intros a w Hl. unfold s, Fixture.stateWith in Hl. simpl in Hl.
    apply lookup_singleton_Some in Hl. destruct Hl as [<- <-]. reflexivity. }
  pose (A := fun caller =>
               proj1 (withdrawal_request_authorisation p s caller Fixture.stateAddress
                        (Fixture.withdrawalOp 7000000000) Fixture.txNew v Hvalid eq_refl
                        Hbranch) eq_refl Fixture.withdrawalAddress eq_refl).
  split.
  - apply (proj1 (A Fixture.stranger)). discriminate.
  - destruct (proj2 (A Fixture.withdrawalAddress) eq_refl Hwf) as (s' & Hrun & Hv' & _).
    { reflexivity. }
    exists s'. split; [exact Hrun|].
    change Fixture.creator with (operation.wCreatorAddress (Fixture.withdrawalOp 7000000000)).
    by rewrite Hv'.
Defined.

(** ** Deactivation and activation *)

(** X10. Deactivate on a stored record: a record whose exit era is set is
    refused with [ErrValidatorIsOut]. Otherwise the activation era must be
    strictly before the effective era, which is the era of the block once
    the sync processing fork is active and the era of the processing epoch
    of the operation before ([ErrNotActivatedValidator] otherwise). On
    success the exit era is the number of the era of the processing epoch
    plus 2 (also after the fork, where the check used the era of the
    block), the pending exit tx is cleared, the other fields but the
    version are kept, no balance changes, and the deactivate log is
    emitted only when the delegate fork is active. *)
Theorem validatorDeactivate_spec p s op v :
  vm.validators s !! operation.vsCreator op = Some v ->
  let run := validatorDeactivate p s op in
  (valStore.ExitEra v <> common.MaxUint64 -> run = (s, Err ErrValidatorIsOut))
  /\ (valStore.ExitEra v = common.MaxUint64 ->
      forall opEra, EpochToEra (bc p) (operation.vsProcEpoch op) = Some opEra ->
      let effectiveEra :=
        if params.IsForkSlotValSyncProc (Config (bc p)) (vm.Slot (ctx p))
        then vm.Era (ctx p) else era.Number opEra in
      (effectiveEra <= valStore.ActivationEra v ->
       run = (s, Err ErrNotActivatedValidator))
      /\ (valStore.ActivationEra v < effectiveEra ->
          storeWellFormed s ->
          (forall w, validatorEncodeErr (lib p) w = None) ->
          (forall d, rlpEncodeErr (lib p) d = None) ->
          exists s' v',
            run = (s', Ok (RetAddressBytes (operation.vsCreator op)))
            /\ vm.validators s' !! operation.vsCreator op = Some v'
            /\ valStore.ExitEra v' = common.wrap64 (era.Number opEra + 2)
            /\ valStore.exitTx v' = None
            /\ valStore.ActivationEra v' = valStore.ActivationEra v
            /\ valStore.Stake v' = valStore.Stake v
            /\ valStore.Index v' = valStore.Index v
            /\ valStore.withdrawalTx v' = valStore.withdrawalTx v
            /\ vm.balances s' = vm.balances s
            /\ vm.logs s'
               = vm.logs s
                 ++ (if params.IsForkSlotDelegate (Config (bc p)) (vm.Slot (ctx p))
                     then [txlog.mkLog (GetValidatorsStateAddress p) txlog.EvtDeactivate
                             [operation.vsCreator op; operation.vsInitTxHash op]
                             (txlog.DeactivateLogData (operation.vsInitTxHash op)
                                (operation.vsCreator op) (operation.vsProcEpoch op)
                                (operation.vsIndex op))]
                     else []))).
Proof.
  intros Hv run. subst run. unfold validatorDeactivate.
  rewrite (GetValidator_found _ _ _ _ Hv).
  unfold valStore.GetExitEra, valStore.GetActivationEra. split.
  - intros Hne. apply Z.eqb_neq in Hne. by rewrite Hne.
  - intros -> opEra ->. rewrite Z.eqb_refl. simpl negb. cbv iota. cbv zeta.
    split.
    + intros Hle. apply Z.geb_le in Hle. by rewrite Hle.
    + intros Hlt Hwf Henc Hrlp.
      replace (valStore.ActivationEra v >=?
               (if params.IsForkSlotValSyncProc (Config (bc p)) (vm.Slot (ctx p))
                then vm.Era (ctx p) else era.Number opEra)) with false
        by (symmetry; rewrite Z.geb_leb; apply Z.leb_gt; exact Hlt).
      unfold Storage.SetValidator, EventEmmiter.pack. rewrite Henc, Hrlp.
      assert (Haddr : valStore.Address v = operation.vsCreator op)
        by apply (Hwf _ _ Hv).
      destruct (params.IsForkSlotDelegate _ _);
        (eexists _, _; split; [reflexivity|]; simpl;
         split; [rewrite Haddr; apply lookup_insert_eq|];
         repeat split; try reflexivity; by rewrite ?app_nil_r).
Qed.

Lemma validatorDeactivate_spec_witness :
  (* a block of era 5 at slot 90, where the sync processing fork is
     active, and an operation whose processing epoch 78 is in era 7 *)
  let p := Fixture.processor 90 None in
  let op := Fixture.syncOp operation.Deactivate Fixture.txWithdrawal 78 None None in
  let active := Fixture.validator ∅ valStore.Ver1 4 None (Some Fixture.txWithdrawal) None in
  let fresh := Fixture.validator ∅ valStore.Ver1 5 None None None in
  (exists s' v',
     validatorDeactivate p (Fixture.stateWith active) op
     = (s', Ok (RetAddressBytes Fixture.creator))
     /\ vm.validators s' !! Fixture.creator = Some v'
     /\ valStore.ExitEra v' = 9 /\ valStore.exitTx v' = None)
  /\ validatorDeactivate p (Fixture.stateWith fresh) op
     = (Fixture.stateWith fresh, Err ErrNotActivatedValidator).
Proof.
  intros p op active fresh.
  pose (opEra := era.mkEra 7 70 79).
  split.
  - destruct (proj2 (proj2 (validatorDeactivate_spec p (Fixture.stateWith active) op active
                              eq_refl) eq_refl opEra eq_refl))
      as (s' & v' & Hrun & Hv' & Hexit & Htx & _); try reflexivity.
    + intros a w Hl. unfold Fixture.stateWith in Hl. simpl in Hl.
      apply lookup_singleton_Some in Hl. destruct Hl as [<- <-]. reflexivity.
    + exists s', v'. split; [exact Hrun|]. split; [exact Hv'|].
      split; [rewrite Hexit; reflexivity|exact Htx].
  - apply (proj1 (proj2 (validatorDeactivate_spec p (Fixture.stateWith fresh) op fresh
                           eq_refl) eq_refl opEra eq_refl)).
    vm_compute. discriminate.
Defined.

(** X11. Activate on a record that is already activated: once the
    operation-tracking fork is active it is refused with
    [ErrValidatorActivated] and nothing is written; before the fork there
    is no such check, and the operation activates the record again: the
    activation era is overwritten, the ledger and the deposit txs are
    cleared, and the creator is registered under the index of the
    operation in the validators list. *)
Theorem validatorActivate_again p s op v :
  vm.validators s !! operation.vsCreator op = Some v ->
  valStore.ActivationEra v <> common.MaxUint64 ->
  let run := validatorActivate p s op in
  (params.IsForkSlotValOpTracking (Config (bc p)) (vm.Slot (ctx p)) = true ->
   run = (s, Err ErrValidatorActivated))
  /\ (params.IsForkSlotValOpTracking (Config (bc p)) (vm.Slot (ctx p)) = false ->
      forall opEra, EpochToEra (bc p) (operation.vsProcEpoch op) = Some opEra ->
      storeWellFormed s ->
      (forall w, validatorEncodeErr (lib p) w = None) ->
      (forall d, rlpEncodeErr (lib p) d = None) ->
      exists s' v',
        run = (s', Ok (RetAddressBytes (operation.vsCreator op)))
        /\ vm.validators s' !! operation.vsCreator op = Some v'
        /\ valStore.ActivationEra v' = common.wrap64 (era.Number opEra + 2)
        /\ valStore.Stake v' = ∅
        /\ valStore.depositTxs v' = []
        /\ valStore.version v' = valStore.NoVer
        /\ vm.validatorsList s'
           = <[operation.vsIndex op := operation.vsCreator op]> (vm.validatorsList s)).
Proof.
  intros Hv Hact run. subst run. unfold validatorActivate.
  rewrite (GetValidator_found _ _ _ _ Hv).
  unfold valStore.GetActivationEra. apply Z.eqb_neq in Hact. rewrite Hact.
  split.
  - by intros ->.
  - intros Hf opEra -> Hwf Henc Hrlp. rewrite Hf. simpl andb. cbv iota. cbv zeta.
    unfold Storage.SetValidator, EventEmmiter.pack. rewrite Henc, Hrlp.
    assert (Haddr : valStore.Address v = operation.vsCreator op)
      by apply (Hwf _ _ Hv).
    unfold updateValidatorVersionBySlot. cbv zeta. rewrite Hf.
    destruct (params.IsForkSlotDelegate _ _);
      (eexists _, _; split; [reflexivity|]; simpl;
       split; [rewrite Haddr; apply lookup_insert_eq|];
       repeat split; reflexivity).
Qed.

Lemma validatorActivate_again_witness :
  let op := Fixture.syncOp operation.Activate Fixture.txDeposit 78 None None in
  let v := Fixture.validator {[ Fixture.depositor := 10 ]} valStore.NoVer 5
             None None None in
  let s := Fixture.stateWith v in
  (* slot 90: the operation-tracking fork is active *)
  validatorActivate (Fixture.processor 90 None) s op = (s, Err ErrValidatorActivated)
  (* slot 55: before the fork *)
  /\ exists s' v',
       validatorActivate (Fixture.processor 55 None) s op
       = (s', Ok (RetAddressBytes Fixture.creator))
       /\ vm.validators s' !! Fixture.creator = Some v'
       /\ valStore.ActivationEra v' = 9
       /\ valStore.Stake v' = ∅.
Proof.
  intros op v s.
  assert (Hact : valStore.ActivationEra v <> common.MaxUint64) by discriminate.
  split.
  - apply (proj1 (validatorActivate_again (Fixture.processor 90 None) s op v eq_refl Hact)).
    reflexivity.
  - destruct (proj2 (validatorActivate_again (Fixture.processor 55 None) s op v
                       eq_refl Hact) eq_refl (era.mkEra 7 70 79) eq_refl)
      as (s' & v' & Hrun & Hv' & Hera & Hst & _); try reflexivity.
    + intros a w Hl. unfold s, Fixture.stateWith in Hl. simpl in Hl.
      apply lookup_singleton_Some in Hl. destruct Hl as [<- <-]. reflexivity.
    + exists s', v'. split; [exact Hrun|]. split; [exact Hv'|].
      split; [rewrite Hera; reflexivity|exact Hst].
Defined.

(** ** The UpdateBalance sync operation *)

(** The balances after the tail of [validatorUpdateBalance]: the amount of
    the operation is added to the balance of the beneficiary. *)
Lemma finishUpdateBalance_credit p s op v to s' ret :
  finishUpdateBalance p s op v to = (s', Ok ret) ->
  exists amount,
    operation.vsAmount op = Some amount
    /\ vm.balances s' = <[to := vm.GetBalance s to + amount]> (vm.balances s)
    /\ ret = RetAddressBytes (operation.vsCreator op).
Proof.
  unfold finishUpdateBalance.
  destruct (Storage.SetValidator p s v) as [s1 [e|]] eqn:Hset; [discriminate|].
  apply SetValidator_frame in Hset. destruct Hset as (Hbal & _).
  destruct (operation.vsAmount op) as [amount|]; [|discriminate]. cbv zeta.
  intros H. exists amount. split; [done|].
  destruct (params.IsForkSlotDelegate _ _).
  - destruct (EventEmmiter.pack p _); [discriminate|].
    inversion H; subst. simpl. unfold vm.GetBalance. by rewrite Hbal.
  - inversion H; subst. simpl. unfold vm.GetBalance. by rewrite Hbal.
Qed.

(** X12. A successful UpdateBalance sync operation on a record without
    delegating stake, or on the refund path, pays exactly the amount of
    the operation to one account and changes no other balance. The
    beneficiary is the sender of the initiating tx, which must be a
    withdrawal request, on the refund path (record never activated, total
    stake below the effective balance), and the withdrawal address of the
    record otherwise: a record without withdrawal address is not served
    there. The credit is the amount of the operation as it is, on both
    paths. *)
Theorem updateBalance_credit p s op v s' ret :
  vm.validators s !! operation.vsCreator op = Some v ->
  insufficientDeposit p v \/ valStore.DelegatingStake v = None ->
  validatorUpdateBalance p s op = (s', Ok ret) ->
  exists amount to,
    operation.vsAmount op = Some amount
    /\ ((insufficientDeposit p v
         /\ exists initTx iop,
              GetTransaction (bc p) (operation.vsInitTxHash op) = Some initTx
              /\ DecodeBytes (lib p) (types.Data initTx) = inr iop
              /\ operation.OpCode iop = operation.WithdrawalCode
              /\ to = types.Sender initTx)
        \/ (~ insufficientDeposit p v /\ valStore.WithdrawalAddress v = Some to))
    /\ (forall a, vm.GetBalance s' a
                  = vm.GetBalance s a + (if (to =? a)%N then amount else 0))
    /\ ret = RetAddressBytes (operation.vsCreator op).
Proof.
  intros Hv Hbranch. unfold validatorUpdateBalance. cbv zeta.
  rewrite (GetValidator_found _ _ _ _ Hv).
  destruct (if valStore.Version v >=? valStore.Ver1 then _ else _) as [u|e|];
    try discriminate.
  set (v0 := valStore.SetWithdrawalTx (updateValidatorVersionBySlot p v) None).
  replace (valStore.GetActivationEra v0) with (valStore.ActivationEra v) by reflexivity.
  replace (valStore.TotalStake v0) with (valStore.TotalStake v) by reflexivity.
  replace (valStore.HasDelegatingStake v0) with (valStore.HasDelegatingStake v)
    by reflexivity.
  assert (Hfin : forall w to,
             finishUpdateBalance p s op w to = (s', Ok ret) ->
             exists amount,
               operation.vsAmount op = Some amount
               /\ (forall a, vm.GetBalance s' a
                             = vm.GetBalance s a + (if (to =? a)%N then amount else 0))
               /\ ret = RetAddressBytes (operation.vsCreator op)).
  { intros w to Hrun. apply finishUpdateBalance_credit in Hrun.
    destruct Hrun as (amount & Hamt & Hbal & Hret). exists amount.
    split; [done|]. split; [|done]. intros a.
    rewrite <- (GetBalance_AddBalance s a to amount).
    unfold vm.GetBalance at 1. by rewrite Hbal. }
  destruct (_ && _) eqn:Hins.
  - assert (Hi : insufficientDeposit p v).
    { apply andb_true_iff in Hins. destruct Hins as [Hact Hlt].
      apply Z.eqb_eq in Hact. split; [done|].
      unfold valStore.TotalStake in *. eexists. split; [reflexivity|].
      by apply Z.ltb_lt. }
    destruct (GetTransaction (bc p) (operation.vsInitTxHash op)) as [initTx|];
      [|discriminate].
    destruct (DecodeBytes (lib p) (types.Data initTx)) as [e|iop] eqn:Hdec;
      [discriminate|].
    destruct (bool_decide (operation.OpCode iop = operation.WithdrawalCode)) eqn:Hcode;
      [|discriminate].
    apply bool_decide_eq_true_1 in Hcode. simpl negb. cbv iota.
    destruct (params.IsForkSlotValOpTracking _ _).
    + destruct (operation.vsAmount op) as [amount|] eqn:Hamt; [|discriminate].
      destruct (valStore.StakeByAddress v0 (types.Sender initTx)) as [stake|];
        [|discriminate].
      destruct (valStore.SubtractStake v0 _ _) as [[v1 n] [e|]]; [discriminate|].
      intros Hrun. apply Hfin in Hrun. destruct Hrun as (amt & Ha & Hb & Hr).
      exists amt, (types.Sender initTx). split; [done|].
      split; [|done].
      left. split; [exact Hi|]. exists initTx, iop. by rewrite Hdec.
    + intros Hrun. apply Hfin in Hrun. destruct Hrun as (amt & Ha & Hb & Hr).
      exists amt, (types.Sender initTx). split; [done|].
      split; [|done].
      left. split; [exact Hi|]. exists initTx, iop. by rewrite Hdec.
  - assert (Hni : ~ insufficientDeposit p v).
    { intros Hi. apply insufficientDeposit_check in Hi. congruence. }
    destruct Hbranch as [Hi | Hnone]; [done|].
    unfold valStore.HasDelegatingStake. rewrite Hnone.
    rewrite bool_decide_eq_false_2 by (intros [? ?]; discriminate).
    replace (valStore.GetWithdrawalAddress v0) with (valStore.WithdrawalAddress v)
      by reflexivity.
    destruct (valStore.WithdrawalAddress v) as [to|]; [|discriminate].
    intros Hrun. apply Hfin in Hrun. destruct Hrun as (amt & Ha & Hb & Hr).
    exists amt, to. split; [done|]. split; [by right|]. done.
Qed.
Lemma updateBalance_credit_witness :
  (* an activated record with a pending withdrawal request, and the
     UpdateBalance operation of 7 wei that answers it *)
  let p := Fixture.processor 90 None in
  let v := Fixture.validator ∅ valStore.Ver1 3 (Some Fixture.txWithdrawal) None None in
  let op := Fixture.syncOp operation.UpdateBalance Fixture.txWithdrawal 8 (Some 7) (Some 100) in
  exists s',
    validatorUpdateBalance p (Fixture.stateWith v) op
    = (s', Ok (RetAddressBytes Fixture.creator))
    /\ vm.GetBalance s' Fixture.withdrawalAddress = 7
    /\ vm.GetBalance s' Fixture.depositor = 20000000000000000000.
Proof.
  intros p v op.
  set (run := validatorUpdateBalance p (Fixture.stateWith v) op).
  assert (Hrun : run = (run.1, Ok (RetAddressBytes Fixture.creator)))
    by (vm_compute; reflexivity).
  destruct (updateBalance_credit p (Fixture.stateWith v) op v run.1
              (RetAddressBytes Fixture.creator) eq_refl (or_intror eq_refl) Hrun)
    as (amount & to & Hamt & Hto & Hbal & _).
  exists run.1. split; [exact Hrun|].
  assert (amount = 7) as -> by (injection Hamt; auto).
  assert (to = Fixture.withdrawalAddress) as ->.
  { destruct Hto as [[[Hact _] _] | [_ Hto]]; [discriminate Hact|].
    injection Hto; auto. }
  split; rewrite Hbal; reflexivity.
Defined.

(** X13. The guards of the UpdateBalance sync operation on a record of
    version 1. Without pending withdrawal tx the operation is served only
    when its initiating tx is older than operation tracking: it is refused
    with [ErrNoActiveWithdrawalOp] when the fork was already active
    [ValidatorOpExpireSlots] slots before the block (slot 0 when the block
    is not that far), and otherwise the initiating tx must have a receipt,
    which must be successful, in a block where the fork was not yet
    active. With a pending withdrawal tx other than the initiating tx of
    the operation, the operation is refused with [ErrValOpBlocked] while
    the pending tx is successful and within its expiration window. *)
Theorem updateBalance_tracking_guards p s op v :
  vm.validators s !! operation.vsCreator op = Some v ->
  valStore.Ver1 <= valStore.Version v ->
  let cfg := Config (bc p) in
  let slot := vm.Slot (ctx p) in
  let expiration := params.ValidatorOpExpireSlots cfg in
  let initTx := operation.vsInitTxHash op in
  let run := validatorUpdateBalance p s op in
  (valStore.withdrawalTx v = None ->
   (params.IsForkSlotValOpTracking cfg (if slot >? expiration then slot - expiration else 0)
    = true ->
    run = (s, Err ErrNoActiveWithdrawalOp))
   /\ (params.IsForkSlotValOpTracking cfg (if slot >? expiration then slot - expiration else 0)
       = false ->
       forall rc bl, GetTransactionReceipt (bc p) initTx = (rc, bl) ->
       match rc with
       | None => run = (s, Err (ErrNewHash "initTx receipt not found" initTx))
       | Some rc =>
           (types.Status rc <> types.ReceiptStatusSuccessful ->
            run = (s, Err (ErrNewHash "initTx receipt status is failed" initTx)))
           /\ (types.Status rc = types.ReceiptStatusSuccessful ->
               forall hd, GetHeaderByHash (bc p) bl = Some hd ->
               params.IsForkSlotValOpTracking cfg (types.Slot hd) = true ->
               run = (s, Err ErrNoActiveWithdrawalOp))
       end))
  /\ (forall prev rc bl hd,
        valStore.withdrawalTx v = Some prev ->
        prev <> initTx ->
        GetTransactionReceipt (bc p) prev = (Some rc, bl) ->
        types.Status rc = types.ReceiptStatusSuccessful ->
        GetHeaderByHash (bc p) bl = Some hd ->
        slot < common.wrap64 (types.Slot hd + expiration) ->
        run = (s, Err ErrValOpBlocked)).
Proof.
  intros Hv Hver cfg slot expiration initTx run. subst run cfg slot expiration initTx.
  unfold validatorUpdateBalance. cbv zeta.
  rewrite (GetValidator_found _ _ _ _ Hv).
  replace (valStore.Version v >=? valStore.Ver1) with true
    by (symmetry; rewrite Z.geb_leb; apply Z.leb_le; exact Hver).
  unfold valStore.GetWithdrawalTx. split.
  - intros ->. split.
    + by intros ->.
    + intros -> rc bl ->. destruct rc as [rc|]; [|done]. split.
      * intros Hne. apply Z.eqb_neq in Hne. by rewrite Hne.
      * intros Heq hd -> Hf. apply Z.eqb_eq in Heq. by rewrite Heq, Hf.
  - intros prev rc bl hd -> Hne -> Hst -> Hlt.
    apply N.eqb_neq in Hne. rewrite Hne. apply Z.eqb_eq in Hst. rewrite Hst.
    apply Z.ltb_lt in Hlt. by rewrite Hlt.
Qed.

Lemma updateBalance_tracking_guards_witness :
  let op := Fixture.syncOp operation.UpdateBalance Fixture.txWithdrawal 8 (Some 7) (Some 100) in
  let idle := Fixture.validator ∅ valStore.Ver1 3 None None None in
  let busy := Fixture.validator ∅ valStore.Ver1 3 (Some Fixture.txDeposit) None None in
  (* slot 200: the fork was active at slot 100 *)
  validatorUpdateBalance (Fixture.processor 200 None) (Fixture.stateWith idle) op
  = (Fixture.stateWith idle, Err ErrNoActiveWithdrawalOp)
  (* slot 90: the initiating tx is of slot 80, where the fork is active *)
  /\ validatorUpdateBalance (Fixture.processor 90 None) (Fixture.stateWith idle) op
     = (Fixture.stateWith idle, Err ErrNoActiveWithdrawalOp)
  (* another successful request of slot 80 is pending *)
  /\ validatorUpdateBalance (Fixture.processor 90 None) (Fixture.stateWith busy) op
     = (Fixture.stateWith busy, Err ErrValOpBlocked).
Proof.
  intros op idle busy.
  assert (Hver : valStore.Ver1 <= 1) by (vm_compute; discriminate).
  split; [|split].
  - apply (proj1 (proj1 (updateBalance_tracking_guards (Fixture.processor 200 None)
                           (Fixture.stateWith idle) op idle eq_refl Hver) eq_refl)).
    reflexivity.
  - refine (proj2 (proj2 (proj1 (updateBalance_tracking_guards (Fixture.processor 90 None)
                                   (Fixture.stateWith idle) op idle eq_refl Hver) eq_refl)
                     eq_refl (Some (types.mkReceipt types.ReceiptStatusSuccessful))
                     Fixture.blockA eq_refl)
              eq_refl (types.mkHeader 80) eq_refl eq_refl).
  - apply (proj2 (updateBalance_tracking_guards (Fixture.processor 90 None)
                    (Fixture.stateWith busy) op busy eq_refl Hver)
             Fixture.txDeposit (types.mkReceipt types.ReceiptStatusSuccessful)
             Fixture.blockA (types.mkHeader 80)); try reflexivity.
    discriminate.
Defined.

(** ** The initiating tx of a sync operation *)

(** X14. What the acceptance of a sync operation says of its initiating
    tx. An operation whose [InitTxHash] starts with the address of the
    creator (initiated by slashing) is accepted without any look at the
    initiating tx: the only errors are those of the saved sync record.
    Any other accepted operation has an initiating tx on the chain, whose
    data decodes to a deposit, exit or withdrawal request of the same
    creator, with a successful receipt; for an exit request the epoch
    asked for is not after the processing epoch, and a version 1
    operation answering a withdrawal request carries a balance. *)
Theorem sync_op_initiating_tx b lb op applySlot txHash :
  let validate := ValidateValidatorSyncOp b lb op applySlot txHash in
  (initialisedBySlashing op = true ->
   validate = None \/ validate = Some ErrNoSavedValSyncOp
   \/ validate = Some ErrInvalidOpEpoch \/ validate = Some ErrMismatchValSyncOp
   \/ validate = Some ErrValSyncTxExists)
  /\ (initialisedBySlashing op = false -> validate = None ->
      exists initTx iop rc,
        GetTransaction b (operation.vsInitTxHash op) = Some initTx
        /\ DecodeBytes lb (types.Data initTx) = inr iop
        /\ match iop with
           | operation.OpDeposit d =>
               operation.dCreatorAddress d = operation.vsCreator op
           | operation.OpExit e =>
               operation.eCreatorAddress e = operation.vsCreator op
               /\ (forall x, operation.eExitAfterEpoch e = Some x ->
                             x <= operation.vsProcEpoch op)
           | operation.OpWithdrawal w =>
               operation.wCreatorAddress w = operation.vsCreator op
               /\ (operation.vsVersion op = operation.Ver1 ->
                   operation.vsBalance op <> None)
           | _ => False
           end
        /\ (GetTransactionReceipt b (operation.vsInitTxHash op)).1 = Some rc
        /\ types.Status rc = types.ReceiptStatusSuccessful).
Proof.
  intros validate. subst validate. unfold ValidateValidatorSyncOp. cbv zeta.
  split.
  - intros ->.
    destruct (GetValidatorSyncData b _) as [saved|]; [|by auto].
    destruct (negb _ && (_ >? _)); [by auto 10|].
    destruct (negb (CompareValSync _ _ _)); [by auto 10|].
    destruct (types.TxHash saved) as [h|]; [|by auto].
    destruct (negb (h =? txHash)%N); [|by auto].
    destruct (negb (params.IsForkSlotDelegate _ _)); [by auto 10|].
    destruct ((GetTransactionReceipt b h).1) as [rc|]; [|by auto].
    destruct (types.Status rc =? _); by auto 10.
  - intros ->.
    destruct (GetValidatorSyncData b _) as [saved|]; [|discriminate].
    destruct (negb _ && (_ >? _)); [discriminate|].
    destruct (negb (CompareValSync _ _ _)); [discriminate|].
    destruct (match types.TxHash saved with Some _ => _ | None => _ end);
      [discriminate|].
    destruct (GetTransaction b _) as [initTx|] eqn:Htx; [|discriminate].
    destruct (DecodeBytes lb _) as [e|iop] eqn:Hdec; [discriminate|].
    destruct ((GetTransactionReceipt b (operation.vsInitTxHash op)).1) as [rc|] eqn:Hrc.
    + destruct (types.Status rc =? types.ReceiptStatusSuccessful) eqn:Hst.
      * apply Z.eqb_eq in Hst. intros H. exists initTx, iop, rc.
        split; [done|]. split; [done|]. split; [|done]. revert H.
        destruct iop as [d|vs|e|w|r]; try (repeat case_match; discriminate).
        -- destruct (bool_decide _); [discriminate|].
           destruct (N.eqb_spec (operation.dCreatorAddress d) (operation.vsCreator op));
             [done|discriminate].
        -- destruct (bool_decide _); [discriminate|].
           destruct (N.eqb_spec (operation.eCreatorAddress e) (operation.vsCreator op));
             [|discriminate].
           simpl negb. cbv iota. intros H.
           split; [done|]. intros x Hx. rewrite Hx in H.
           destruct (Z.gtb_spec x (operation.vsProcEpoch op)); [discriminate|lia].
        -- destruct (bool_decide (_ = operation.WithdrawalCode)); [discriminate|].
           destruct (N.eqb_spec (operation.wCreatorAddress w) (operation.vsCreator op));
             [|discriminate].
           simpl negb. cbv iota. intros H.
           split; [done|]. intros Hver Hbal.
           rewrite !bool_decide_eq_true_2 in H by done. discriminate.
      * intros H. repeat case_match; discriminate.
    + intros H. repeat case_match; discriminate.
Qed.

Lemma sync_op_initiating_tx_witness :
  (* the confirmation of the withdrawal request [txWithdrawal] *)
  let op := Fixture.syncOp operation.UpdateBalance Fixture.txWithdrawal 8 (Some 7) (Some 100) in
  let saved := Fixture.savedSync operation.UpdateBalance Fixture.txWithdrawal 8 (Some 7) None in
  ValidateValidatorSyncOp (Fixture.chain (Some saved)) Fixture.libs op 90 Fixture.txNew = None
  /\ exists initTx w,
       GetTransaction (Fixture.chain (Some saved)) Fixture.txWithdrawal = Some initTx
       /\ DecodeBytes Fixture.libs (types.Data initTx) = inr (operation.OpWithdrawal w)
       /\ operation.wCreatorAddress w = Fixture.creator.
Proof.
  intros op saved.
  assert (Hnone : ValidateValidatorSyncOp (Fixture.chain (Some saved)) Fixture.libs op 90
                    Fixture.txNew = None) by (vm_compute; reflexivity).
  split; [exact Hnone|].
  destruct (proj2 (sync_op_initiating_tx (Fixture.chain (Some saved)) Fixture.libs op 90
                     Fixture.txNew) ltac:(vm_compute; reflexivity) Hnone)
    as (initTx & iop & rc & Htx & Hdec & Hiop & _).
  destruct iop as [d|vs|e|w|r].
  - exfalso. change (GetTransaction (Fixture.chain (Some saved)) Fixture.txWithdrawal
                     = Some initTx) in Htx.
    vm_compute in Htx. injection Htx as <-. vm_compute in Hdec. discriminate.
  - destruct Hiop.
  - exfalso. change (GetTransaction (Fixture.chain (Some saved)) Fixture.txWithdrawal
                     = Some initTx) in Htx.
    vm_compute in Htx. injection Htx as <-. vm_compute in Hdec. discriminate.
  - exists initTx, w. split; [exact Htx|]. split; [exact Hdec|]. exact (proj1 Hiop).
  - destruct Hiop.
Defined.

(** ** The stand-alone validation of a further deposit *)

(** X15. [ValidatePartialDepositOp] and the processor agree on a further
    deposit. For a valid deposit request to a stored record that is not
    activated and has a withdrawal address: a deposit that the validation
    refuses is refused by [validatorDeposit] too, with the state
    untouched; and when no pending withdrawal blocks the record, the
    deposit is applied exactly when the validation accepts it. The two
    differ on a record without withdrawal address: the validation skips
    the comparison of the address, the processor dereferences it. *)
Theorem partial_deposit_validation p s caller toAddr value op txHash cur :
  depositRequestValid p s caller toAddr value op ->
  storeWellFormed s ->
  vm.validators s !! operation.dCreatorAddress op = Some cur ->
  common.MaxUint64 <= valStore.ActivationEra cur ->
  let run := validatorDeposit p s caller toAddr (Some value) op txHash in
  let check := ValidatePartialDepositOp (lib p) cur op in
  (is_Some (valStore.WithdrawalAddress cur) ->
   (forall e, check = Some e -> exists e', run = (s, Err e'))
   /\ (inFlight p (valStore.Version cur) (valStore.GetWithdrawalTx cur) = false ->
       (forall v, validatorEncodeErr (lib p) v = None) ->
       check = None <-> exists s', run = (s', Ok (RetValue32 value))))
  /\ (valStore.WithdrawalAddress cur = None ->
      valStore.PubKey cur = operation.dPubKey op ->
      run = (s, Panic)
      /\ forall e, check = Some e ->
           e = ErrNew "mismatch validator delegating stake rules" \/ exists x, e = ErrExt x).
Proof.
  intros Hvalid Hwf Hcur Hact run check. subst run check.
  rewrite (deposit_existing_record _ _ _ _ _ _ _ _ Hvalid Hcur Hact).
  unfold ValidatePartialDepositOp.
  rewrite (Hwf _ _ Hcur), N.eqb_refl. simpl negb. cbv iota.
  split.
  - intros [w ->].
    destruct (negb (valStore.PubKey cur =? operation.dPubKey op)%N).
    { split; [by eauto|]. intros _ _. split; [discriminate|]. by intros [? ?]. }
    destruct (negb (w =? operation.dWithdrawalAddress op)%N).
    { split; [by eauto|]. intros _ _. split; [discriminate|]. by intros [? ?]. }
    destruct (MarshalDelegatingStake (lib p) (valStore.DelegatingStake cur)) as [x|curDlg].
    { split; [by eauto|]. intros _ _. split; [discriminate|]. by intros [? ?]. }
    destruct (MarshalDelegatingStake (lib p) (operation.dDelegatingStake op)) as [x|opDlg].
    { split; [by eauto|]. intros _ _. split; [discriminate|]. by intros [? ?]. }
    destruct (negb (bool_decide (curDlg = opDlg))).
    { split; [by eauto|]. intros _ _. split; [discriminate|]. by intros [? ?]. }
    split; [discriminate|]. intros -> Henc. split; [|done]. intros _.
    unfold Storage.SetValidator. rewrite Henc. by eauto.
  - intros -> ->. rewrite N.eqb_refl. simpl negb. cbv iota. split; [done|].
    intros e. repeat case_match; intros [= <-]; by eauto.
Qed.

Lemma partial_deposit_validation_witness :
  let p := Fixture.processor 55 None in
  let s := Cases.stateTwo Cases.deposited in
  let other := operation.mkDeposit Fixture.pubKey Fixture.creator Fixture.stranger
                 Fixture.signature None in
  ValidatePartialDepositOp Fixture.libs Cases.deposited Fixture.depositOp = None
  /\ (exists s', validatorDeposit p s Fixture.stranger Fixture.stateAddress
                   (Some 12000000000000000000) Fixture.depositOp Fixture.txNew
                 = (s', Ok (RetValue32 12000000000000000000)))
  /\ (exists e', validatorDeposit p s Fixture.stranger Fixture.stateAddress
                   (Some 12000000000000000000) other Fixture.txNew
                 = (s, Err e')).
Proof.
  intros p s other.
  assert (Hwf : storeWellFormed s).
  { intros a w Hl. unfold s, Cases.stateTwo in Hl. simpl in Hl.
    apply lookup_singleton_Some in Hl. destruct Hl as [<- <-]. reflexivity. }
  assert (Hact : common.MaxUint64 <= valStore.ActivationEra Cases.deposited)
    by reflexivity.
  assert (Hvalid : forall op, operation.dPubKey op = Fixture.pubKey ->
             operation.dSignature op = Fixture.signature ->
             operation.dDelegatingStake op = None ->
             depositRequestValid p s Fixture.stranger Fixture.stateAddress
               12000000000000000000 op).
  { intros op Hpk Hsig Hdlg. split; [reflexivity|].
    split; [simpl; by rewrite Hsig|].
    split; [vm_compute; congruence|]. split; [reflexivity|].
    split; [vm_compute; congruence|]. exists None.
    unfold delegatingDataAccepted. by rewrite Hdlg. }
  assert (Hcheck : ValidatePartialDepositOp Fixture.libs Cases.deposited Fixture.depositOp
                   = None) by reflexivity.
  split; [exact Hcheck|]. split.
  - apply (proj2 (proj1 (partial_deposit_validation p s Fixture.stranger Fixture.stateAddress
                           12000000000000000000 Fixture.depositOp Fixture.txNew
                           Cases.deposited (Hvalid Fixture.depositOp eq_refl eq_refl eq_refl)
                           Hwf eq_refl Hact)
                    (mk_is_Some _ _ eq_refl))); [reflexivity|reflexivity|exact Hcheck].
  - apply (proj1 (proj1 (partial_deposit_validation p s Fixture.stranger Fixture.stateAddress
                           12000000000000000000 other Fixture.txNew
                           Cases.deposited (Hvalid other eq_refl eq_refl eq_refl)
                           Hwf eq_refl Hact)
                    (mk_is_Some _ _ eq_refl))
             (ErrNewHash "mismatch validator withdrawal address (expect=%#x)"
                Fixture.withdrawalAddress)).
    reflexivity.
Defined.

(** ** Where a call moves money *)

(** X16. [Call] can move money in two cases only. A deposit can change
    the balance of its sender and of nobody else; a sync operation of type
    UpdateBalance is the only other operation after which a balance may
    differ: an exit request, a withdrawal request, an Activate or a
    Deactivate sync operation and any other operation leave all balances
    as they are (a withdrawal request pays nothing by itself). A call
    that returns an error leaves all balances as they are. *)
Theorem Call_balances p s caller toAddr value msg s' r :
  Call p s caller toAddr value msg = (s', r) ->
  match DecodeBytes (lib p) (msgData msg) with
  | inl _ => s' = s
  | inr (operation.OpDeposit _) =>
      forall a, a <> caller -> vm.GetBalance s' a = vm.GetBalance s a
  | inr (operation.OpValidatorSync sy) =>
      operation.vsOpType sy = operation.UpdateBalance
      \/ vm.balances s' = vm.balances s
  | inr _ => vm.balances s' = vm.balances s
  end
  /\ (forall e, r = Err e -> vm.balances s' = vm.balances s).
Proof.
  unfold Call. intros H.
  destruct (DecodeBytes (lib p) (msgData msg)) as [err|op].
  { inversion H; subst. split; [done|]. done. }
  cbv zeta in H. unfold vm.Snapshot, vm.RevertToSnapshot in H.
  set (s0 := vm.SetNonce s caller _) in H.
  assert (Hs0 : vm.balances s0 = vm.balances s) by reflexivity.
  assert (Hg0 : forall a, vm.GetBalance s0 a = vm.GetBalance s a) by reflexivity.
  destruct op as [d|sy|ex|w|rl].
  - destruct (validatorDeposit _ _ _ _ _ _ _) as [s1 r1] eqn:E.
    apply validatorDeposit_frame in E. destruct E as (_ & _ & E).
    destruct r1; inversion H; subst; (split; [|done]); intros x Hx;
      first [apply Hg0 | rewrite (E x Hx); apply Hg0].
  - unfold syncOpProcessing in H.
    destruct (ValidateValidatorSyncOp _ _ _ _ _); [inversion H; subst; by auto|].
    unfold operation.vsOpCode in H.
    destruct (operation.vsOpType sy).
    + destruct (validatorActivate _ _ _) as [s1 r1] eqn:E.
      apply validatorActivate_frame in E. destruct E as (E & _).
      destruct r1; inversion H; subst; (split; [right|]; by rewrite ?E).
    + destruct (validatorDeactivate _ _ _) as [s1 r1] eqn:E.
      apply validatorDeactivate_frame in E. destruct E as (E & _).
      destruct r1; inversion H; subst; (split; [right|]; by rewrite ?E).
    + split; [by left|].
      destruct (validatorUpdateBalance _ _ _) as [s1 r1].
      destruct r1; inversion H; subst; done.
  - destruct (validatorExit _ _ _ _ _ _) as [s1 r1] eqn:E.
    apply validatorExit_frame in E. destruct E as (E & _).
    destruct r1; inversion H; subst; (split; by rewrite ?E).
  - destruct (validatorWithdrawal _ _ _ _ _ _) as [s1 r1] eqn:E.
    apply validatorWithdrawal_frame in E. destruct E as (E & _).
    destruct r1; inversion H; subst; (split; by rewrite ?E).
  - inversion H; subst; done.
Qed.

Lemma Call_balances_witness :
  (* a withdrawal request of 4 wat by the depositor of 10 wat *)
  let p := Fixture.processor 90 None in
  let s := Cases.stateTwo Cases.deposited in
  let r := Call p s Fixture.depositor Fixture.stateAddress None
             (mkMessage Fixture.txNew [3; 4000000000000000000]) in
  r.2 = Ok (RetAddressBytes Fixture.creator)
  /\ vm.balances r.1 = vm.balances s.
Proof.
  intros p s r. split; [vm_compute; reflexivity|].
  pose proof (proj1 (Call_balances p s Fixture.depositor Fixture.stateAddress None
                       (mkMessage Fixture.txNew [3; 4000000000000000000]) r.1 r.2
                       (surjective_pairing r))) as H.
  exact H.
Defined.

(** ** The intrinsic gas *)

(** The count of the non-zero bytes does not exceed the length of the
    data, so it does not wrap around. *)
Lemma nonZeroBytes_bound (data : list Z) :
  Z.of_nat (length data) <= common.MaxUint64 ->
  0 <= core.nonZeroBytes data <= Z.of_nat (length data).
Proof.
  unfold core.nonZeroBytes.
  assert (H : forall l n, 0 <= n -> n + Z.of_nat (length l) <= common.MaxUint64 ->
            n <= foldl (fun nz byt => if negb (byt =? 0) then common.wrap64 (nz + 1) else nz)
                   n l <= n + Z.of_nat (length l)).
  { induction l as [|b l IH]; intros n Hn Hlen; simpl in *; [lia|].
    unfold common.MaxUint64 in *.
    destruct (negb (b =? 0)).
    - assert (Hw : common.wrap64 (n + 1) = n + 1)
        by (unfold common.wrap64; apply Z.mod_small; lia).
      rewrite Hw. specialize (IH (n + 1)). lia.
    - specialize (IH n). lia. }
  intros Hlen. specialize (H data 0). lia.
Qed.

(** The overflow guard of [IntrinsicGas]: the quotient is below the count
    exactly when adding the price of the count would exceed [uint64]. *)
Lemma overflow_guard gas price n :
  0 < price -> 0 <= gas <= common.MaxUint64 ->
  (common.wrap64 (common.MaxUint64 - gas) / price <? n)
  = negb (gas + n * price <=? common.MaxUint64).
Proof.
  intros Hp Hg.
  assert (Hw : common.wrap64 (common.MaxUint64 - gas) = common.MaxUint64 - gas)
    by (unfold common.wrap64, common.MaxUint64 in *; apply Z.mod_small; lia).
  rewrite Hw.
  destruct (Z.leb_spec (gas + n * price) common.MaxUint64) as [Hle|Hgt]; simpl.
  - apply Z.ltb_ge. apply Z.div_le_lower_bound; lia.
  - apply Z.ltb_lt. apply Z.div_lt_upper_bound; lia.
Qed.

(** X17. The overflow check of [IntrinsicGas] is exact. For a message
    without access list that is not a validator sync operation, with
    starting gas [base] ([TxGasContractCreation] for a contract creation,
    [TxGas] otherwise): the gas is base + nz * TxDataNonZeroGasEIP2028 +
    z * TxDataZeroGas, for nz non-zero and z zero bytes of data, computed
    without wrap-around, whenever this sum fits a [uint64]; and
    [ErrGasUintOverflow] is returned exactly when it does not. *)
Theorem IntrinsicGas_exact {A : Type} (g : core.GasParams) (lb : externals)
    (StorageKeys : list A -> Z) (data : list Z) (isContractCreation isValidatorOp : bool) :
  0 <= core.TxGas g <= common.MaxUint64 ->
  0 <= core.TxGasContractCreation g <= common.MaxUint64 ->
  0 < core.TxDataNonZeroGasEIP2028 g ->
  0 < core.TxDataZeroGas g ->
  Z.of_nat (length data) <= common.MaxUint64 ->
  (isContractCreation = true \/ isValidatorOp = false
   \/ exists op, DecodeBytes lb data = inr op
                 /\ forall v, op <> operation.OpValidatorSync v) ->
  let base := if isContractCreation then core.TxGasContractCreation g else core.TxGas g in
  let nz := core.nonZeroBytes data in
  let z := Z.of_nat (length data) - nz in
  let total := base + nz * core.TxDataNonZeroGasEIP2028 g + z * core.TxDataZeroGas g in
  0 <= nz /\ 0 <= z
  /\ core.IntrinsicGas g lb StorageKeys data None isContractCreation isValidatorOp
     = if total <=? common.MaxUint64 then inl total else inr core.ErrGasUintOverflow.
Proof.
  intros HG HC HNZ HZ Hlen Hkind base nz z total.
  pose proof (nonZeroBytes_bound data Hlen) as Hnz. fold nz in Hnz.
  split; [lia|]. split; [lia|].
  unfold core.IntrinsicGas.
  assert (Hstart : (if isContractCreation then inr (Some (core.TxGasContractCreation g))
                    else if isValidatorOp
                         then match DecodeBytes lb data with
                              | inl err => inl err
                              | inr (operation.OpValidatorSync _) => inr None
                              | inr _ => inr (Some (core.TxGas g))
                              end
                         else inr (Some (core.TxGas g)))
                   = @inr ExtError _ (Some base)).
  { subst base. destruct isContractCreation; [done|].
    destruct Hkind as [Hk | [-> | (op & -> & Hop)]]; [done|done|].
    destruct isValidatorOp; [|done].
    destruct op; try done. by destruct (Hop v). }
  rewrite Hstart.
  assert (Hbase : 0 <= base <= common.MaxUint64)
    by (subst base; destruct isContractCreation; lia).
  clear Hstart Hkind. cbv zeta. fold nz.
  destruct (Z.ltb_spec 0 (Z.of_nat (length data))) as [Hpos|Hzero].
  - rewrite (overflow_guard base _ nz HNZ Hbase).
    destruct (Z.leb_spec (base + nz * core.TxDataNonZeroGasEIP2028 g) common.MaxUint64)
      as [H1|H1]; simpl negb; cbv iota.
    + assert (Hw1 : common.wrap64
                      (base + common.wrap64 (nz * core.TxDataNonZeroGasEIP2028 g))
                    = base + nz * core.TxDataNonZeroGasEIP2028 g).
      { unfold common.wrap64, common.MaxUint64 in *.
        rewrite (Z.mod_small (nz * _)) by nia. apply Z.mod_small. nia. }
      rewrite Hw1.
      assert (Hwz : common.wrap64 (Z.of_nat (length data) - nz) = z).
      { subst z. unfold common.wrap64, common.MaxUint64 in *. apply Z.mod_small. lia. }
      rewrite Hwz.
      rewrite (overflow_guard _ _ z HZ) by nia.
      fold total.
      destruct (Z.leb_spec total common.MaxUint64) as [H2|H2]; simpl negb; cbv iota.
      * f_equal. subst total. unfold common.wrap64, common.MaxUint64 in *.
        rewrite (Z.mod_small (z * _)) by nia. apply Z.mod_small. nia.
      * reflexivity.
    + replace (total <=? common.MaxUint64) with false; [reflexivity|].
      symmetry. apply Z.leb_gt. subst total z. nia.
  - assert (nz = 0) as Hnz0 by lia.
    replace total with base by (subst total z; rewrite Hnz0; lia).
    by replace (base <=? common.MaxUint64) with true by (symmetry; apply Z.leb_le; lia).
Qed.
Lemma IntrinsicGas_exact_witness :
  (* a withdrawal request of two bytes, one of them zero *)
  core.IntrinsicGas Cases.gas Fixture.libs Cases.storageKeys [3; 0] None false true
  = inl 21020.
Proof.
  assert (Hmax : common.MaxUint64 = 18446744073709551615) by reflexivity.
  refine (proj2 (proj2 (IntrinsicGas_exact Cases.gas Fixture.libs Cases.storageKeys [3; 0]
                          false true _ _ _ _ _ _)));
    try (simpl; rewrite ?Hmax; lia).
  right. right. exists (operation.OpWithdrawal (Fixture.withdrawalOp 0)).
  split; [reflexivity|]. intros v. discriminate.
Defined.

(** [IntrinsicGas] returns a codec error only when it was asked to decode
    the data, and the codec failed. *)
Lemma IntrinsicGas_decode_error {A : Type} (g : core.GasParams) (lb : externals)
    (StorageKeys : list A -> Z) data al isContractCreation isValidatorOp e :
  core.IntrinsicGas g lb StorageKeys data al isContractCreation isValidatorOp
  = inr (core.ErrDecode e) ->
  isContractCreation = false /\ isValidatorOp = true /\ DecodeBytes lb data = inl e.
Proof.
  unfold core.IntrinsicGas. cbv zeta.
  destruct isContractCreation.
  { intros H. repeat case_match; discriminate. }
  destruct isValidatorOp.
  - destruct (DecodeBytes lb data) as [err|op].
    + intros [= ->]. done.
    + intros H. repeat case_match; discriminate.
  - intros H. repeat case_match; discriminate.
Qed.

(** A message classified as a validator tx, or as unknown, goes to the
    validators state address, which is not a token, carries data, and its
    class follows the decoding of its data. *)
Lemma GetTxType_validator {A : Type} (lb : externals) (msg : core.Message A) vp tk :
  let t := core.GetTxType lb msg vp tk in
  t = core.ValidatorSyncTxType \/ t = core.ValidatorMethodTxType
  \/ t = core.UnknownTxType ->
  exists p to,
    vp = Some p /\ core.To msg = Some to /\ to = GetValidatorsStateAddress p
    /\ core.Data msg <> []
    /\ (forall IsToken, core.tp tk = Some IsToken -> IsToken to = false)
    /\ match DecodeBytes lb (core.Data msg) with
       | inl _ => t = core.UnknownTxType
       | inr (operation.OpValidatorSync _) => t = core.ValidatorSyncTxType
       | inr _ => t = core.ValidatorMethodTxType
       end.
Proof.
  intros t. subst t. unfold core.GetTxType.
  destruct (core.Data msg) as [|b data] eqn:Hdata.
  { simpl. intros [H|[H|H]]; discriminate. }
  replace (Z.of_nat (length (b :: data)) =? 0) with false
    by (symmetry; apply Z.eqb_neq; simpl length; lia).
  destruct (core.To msg) as [to|] eqn:Hto.
  2:{ intros [H|[H|H]]; repeat case_match; discriminate. }
  destruct (match core.tp tk with Some IsToken => IsToken to | None => false end) eqn:Htok.
  { intros [H|[H|H]]; discriminate. }
  destruct vp as [p|]; [|intros [H|[H|H]]; discriminate].
  unfold IsValidatorOp.
  destruct (N.eqb_spec to (GetValidatorsStateAddress p)) as [Heq|Hne];
    [|intros [H|[H|H]]; discriminate].
  intros _. exists p, to. split; [done|]. split; [done|]. split; [done|].
  split; [done|]. split.
  { intros f Hf. by rewrite Hf in Htok. }
  destruct (DecodeBytes lb (b :: data)) as [e|op]; [done|]. by destruct op.
Qed.

(** X18. The intrinsic gas of validator transactions, as [TransitionDb]
    computes it from the class of the message. A message classified as a
    validator sync operation costs no intrinsic gas, whatever its data
    and its access list. The codec error of [IntrinsicGas] cannot occur:
    the data of a message classified as a validator operation decodes,
    and a message to the validators state address whose data does not
    decode is classified as unknown and priced like a plain transaction.
    Only a non-empty message to the validators state address, which is not
    a token, is classified as a validator operation. *)
Theorem transition_gas_of_validator_tx {A : Type} (g : core.GasParams) (lb : externals)
    (StorageKeys : list A -> Z) (msg : core.Message A) vp tk :
  let txType := core.GetTxType lb msg vp tk in
  let gas := core.transitionIntrinsicGas g lb StorageKeys msg vp tk in
  (txType = core.ValidatorSyncTxType -> gas = inl 0)
  /\ (forall e, gas <> inr (core.ErrDecode e))
  /\ (txType = core.UnknownTxType ->
      gas = core.IntrinsicGas g lb StorageKeys (core.Data msg) (core.AccessList msg)
              false false)
  /\ (txType = core.ValidatorSyncTxType \/ txType = core.ValidatorMethodTxType ->
      exists p to op,
        vp = Some p /\ core.To msg = Some to /\ IsValidatorOp p (Some to) = true
        /\ core.Data msg <> []
        /\ (forall IsToken, core.tp tk = Some IsToken -> IsToken to = false)
        /\ DecodeBytes lb (core.Data msg) = inr op
        /\ (txType = core.ValidatorSyncTxType <-> exists v, op = operation.OpValidatorSync v)).
Proof.
  intros txType gas. subst gas. unfold core.transitionIntrinsicGas. cbv zeta.
  fold txType.
  pose proof (GetTxType_validator lb msg vp tk) as Hcls. cbv zeta in Hcls.
  fold txType in Hcls.
  split; [|split; [|split]].
  - intros Hsync. destruct (Hcls (or_introl Hsync)) as (p & to & _ & _ & _ & _ & _ & Hdec).
    rewrite Hsync. unfold core.IntrinsicGas. simpl bool_decide. cbv iota.
    simpl orb. cbv iota.
    destruct (DecodeBytes lb (core.Data msg)) as [e|op]; [by rewrite Hsync in Hdec|].
    destruct op; try (rewrite Hsync in Hdec; discriminate). reflexivity.
  - intros e He. apply IntrinsicGas_decode_error in He.
    destruct He as (_ & Hvo & Hdec).
    apply orb_true_iff in Hvo.
    assert (Ht : txType = core.ValidatorSyncTxType \/ txType = core.ValidatorMethodTxType
                 \/ txType = core.UnknownTxType).
    { destruct Hvo as [H|H]; apply bool_decide_eq_true_1 in H; auto. }
    destruct (Hcls Ht) as (p & to & _ & _ & _ & _ & _ & Hcase).
    rewrite Hdec in Hcase. rewrite Hcase in Hvo.
    destruct Hvo as [H|H]; apply bool_decide_eq_true_1 in H; discriminate.
  - intros ->. reflexivity.
  - intros Ht.
    assert (Ht' : txType = core.ValidatorSyncTxType \/ txType = core.ValidatorMethodTxType
                  \/ txType = core.UnknownTxType) by (destruct Ht; auto).
    destruct (Hcls Ht') as (p & to & Hvp & Hto & Hst & Hdata & Htok & Hcase).
    destruct (DecodeBytes lb (core.Data msg)) as [e|op].
    { rewrite Hcase in Ht. destruct Ht; discriminate. }
    exists p, to, op. split; [done|]. split; [done|].
    split; [unfold IsValidatorOp; by apply N.eqb_eq|].
    split; [done|]. split; [done|]. split; [done|].
    destruct op; rewrite Hcase; split; try discriminate; try (by intros [? ?]).
    intros _. by eexists.
Qed.

Lemma transition_gas_of_validator_tx_witness :
  (* the confirmation of an activation, sent to the validators state
     address with an access list *)
  let msg := core.mkMessage [4; 8] (Some Fixture.stateAddress)
               (Some [(Fixture.creator, [1%N; 2%N])]) in
  let vp := Some (Fixture.processor 90 None) in
  core.GetTxType Fixture.libs msg vp Cases.noTokens = core.ValidatorSyncTxType
  /\ core.transitionIntrinsicGas Cases.gas Fixture.libs Cases.storageKeys msg vp
       Cases.noTokens = inl 0.
Proof.
  intros msg vp.
  assert (Ht : core.GetTxType Fixture.libs msg vp Cases.noTokens
               = core.ValidatorSyncTxType) by reflexivity.
  split; [exact Ht|].
  exact (proj1 (transition_gas_of_validator_tx Cases.gas Fixture.libs Cases.storageKeys
                  msg vp Cases.noTokens) Ht).
Defined.

(** ** The trial period *)

(** X19. The rules in force for a record with delegating stake data. A
    record that is not activated in the era of the block is in its trial
    period, and no era is read. For an activated record, with [start] the
    first slot of the first epoch of the activation era and the end of
    the trial at start + TrialPeriod (within [uint64]): the record is in
    trial while the slot of the block is not after the end; after the end
    it is out of trial unless it has exited (exit era not after the era
    of the block) and the first slot of the exit era is not after the
    end of the trial: a validator that left during its trial stays on
    trial rules. [actualRules] returns the trial rules exactly in the
    trial period. *)
Theorem trial_period_rules p v ds :
  valStore.DelegatingStake v = Some ds ->
  let trial (b : bool) := actualRules p v
                 = Ok (if b then operation.TrialRules ds else operation.Rules ds, b)
                 /\ isValidatorTrialPeriod p v = Ok b in
  (vm.Era (ctx p) < valStore.ActivationEra v -> trial true)
  /\ (forall actEra start,
        valStore.ActivationEra v <= vm.Era (ctx p) ->
        ReadEra (bc p) (valStore.ActivationEra v) = Some actEra ->
        SlotOfEpochStart (bc p) (era.From actEra) = inr start ->
        0 <= start + operation.TrialPeriod ds <= common.MaxUint64 ->
        let endTrial := start + operation.TrialPeriod ds in
        (vm.Slot (ctx p) <= endTrial -> trial true)
        /\ (endTrial < vm.Slot (ctx p) ->
            (vm.Era (ctx p) < valStore.ExitEra v -> trial false)
            /\ (forall exitEra exitSlot,
                  valStore.ExitEra v <= vm.Era (ctx p) ->
                  ReadEra (bc p) (valStore.ExitEra v) = Some exitEra ->
                  SlotOfEpochStart (bc p) (era.From exitEra) = inr exitSlot ->
                  trial (exitSlot <=? endTrial)))).
Proof.
  intros Hds trial.
  assert (Hrules : forall b, isValidatorTrialPeriod p v = Ok b -> trial b).
  { intros b Hb. split; [|exact Hb]. unfold actualRules. by rewrite Hds, Hb. }
  unfold isValidatorTrialPeriod, valStore.GetActivationEra, valStore.GetExitEra in Hrules.
  split.
  - intros Hlt. apply Hrules.
    by replace (valStore.ActivationEra v >? vm.Era (ctx p)) with true
      by (symmetry; rewrite Z.gtb_ltb; apply Z.ltb_lt; exact Hlt).
  - intros actEra start Hact Hera Hstart Hrange endTrial.
    replace (valStore.ActivationEra v >? vm.Era (ctx p)) with false in Hrules
      by (symmetry; rewrite Z.gtb_ltb; apply Z.ltb_ge; exact Hact).
    rewrite Hera, Hstart, Hds in Hrules. cbv zeta in Hrules.
    assert (Hw : common.wrap64 (start + operation.TrialPeriod ds) = endTrial).
    { subst endTrial. unfold common.wrap64, common.MaxUint64 in *.
      apply Z.mod_small. lia. }
    rewrite Hw in Hrules. split.
    + intros Hle. apply Hrules.
      by replace (endTrial >=? vm.Slot (ctx p)) with true
        by (symmetry; rewrite Z.geb_leb; apply Z.leb_le; exact Hle).
    + intros Hgt.
      replace (endTrial >=? vm.Slot (ctx p)) with false in Hrules
        by (symmetry; rewrite Z.geb_leb; apply Z.leb_gt; exact Hgt).
      split.
      * intros Hin. apply Hrules.
        by replace (valStore.ExitEra v <=? vm.Era (ctx p)) with false
          by (symmetry; apply Z.leb_gt; exact Hin).
      * intros exitEra exitSlot Hout Hex Hslot. apply Hrules.
        replace (valStore.ExitEra v <=? vm.Era (ctx p)) with true
          by (symmetry; apply Z.leb_le; exact Hout).
        rewrite Hex, Hslot. by destruct (exitSlot <=? endTrial).
Qed.

Lemma trial_period_rules_witness :
  (* activated in era 0, which starts at slot 0, with a trial of 64
     slots; the blocks are of era 5 *)
  let ds := operation.mkStakeData Fixture.rules 64 Fixture.rules in
  let v := Fixture.validator ∅ valStore.Ver1 0 None None (Some ds) in
  isValidatorTrialPeriod (Fixture.processor 64 None) v = Ok true
  /\ isValidatorTrialPeriod (Fixture.processor 65 None) v = Ok false.
Proof.
  intros ds v.
  assert (Hmax : common.MaxUint64 = 18446744073709551615) by reflexivity.
  pose proof (fun slot =>
                proj2 (trial_period_rules (Fixture.processor slot None) v ds eq_refl)
                  (era.mkEra 0 0 9) 0 ltac:(discriminate) eq_refl eq_refl
                  ltac:(simpl; rewrite Hmax; lia)) as H.
  split.
  - apply (proj1 (H 64)). discriminate.
  - apply (proj1 (proj2 (H 65) ltac:(reflexivity))). reflexivity.
Defined.

(** ** The portions of a withdrawal under delegating stake rules *)

(** X20. How [applyDelegatingStakeRules] splits a withdrawal of a
    non-negative amount into a profit portion and a stake portion, from
    the balance field of the operation and the effective balance. While
    the balance does not exceed the effective balance, the two portions
    add up to the amount: the profit portion is what balance + amount has
    above the effective balance, the stake portion is the rest. When the
    balance exceeds the effective balance, the stake portion is zero and
    the profit portion is balance - effective balance: it does not depend
    on the amount of the operation, and it exceeds the amount as soon as
    the balance is more than the amount above the effective balance. *)
Theorem withdrawal_portions p balance amount :
  0 <= amount ->
  let effective := params.EffectiveBalance (Config (bc p)) * common.BigWat in
  let P := profitOpAmt p balance amount in
  let S := stakeOpAmt p balance amount in
  (balance <= effective ->
   P = Z.max 0 (balance + amount - effective) /\ S = amount - P
   /\ 0 <= P <= amount /\ P + S = amount)
  /\ (effective < balance ->
      P = balance - effective /\ S = 0
      /\ (effective + amount < balance -> amount < P + S)).
Proof.
  intros Hamt effective P S. subst P S.
  unfold profitOpAmt, stakeOpAmt, profitBalance. cbv zeta. fold effective.
  split; intros Hb.
  - destruct (Z.ltb_spec (balance + amount - effective) 0) as [H0|H0].
    + replace (0 - amount <=? 0) with true by (symmetry; apply Z.leb_le; lia). lia.
    + replace (balance + amount - effective - amount <=? 0) with true
        by (symmetry; apply Z.leb_le; lia). lia.
  - replace (balance + amount - effective <? 0) with false
      by (symmetry; apply Z.ltb_ge; lia).
    replace (balance + amount - effective - amount <=? 0) with false
      by (symmetry; apply Z.leb_gt; lia). lia.
Qed.

Lemma withdrawal_portions_witness :
  (* effective balance 3200 wat; a withdrawal of 10 wat that leaves a
     balance of 3300 wat is distributed as a profit of 100 wat *)
  let p := Fixture.processor 90 None in
  profitOpAmt p 3300000000000000000000 10000000000000000000 = 100000000000000000000
  /\ stakeOpAmt p 3300000000000000000000 10000000000000000000 = 0.
Proof.
  intros p.
  destruct (proj2 (withdrawal_portions p 3300000000000000000000 10000000000000000000
                     ltac:(lia)) ltac:(reflexivity)) as (HP & HS & _).
  split; [rewrite HP; reflexivity|exact HS].
Defined.
